(** * Turing Pi 2 BMC API client (package [bmcapi]): model and properties

    The development follows [bmcapi/bmcapi.go].  The Go program talks to
    two libraries, [encoding/json] and [net/http]; the first is modelled
    by a byte-at-a-time scanner and typed decoders (module [Json]), the
    second by a transport that is a function of the requests it has seen
    so far (module [Http]).  The package itself is module [bmcapi], and
    the example program that uses it is module [Main]. *)

From Stdlib Require Import ZArith NArith Ascii String List Lia Bool DecimalString.
From stdpp Require Import base option list strings gmap.

Local Open Scope string_scope.
Local Open Scope N_scope.

(** ** Bytes *)

Definition byte_of (c : ascii) : N := N_of_ascii c.

Definition chr (n : N) : ascii := ascii_of_N n.

(** [isSpace] of the scanner: space, tab, carriage return, line feed. *)
Definition isSpace (c : ascii) : bool :=
  Ascii.eqb c " " || Ascii.eqb c "009" || Ascii.eqb c "013" || Ascii.eqb c "010".

Definition isDigit (c : ascii) : bool :=
  (48 <=? byte_of c) && (byte_of c <=? 57).

Definition isDigit19 (c : ascii) : bool :=
  (49 <=? byte_of c) && (byte_of c <=? 57).

Definition isHex (c : ascii) : bool :=
  isDigit c
  || ((97 <=? byte_of c) && (byte_of c <=? 102))
  || ((65 <=? byte_of c) && (byte_of c <=? 70)).

Definition dquote : ascii := "034".
Definition backslash : ascii := "092".

(** Go string literals and JSON texts that contain double quotes are
    written here with an apostrophe in place of each double quote; [js]
    puts the double quotes back. *)
Fixpoint js (s : string) : string :=
  match s with
  | "" => ""
  | String c t => String (if Ascii.eqb c "'" then dquote else c) (js t)
  end.

(** Append one byte at the end of a string. *)
Definition snoc (s : string) (c : ascii) : string := s +:+ String c "".

Module Json.

(** ** JSON values and errors *)

#[local] Unset Elimination Schemes.

Inductive json : Type :=
| JNull
| JBool (b : bool)
| JNum (lit : string)
| JStr (s : string)
| JArr (elems : list json)
| JObj (members : list (string * json)).

#[local] Set Elimination Schemes.

(** The errors [json.Unmarshal] reports: a [SyntaxError] of the scanner
    (offending byte and context), its end-of-input and nesting-depth
    variants, and the [UnmarshalTypeError] of the decoder (JSON kind and
    Go type). *)
Inductive json_error : Type :=
| SyntaxError (c : ascii) (context : string)
| UnexpectedEnd
| MaxDepth
| UnmarshalTypeError (value : string) (gotype : string).

(** ** String literals: [unquoteBytes] *)

Definition hexval (c : ascii) : N :=
  let n := byte_of c in
  if isDigit c then n - 48
  else if (97 <=? n) && (n <=? 102) then n - 87
  else n - 55.

Definition getu4 (a b c d : ascii) : N :=
  hexval a * 4096 + hexval b * 256 + hexval c * 16 + hexval d.

(** [utf8.EncodeRune]; a surrogate or a rune above U+10FFFF is written as
    U+FFFD. *)
Definition encodeRune (r : N) : string :=
  if r <? 128 then String (chr r) ""
  else if r <? 2048 then
    String (chr (192 + N.shiftr r 6)) (String (chr (128 + N.land r 63)) "")
  else if ((55296 <=? r) && (r <? 57344)) || (1114111 <? r) then
    String (chr 239) (String (chr 191) (String (chr 189) ""))
  else if r <? 65536 then
    String (chr (224 + N.shiftr r 12))
      (String (chr (128 + N.land (N.shiftr r 6) 63))
         (String (chr (128 + N.land r 63)) ""))
  else
    String (chr (240 + N.shiftr r 18))
      (String (chr (128 + N.land (N.shiftr r 12) 63))
         (String (chr (128 + N.land (N.shiftr r 6) 63))
            (String (chr (128 + N.land r 63)) ""))).

Definition runeError : string := encodeRune 65533.

Definition isCont (c : ascii) : bool := (128 <=? byte_of c) && (byte_of c <=? 191).

(** The second byte that [utf8.DecodeRune] accepts after the lead byte
    [c], per lead-byte class; [seqLen] is the length of the sequence the
    lead byte announces (0: not a lead byte). *)
Definition second_ok (c c2 : ascii) : bool :=
  let n := byte_of c in let m := byte_of c2 in
  if n =? 224 then (160 <=? m) && (m <=? 191)
  else if n =? 237 then (128 <=? m) && (m <=? 159)
  else if n =? 240 then (144 <=? m) && (m <=? 191)
  else if n =? 244 then (128 <=? m) && (m <=? 143)
  else isCont c2.

Definition seqLen (c : ascii) : nat :=
  let n := byte_of c in
  if (194 <=? n) && (n <=? 223) then 2%nat
  else if (224 <=? n) && (n <=? 239) then 3%nat
  else if (240 <=? n) && (n <=? 244) then 4%nat
  else 0%nat.

Definition isHighSurrogate (r : N) : bool := (55296 <=? r) && (r <? 56320).
Definition isLowSurrogate (r : N) : bool := (56320 <=? r) && (r <? 57344).
Definition isSurrogate (r : N) : bool := (55296 <=? r) && (r <? 57344).

(** The single-character escapes the scanner lets through. *)
Definition escapeChar (e : ascii) : ascii :=
  if Ascii.eqb e "b" then "008"
  else if Ascii.eqb e "f" then "012"
  else if Ascii.eqb e "n" then "010"
  else if Ascii.eqb e "r" then "013"
  else if Ascii.eqb e "t" then "009"
  else e.

(** [unquote] takes the bytes between the quotes of a literal the scanner
    has accepted and returns the string it denotes: escapes are resolved,
    a surrogate pair of [\u] escapes becomes one rune, a lone surrogate
    and every byte that does not start a well-formed UTF-8 sequence become
    U+FFFD. *)
Fixpoint unquote (s : string) : string :=
  match s with
  | "" => ""
  | String c t =>
    if Ascii.eqb c backslash then
      match t with
      | String e t1 =>
        if Ascii.eqb e "u" then
          match t1 with
          | String h1 (String h2 (String h3 (String h4 t2))) =>
            let rr := getu4 h1 h2 h3 h4 in
            if isSurrogate rr then
              match t2 with
              | String b (String u (String k1 (String k2 (String k3 (String k4 t3))))) =>
                let rr1 := getu4 k1 k2 k3 k4 in
                if Ascii.eqb b backslash && Ascii.eqb u "u" && isHex k1 && isHex k2
                   && isHex k3 && isHex k4
                   && isHighSurrogate rr && isLowSurrogate rr1
                then encodeRune (65536 + (rr - 55296) * 1024 + (rr1 - 56320))
                       +:+ unquote t3
                else runeError +:+ unquote t2
              | _ => runeError +:+ unquote t2
              end
            else encodeRune rr +:+ unquote t2
          | _ => ""
          end
        else String (escapeChar e) (unquote t1)
      | "" => ""
      end
    else if byte_of c <? 128 then String c (unquote t)
    else
      match seqLen c, t with
      | 2%nat, String c2 t2 =>
        if isCont c2 then String c (String c2 (unquote t2))
        else runeError +:+ unquote t
      | 3%nat, String c2 (String c3 t3) =>
        if second_ok c c2 && isCont c3
        then String c (String c2 (String c3 (unquote t3)))
        else runeError +:+ unquote t
      | 4%nat, String c2 (String c3 (String c4 t4)) =>
        if second_ok c c2 && isCont c3 && isCont c4
        then String c (String c2 (String c3 (String c4 (unquote t4))))
        else runeError +:+ unquote t
      | _, _ => runeError +:+ unquote t
      end
  end.

(** ** The scanner

    Go's scanner is a state machine fed one byte at a time, with a stack
    of parse states; the machine below is the same one, and it builds the
    value while it validates.  A [frame] is one entry of Go's
    [parseState] stack together with what has been read of that array or
    object: [FKey] and [FColon] are [parseObjectKey] before and after the
    key, [FVal] and [FPair] are [parseObjectValue] before and after the
    value, [FArr] is [parseArrayValue].  Members and elements are kept
    in reading order. *)

Inductive frame : Type :=
| FArr (done : list json)
| FKey (done : list (string * json))
| FColon (done : list (string * json)) (key : string)
| FVal (done : list (string * json)) (key : string)
| FPair (done : list (string * json)).

Inductive numstate : Type :=
| SNeg | S0 | S1 | SDot | SDot0 | SE | SESign | SE0.

(** The step function of the scanner ([stateBeginValue], [stateInString],
    ...), with the bytes of the token being read. *)
Inductive mode : Type :=
| BeginValue
| BeginValueOrEmpty
| BeginStringOrEmpty
| BeginString
| InString (raw : string)
| InStringEsc (raw : string)
| InStringEscU (seen : nat) (raw : string)
| InNumber (ns : numstate) (raw : string)
| InLiteral (rest : string) (v : json)
| EndValue
| EndTop (v : json).

Inductive scan : Type :=
| Scanning (m : mode) (stack : list frame)
| ScanError (e : json_error).

Definition maxNestingDepth : N := 10000.

(** [pushParseState]: the new frame is refused beyond [maxNestingDepth]. *)
Definition pushParseState (f : frame) (m : mode) (stack : list frame) : scan :=
  if N.of_nat (length (f :: stack)) <=? maxNestingDepth
  then Scanning m (f :: stack)
  else ScanError MaxDepth.

(** A value has been read in full: it is the top-level value, the next
    element of the array on top of the stack, or the key or the value of
    the member being read. *)
Definition complete (v : json) (stack : list frame) : scan :=
  match stack with
  | [] => Scanning (EndTop v) []
  | FArr done :: st => Scanning EndValue (FArr (done ++ [v]) :: st)
  | FKey done :: st =>
    match v with
    | JStr k => Scanning EndValue (FColon done k :: st)
    | _ => ScanError (SyntaxError "000" "")
    end
  | FVal done k :: st => Scanning EndValue (FPair (done ++ [(k, v)]) :: st)
  | _ => ScanError (SyntaxError "000" "")
  end.

(** [stateEndValue] and [stateEndTop]. *)
Definition stateEndValue (stack : list frame) (c : ascii) : scan :=
  if isSpace c then Scanning EndValue stack
  else
    match stack with
    | FColon done k :: st =>
      if Ascii.eqb c ":" then Scanning BeginValue (FVal done k :: st)
      else ScanError (SyntaxError c "after object key")
    | FPair done :: st =>
      if Ascii.eqb c "," then Scanning BeginString (FKey done :: st)
      else if Ascii.eqb c "}" then complete (JObj done) st
      else ScanError (SyntaxError c "after object key:value pair")
    | FArr done :: st =>
      if Ascii.eqb c "," then Scanning BeginValue (FArr done :: st)
      else if Ascii.eqb c "]" then complete (JArr done) st
      else ScanError (SyntaxError c "after array element")
    | _ => ScanError (SyntaxError c "")
    end.

Definition stateEndTop (v : json) (c : ascii) : scan :=
  if isSpace c then Scanning (EndTop v) []
  else ScanError (SyntaxError c "after top-level value").

(** What the scanner does with byte [c] once the value [v] is complete
    (the byte after a number is looked at twice). *)
Definition afterValue (v : json) (stack : list frame) (c : ascii) : scan :=
  match complete v stack with
  | Scanning EndValue st => stateEndValue st c
  | Scanning (EndTop w) _ => stateEndTop w c
  | other => other
  end.

Definition stateBeginString (stack : list frame) (c : ascii) : scan :=
  if isSpace c then Scanning BeginString stack
  else if Ascii.eqb c dquote then Scanning (InString "") stack
  else ScanError (SyntaxError c "looking for beginning of object key string").

Definition stateBeginValue (stack : list frame) (c : ascii) : scan :=
  if isSpace c then Scanning BeginValue stack
  else if Ascii.eqb c "{" then pushParseState (FKey []) BeginStringOrEmpty stack
  else if Ascii.eqb c "[" then pushParseState (FArr []) BeginValueOrEmpty stack
  else if Ascii.eqb c dquote then Scanning (InString "") stack
  else if Ascii.eqb c "-" then Scanning (InNumber SNeg (String c "")) stack
  else if Ascii.eqb c "0" then Scanning (InNumber S0 (String c "")) stack
  else if Ascii.eqb c "t" then Scanning (InLiteral "rue" (JBool true)) stack
  else if Ascii.eqb c "f" then Scanning (InLiteral "alse" (JBool false)) stack
  else if Ascii.eqb c "n" then Scanning (InLiteral "ull" JNull) stack
  else if isDigit19 c then Scanning (InNumber S1 (String c "")) stack
  else ScanError (SyntaxError c "looking for beginning of value").

(** The states of a numeric literal ([stateNeg], [state0], [state1],
    [stateDot], [stateDot0], [stateE], [stateESign], [stateE0]). *)
Definition stateNumber (ns : numstate) (raw : string) (stack : list frame)
    (c : ascii) : scan :=
  let go ns' := Scanning (InNumber ns' (snoc raw c)) stack in
  let isE := Ascii.eqb c "e" || Ascii.eqb c "E" in
  let finish := afterValue (JNum raw) stack c in
  match ns with
  | SNeg =>
    if Ascii.eqb c "0" then go S0
    else if isDigit19 c then go S1
    else ScanError (SyntaxError c "in numeric literal")
  | S1 =>
    if isDigit c then go S1
    else if Ascii.eqb c "." then go SDot
    else if isE then go SE
    else finish
  | S0 =>
    if Ascii.eqb c "." then go SDot
    else if isE then go SE
    else finish
  | SDot =>
    if isDigit c then go SDot0
    else ScanError (SyntaxError c "after decimal point in numeric literal")
  | SDot0 =>
    if isDigit c then go SDot0
    else if isE then go SE
    else finish
  | SE =>
    if Ascii.eqb c "+" || Ascii.eqb c "-" then go SESign
    else if isDigit c then go SE0
    else ScanError (SyntaxError c "in exponent of numeric literal")
  | SESign =>
    if isDigit c then go SE0
    else ScanError (SyntaxError c "in exponent of numeric literal")
  | SE0 =>
    if isDigit c then go SE0
    else finish
  end.

(** One byte of input. *)
Definition step (m : mode) (stack : list frame) (c : ascii) : scan :=
  match m with
  | BeginValue => stateBeginValue stack c
  | BeginValueOrEmpty =>
    if isSpace c then Scanning BeginValueOrEmpty stack
    else if Ascii.eqb c "]" then stateEndValue stack c
    else stateBeginValue stack c
  | BeginStringOrEmpty =>
    if isSpace c then Scanning BeginStringOrEmpty stack
    else if Ascii.eqb c "}" then
      match stack with
      | FKey done :: st => stateEndValue (FPair done :: st) c
      | _ => ScanError (SyntaxError c "")
      end
    else stateBeginString stack c
  | BeginString => stateBeginString stack c
  | InString raw =>
    if Ascii.eqb c dquote then complete (JStr (unquote raw)) stack
    else if Ascii.eqb c backslash then Scanning (InStringEsc (snoc raw c)) stack
    else if byte_of c <? 32 then ScanError (SyntaxError c "in string literal")
    else Scanning (InString (snoc raw c)) stack
  | InStringEsc raw =>
    if Ascii.eqb c "b" || Ascii.eqb c "f" || Ascii.eqb c "n" || Ascii.eqb c "r"
       || Ascii.eqb c "t" || Ascii.eqb c backslash || Ascii.eqb c "/" || Ascii.eqb c dquote
    then Scanning (InString (snoc raw c)) stack
    else if Ascii.eqb c "u" then Scanning (InStringEscU 0 (snoc raw c)) stack
    else ScanError (SyntaxError c "in string escape code")
  | InStringEscU seen raw =>
    if isHex c then
      if (seen <? 3)%nat then Scanning (InStringEscU (S seen) (snoc raw c)) stack
      else Scanning (InString (snoc raw c)) stack
    else ScanError (SyntaxError c "in \u hexadecimal character escape")
  | InNumber ns raw => stateNumber ns raw stack c
  | InLiteral rest v =>
    match rest with
    | String e rest' =>
      if Ascii.eqb c e then
        match rest' with
        | "" => complete v stack
        | _ => Scanning (InLiteral rest' v) stack
        end
      else ScanError (SyntaxError c "in literal")
    | "" => ScanError (SyntaxError c "in literal")
    end
  | EndValue => stateEndValue stack c
  | EndTop v => stateEndTop v c
  end.

Fixpoint scanBytes (data : string) (s : scan) : scan :=
  match data, s with
  | String c data', Scanning m stack => scanBytes data' (step m stack c)
  | _, _ => s
  end.

(** The scanner's [eof]: at the end of the input the scanner is fed one
    space, and the input is a value only if that leaves it after a
    top-level value. *)
Definition eof (s : scan) : json_error + json :=
  match s with
  | ScanError e => inl e
  | Scanning m stack =>
    match step m stack " " with
    | Scanning (EndTop v) _ => inr v
    | ScanError e => inl e
    | _ => inl UnexpectedEnd
    end
  end.

(** [checkValid]: the scanner run over the whole input, then [eof]. *)
Definition parse (data : string) : json_error + json :=
  eof (scanBytes data (Scanning BeginValue [])).

(** ** The decoder

    [json.Unmarshal] decodes INTO the Go value it is given: what the
    input does not mention keeps its current content.  A value of the
    wrong JSON kind is skipped and reported as [UnmarshalTypeError]; the
    decoder goes on and returns the first error it has saved
    ([d.savedError]).  [Dec A] threads that saved error. *)

Definition Dec (A : Type) : Type := option json_error -> A * option json_error.

Definition ret {A} (a : A) : Dec A := fun saved => (a, saved).

Definition bind {A B} (m : Dec A) (k : A -> Dec B) : Dec B :=
  fun saved => let (a, saved') := m saved in k a saved'.

Notation "x <- m ;; k" := (bind m (fun x => k))
  (at level 100, m at next level, right associativity).

Definition saveError (e : json_error) : Dec unit :=
  fun saved => (tt, match saved with None => Some e | Some _ => saved end).

(** The JSON kind named in an [UnmarshalTypeError]. *)
Definition kindName (j : json) : string :=
  match j with
  | JNull => "null"
  | JBool _ => "bool"
  | JNum _ => "number"
  | JStr _ => "string"
  | JArr _ => "array"
  | JObj _ => "object"
  end.

Definition mismatch {A} (j : json) (gotype : string) (cur : A) : Dec A :=
  _ <- saveError (UnmarshalTypeError (kindName j) gotype) ;; ret cur.

(** A Go [string]: a JSON string is stored, [null] leaves the value as it
    is. *)
Definition decString (j : json) (cur : string) : Dec string :=
  match j with
  | JStr s => ret s
  | JNull => ret cur
  | _ => mismatch j "string" cur
  end.

(** A Go slice: element [i] of the array is decoded into element [i] of
    the slice when the slice has one, into a zero value otherwise, and the
    slice ends up as long as the array; [null] makes the slice nil.  (A
    slice that grows within its capacity would show what an earlier,
    longer array left there; that takes a key repeated three times in
    one object and is not modelled.) *)
Fixpoint decElems {T} (zero : T) (decElem : json -> T -> Dec T)
    (elems : list json) (cur : list T) : Dec (list T) :=
  match elems with
  | [] => ret []
  | j :: elems' =>
    x <- decElem j (hd zero cur) ;;
    xs <- decElems zero decElem elems' (tl cur) ;;
    ret (x :: xs)
  end.

Definition decSlice {T} (gotype : string) (zero : T)
    (decElem : json -> T -> Dec T) (j : json) (cur : list T) : Dec (list T) :=
  match j with
  | JArr elems => decElems zero decElem elems cur
  | JNull => ret []
  | _ => mismatch j gotype cur
  end.

(** A Go [map[string]string]: every member is decoded into a fresh
    string and stored under its key; [null] makes the map nil. *)
Fixpoint decMembers (members : list (string * json)) (cur : gmap string string)
    : Dec (gmap string string) :=
  match members with
  | [] => ret cur
  | (k, v) :: members' =>
    x <- decString v "" ;;
    decMembers members' (<[k := x]> cur)
  end.

Definition decMap (j : json) (cur : gmap string string) : Dec (gmap string string) :=
  match j with
  | JObj members => decMembers members cur
  | JNull => ret ∅
  | _ => mismatch j "map[string]string" cur
  end.

(** Field names are matched exactly or under Unicode simple case
    folding.  The field names of this package are ASCII; the only runes
    outside ASCII that fold to an ASCII letter are U+017F (long s, bytes
    C5 BF) and U+212A (Kelvin sign, bytes E2 84 AA). *)
Fixpoint foldName (s : string) : string :=
  match s with
  | "" => ""
  | String c t =>
    let n := byte_of c in
    if (97 <=? n) && (n <=? 122) then String (chr (n - 32)) (foldName t)
    else
      match t with
      | String c2 t2 =>
        if (n =? 197) && (byte_of c2 =? 191) then String "S" (foldName t2)
        else
          match t2 with
          | String c3 t3 =>
            if (n =? 226) && (byte_of c2 =? 132) && (byte_of c3 =? 170)
            then String "K" (foldName t3)
            else String c (foldName t)
          | "" => String c (foldName t)
          end
      | "" => String c ""
      end
  end.

(** A Go struct, given as the list of its JSON field names with the
    decoder of each field: a member whose key matches no field is
    skipped. *)
Definition fieldsOf (T : Type) : Type := list (string * (json -> T -> Dec T)).

Definition findField {T} (fields : fieldsOf T) (key : string)
    : option (json -> T -> Dec T) :=
  match List.find (fun f => String.eqb (fst f) key) fields with
  | Some f => Some (snd f)
  | None =>
    match List.find (fun f => String.eqb (foldName (fst f)) (foldName key)) fields with
    | Some f => Some (snd f)
    | None => None
    end
  end.

Fixpoint decFields {T} (fields : fieldsOf T) (members : list (string * json))
    (cur : T) : Dec T :=
  match members with
  | [] => ret cur
  | (k, v) :: members' =>
    match findField fields k with
    | Some dec => cur' <- dec v cur ;; decFields fields members' cur'
    | None => decFields fields members' cur
    end
  end.

Definition decStruct {T} (gotype : string) (fields : fieldsOf T) (j : json)
    (cur : T) : Dec T :=
  match j with
  | JObj members => decFields fields members cur
  | JNull => ret cur
  | _ => mismatch j gotype cur
  end.

(** [json.Unmarshal(data, &v)] for a struct [v] with the given fields:
    the new content of [v] and the error returned. *)
Definition Unmarshal {T} (gotype : string) (fields : fieldsOf T) (data : string)
    (v : T) : T * option json_error :=
  match parse data with
  | inl e => (v, Some e)
  | inr j => decStruct gotype fields j v None
  end.

End Json.

(** ** Go errors, results and panics *)

#[local] Unset Elimination Schemes.

(** An [error] value, by the call that made it: [errors.New],
    [fmt.Errorf] with its format and arguments, an error of
    [json.Unmarshal], the error of [http.NewRequest] for a URL that does
    not parse, and an error handed back by the transport or by the reader
    of a response body. *)
Inductive error : Type :=
| New (text : string)
| Errorf (format : string) (args : list arg)
| JsonError (e : Json.json_error)
| URLError (url : string)
| External (text : string)
with arg : Type :=
| AString (s : string)
| AError (err : error).

#[local] Set Elimination Schemes.

(** What a call of a Go function with results [(T, error)] does: it
    returns a value with a nil error, returns an error, or panics. *)
Inductive result (A : Type) : Type :=
| Ok (a : A)
| Err (e : error)
| Panic (text : string).

Arguments Ok {A} a.
Arguments Err {A} e.
Arguments Panic {A} text.

Definition nilDereference : string :=
  "runtime error: invalid memory address or nil pointer dereference".

Definition indexOutOfRange : string :=
  "runtime error: index out of range [0] with length 0".

(** [strconv.Itoa]. *)
Definition Itoa (n : Z) : string := NilZero.string_of_int (Z.to_int n).

(** ** net/http *)

Module Http.

(** A header value: a literal string, or the [Basic] credentials that
    [SetBasicAuth] encodes. *)
Inductive headerValue : Type :=
| Literal (v : string)
| BasicAuth (username password : string).

Record Request : Type := {
  Method : string;
  URL : string;
  Header : gmap string headerValue;
  Body : option string
}.

(** A response: status code, status text, and what [io.ReadAll] gets from
    the body. *)
Record Response : Type := {
  StatusCode : Z;
  Status : string;
  ReadAll : error + string
}.

Definition StatusOK : Z := 200.

(** The caller's [*http.Client] with its transport: what [Do] returns for
    a request, given the requests it was handed before. *)
Record Client : Type := {
  Do : list Request -> Request -> error + Response
}.

(** The requests handed to the transport so far, oldest first. *)
Definition World : Type := list Request.

Definition HeaderSet (key : string) (v : headerValue) (req : Request) : Request :=
  {| Method := Method req; URL := URL req;
     Header := <[key := v]> (Header req); Body := Body req |}.

Definition SetBasicAuth (username password : string) (req : Request) : Request :=
  HeaderSet "Authorization" (BasicAuth username password) req.

Definition SetBody (body : string) (req : Request) : Request :=
  {| Method := Method req; URL := URL req;
     Header := Header req; Body := Some body |}.

(** [client.Do(req)]: a nil client panics; otherwise the request reaches
    the transport and is recorded. *)
Definition ClientDo (client : option Client) (req : Request) (w : World)
    : result (error + Response) * World :=
  match client with
  | None => (Panic nilDereference, w)
  | Some c => (Ok (Do c w req), (w ++ [req])%list)
  end.

End Http.

(** ** Package bmcapi *)

Module bmcapi.

Import Json Http.

(** BMCAPIURL is the default base URL for the Turing PI 2 *)
Definition tpiDefaultURL : string := "https://turingpi.local".

Record bmcApiAuth : Type := {
  AccessToken : string;
  Name : string;
  Description : string;
  Username : string;
  Password : string
}.

(** [auth] and [Client] are pointers: [None] is nil. *)
Record BMCAPI : Type := {
  auth : option bmcApiAuth;
  BaseURL : string;
  Client : option Http.Client;
  AuthType : string
}.

(** [bmcResultAPIResponse]: [Response] is a slice of structs with one
    string field [Result] (JSON names response and result). *)
Record resultEntry : Type := { Result : string }.
Record bmcResultAPIResponse : Type := { Response : list resultEntry }.

(** [bmcObjectAPIResponse]: the [Result] of an entry is a slice of
    [map[string]string]. *)
Record objectEntry : Type := { ObjResult : list (gmap string string) }.
Record bmcObjectAPIResponse : Type := { ObjResponse : list objectEntry }.

Record bmcOther : Type := {
  API : string;
  BuildVersion : string;
  Buildroot : string;
  Buildtime : string;
  IP : string;
  MAC : string;
  Version : string
}.

(** [bmcOtherResponse] of the inline [Other]: the result list holds
    [bmcOther] records, whose fields carry JSON names. *)
Record otherEntry : Type := { OtherResult : list bmcOther }.
Record bmcOtherResponse : Type := { OtherResponse : list otherEntry }.

(** *** Zero values and the JSON fields of each struct *)

Definition zeroAuth : bmcApiAuth :=
  {| AccessToken := ""; Name := ""; Description := ""; Username := "";
     Password := "" |}.

Definition zeroOther : bmcOther :=
  {| API := ""; BuildVersion := ""; Buildroot := ""; Buildtime := "";
     IP := ""; MAC := ""; Version := "" |}.

Definition authFields : fieldsOf bmcApiAuth :=
  [ ("id", fun j v => x <- decString j (AccessToken v) ;;
       ret {| AccessToken := x; Name := Name v; Description := Description v;
              Username := Username v; Password := Password v |});
    ("name", fun j v => x <- decString j (Name v) ;;
       ret {| AccessToken := AccessToken v; Name := x;
              Description := Description v; Username := Username v;
              Password := Password v |});
    ("description", fun j v => x <- decString j (Description v) ;;
       ret {| AccessToken := AccessToken v; Name := Name v; Description := x;
              Username := Username v; Password := Password v |});
    ("username", fun j v => x <- decString j (Username v) ;;
       ret {| AccessToken := AccessToken v; Name := Name v;
              Description := Description v; Username := x;
              Password := Password v |});
    ("password", fun j v => x <- decString j (Password v) ;;
       ret {| AccessToken := AccessToken v; Name := Name v;
              Description := Description v; Username := Username v;
              Password := x |}) ].

Definition resultEntryFields : fieldsOf resultEntry :=
  [ ("result", fun j v => x <- decString j (Result v) ;; ret {| Result := x |}) ].

Definition resultResponseFields : fieldsOf bmcResultAPIResponse :=
  [ ("response", fun j v =>
       xs <- decSlice "[]struct" {| Result := "" |}
               (decStruct "struct" resultEntryFields) j (Response v) ;;
       ret {| Response := xs |}) ].

Definition objectEntryFields : fieldsOf objectEntry :=
  [ ("result", fun j v =>
       xs <- decSlice "[]map[string]string" ∅ decMap j (ObjResult v) ;;
       ret {| ObjResult := xs |}) ].

Definition objectResponseFields : fieldsOf bmcObjectAPIResponse :=
  [ ("response", fun j v =>
       xs <- decSlice "[]struct" {| ObjResult := [] |}
               (decStruct "struct" objectEntryFields) j (ObjResponse v) ;;
       ret {| ObjResponse := xs |}) ].

Definition otherFields : fieldsOf bmcOther :=
  [ ("api", fun j v => x <- decString j (API v) ;;
       ret {| API := x; BuildVersion := BuildVersion v; Buildroot := Buildroot v;
              Buildtime := Buildtime v; IP := IP v; MAC := MAC v;
              Version := Version v |});
    ("build_version", fun j v => x <- decString j (BuildVersion v) ;;
       ret {| API := API v; BuildVersion := x; Buildroot := Buildroot v;
              Buildtime := Buildtime v; IP := IP v; MAC := MAC v;
              Version := Version v |});
    ("buildroot", fun j v => x <- decString j (Buildroot v) ;;
       ret {| API := API v; BuildVersion := BuildVersion v; Buildroot := x;
              Buildtime := Buildtime v; IP := IP v; MAC := MAC v;
              Version := Version v |});
    ("buildtime", fun j v => x <- decString j (Buildtime v) ;;
       ret {| API := API v; BuildVersion := BuildVersion v;
              Buildroot := Buildroot v; Buildtime := x; IP := IP v;
              MAC := MAC v; Version := Version v |});
    ("ip", fun j v => x <- decString j (IP v) ;;
       ret {| API := API v; BuildVersion := BuildVersion v;
              Buildroot := Buildroot v; Buildtime := Buildtime v; IP := x;
              MAC := MAC v; Version := Version v |});
    ("mac", fun j v => x <- decString j (MAC v) ;;
       ret {| API := API v; BuildVersion := BuildVersion v;
              Buildroot := Buildroot v; Buildtime := Buildtime v; IP := IP v;
              MAC := x; Version := Version v |});
    ("version", fun j v => x <- decString j (Version v) ;;
       ret {| API := API v; BuildVersion := BuildVersion v;
              Buildroot := Buildroot v; Buildtime := Buildtime v; IP := IP v;
              MAC := MAC v; Version := x |}) ].

Definition otherEntryFields : fieldsOf otherEntry :=
  [ ("result", fun j v =>
       xs <- decSlice "[]bmcapi.bmcOther" zeroOther
               (decStruct "bmcapi.bmcOther" otherFields) j (OtherResult v) ;;
       ret {| OtherResult := xs |}) ].

Definition otherResponseFields : fieldsOf bmcOtherResponse :=
  [ ("response", fun j v =>
       xs <- decSlice "[]struct" {| OtherResult := [] |}
               (decStruct "struct" otherEntryFields) j (OtherResponse v) ;;
       ret {| OtherResponse := xs |}) ].

(** *** The functions of the package *)

Section Package.

(** [url.Parse], as far as [http.NewRequest] depends on it: whether the
    URL parses. *)
Variable parseURL : string -> bool.

(** [http.NewRequest(method, url, nil)] for the method GET. *)
Definition NewRequest (method url : string) : error + Request :=
  if parseURL url
  then inr {| Method := method; URL := url; Header := ∅; Body := None |}
  else inl (URLError url).

(** The body of the bearer handshake request. *)
Definition authRequestBody (username password : string) : string :=
  js "{'username':'" +:+ username +:+ js "','password':'" +:+ password +:+ js "'}".

Definition NewBMCAPI (baseURL authType username password : string)
    (client : option Http.Client) (w : World) : result BMCAPI * World :=
  let baseURL := if String.eqb baseURL "" then tpiDefaultURL else baseURL in
  let authResponse := zeroAuth in
  if negb (String.eqb authType "basic") && negb (String.eqb authType "bearer")
  then (Err (New ("invalid auth type: " +:+ authType)), w)
  else if String.eqb authType "bearer" then
    match NewRequest "GET" (baseURL +:+ "/api/bmc/authenticate") with
    | inl err =>
      (Err (Errorf "Error creating authentication request: %w" [AError err]), w)
    | inr req =>
      let req := HeaderSet "Content-Type" (Literal "application/json") req in
      let req := SetBody (authRequestBody username password) req in
      match ClientDo client req w with
      | (Panic t, w') => (Panic t, w')
      | (Err e, w') => (Err e, w')
      | (Ok (inl err), w') =>
        (Err (Errorf "Error making request: %w" [AError err]), w')
      | (Ok (inr resp), w') =>
        if negb (StatusCode resp =? StatusOK)%Z
        then (Err (Errorf "Error Authenticating: %s" [AString (Status resp)]), w')
        else
          match ReadAll resp with
          | inl err =>
            (Err (Errorf "error reading response body: %w" [AError err]), w')
          | inr bodyBytes =>
            match Unmarshal "bmcapi.bmcApiAuth" authFields bodyBytes authResponse with
            | (_, Some err) =>
              (Err (Errorf "error parsing json in /token response: %+v"
                      [AError (JsonError err)]), w')
            | (authResponse, None) =>
              if String.eqb (AccessToken authResponse) ""
              then (Err (Errorf
                           "Authentication response does not contain an auth token"
                           []), w')
              else (Ok {| auth := Some authResponse; BaseURL := baseURL;
                          Client := client; AuthType := authType |}, w')
            end
          end
      end
    end
  else if String.eqb authType "basic" then
    match NewRequest "GET" (baseURL +:+ "/api/bmc?opt=get&type=info") with
    | inl err =>
      (Err (Errorf "Error creating authentication request: %w" [AError err]), w)
    | inr req =>
      let req := SetBasicAuth username password req in
      match ClientDo client req w with
      | (Panic t, w') => (Panic t, w')
      | (Err e, w') => (Err e, w')
      | (Ok (inl err), w') =>
        (Err (Errorf "Error making authentication test request: %w" [AError err]),
         w')
      | (Ok (inr resp), w') =>
        if negb (StatusCode resp =? StatusOK)%Z
        then (Err (Errorf "Error from authentication test: %s"
                     [AString (Status resp)]), w')
        else
          let authResponse :=
            {| AccessToken := AccessToken authResponse;
               Name := Name authResponse;
               Description := Description authResponse;
               Username := username; Password := password |} in
          (Ok {| auth := Some authResponse; BaseURL := baseURL;
                 Client := client; AuthType := authType |}, w')
      end
    end
  else
    (Ok {| auth := Some authResponse; BaseURL := baseURL;
           Client := client; AuthType := authType |}, w).

(** bmcAPICall is a helper function that makes a GET request to the BMC
    API and returns the response body as a byte slice. *)
Definition bmcAPICall (b : BMCAPI) (endpoint : string) (w : World)
    : result string * World :=
  match NewRequest "GET" (BaseURL b +:+ endpoint) with
  | inl err => (Err (Errorf "Error creating request: %w" [AError err]), w)
  | inr req =>
    let authorized : result Request :=
      if String.eqb (AuthType b) "basic" then
        match auth b with
        | None => Panic nilDereference
        | Some a => Ok (SetBasicAuth (Username a) (Password a) req)
        end
      else if String.eqb (AuthType b) "bearer" then
        match auth b with
        | None => Panic nilDereference
        | Some a =>
          Ok (HeaderSet "Authorization" (Literal ("Bearer " +:+ AccessToken a))
                (HeaderSet "Content-Type" (Literal "application/json") req))
        end
      else Ok req in
    match authorized with
    | Panic t => (Panic t, w)
    | Err e => (Err e, w)
    | Ok req =>
      match ClientDo (Client b) req w with
      | (Panic t, w') => (Panic t, w')
      | (Err e, w') => (Err e, w')
      | (Ok (inl err), w') =>
        (Err (Errorf "Error making request: %w" [AError err]), w')
      | (Ok (inr resp), w') =>
        if negb (StatusCode resp =? StatusOK)%Z
        then (Err (Errorf "http error in response: %s" [AString (Status resp)]), w')
        else
          match ReadAll resp with
          | inl err =>
            (Err (Errorf "error reading response body: %w" [AError err]), w')
          | inr bodyBytes => (Ok bodyBytes, w')
          end
      end
    end
  end.

(** resultAPIParse parses the response of the BMC API and returns the
    result string.  [parsed.Response[0]] is an index expression: on an
    empty slice it panics. *)
Definition resultAPIParse (b : BMCAPI) (bodyBytes : string) : result string :=
  match Unmarshal "bmcapi.bmcResultAPIResponse" resultResponseFields bodyBytes
          {| Response := [] |} with
  | (_, Some err) =>
    Err (Errorf "error parsing json in token response: %+v" [AError (JsonError err)])
  | (parsed, None) =>
    match Response parsed !! 0%nat with
    | None => Panic indexOutOfRange
    | Some entry =>
      let result := Result entry in
      if String.eqb result ""
      then Err (Errorf "result field in API response is empty" [])
      else Ok result
    end
  end.

(** objectAPIParse parses the response of the BMC API and returns the
    first result object as a map of strings. *)
Definition objectAPIParse (b : BMCAPI) (bodyBytes : string)
    : result (gmap string string) :=
  match Unmarshal "bmcapi.bmcObjectAPIResponse" objectResponseFields bodyBytes
          {| ObjResponse := [] |} with
  | (_, Some err) =>
    Err (Errorf "error parsing json in token response: %+v" [AError (JsonError err)])
  | (parsed, None) =>
    match ObjResponse parsed with
    | [] => Err (Errorf "no data in response" [])
    | entry :: _ =>
      match ObjResult entry with
      | [] => Err (Errorf "no data in response" [])
      | first :: _ => Ok first
      end
    end
  end.

(** [result[key]] on a Go map: the zero value for a missing key. *)
Definition index (m : gmap string string) (key : string) : string :=
  default "" (m !! key).

Definition Other (b : BMCAPI) (w : World) : result bmcOther * World :=
  match bmcAPICall b "/api/bmc?opt=get&type=other" w with
  | (Panic t, w') => (Panic t, w')
  | (Err err, w') =>
    (Err (Errorf "error during USB Boot API call: %w" [AError err]), w')
  | (Ok bodyBytes, w') =>
    match objectAPIParse b bodyBytes with
    | Panic t => (Panic t, w')
    | Err err => (Err (Errorf "error parsing response: %w" [AError err]), w')
    | Ok result =>
      (Ok {| API := index result "api";
             BuildVersion := index result "build_version";
             Buildroot := index result "buildroot";
             Buildtime := index result "buildtime";
             IP := index result "ip";
             MAC := index result "mac";
             Version := index result "version" |}, w')
    end
  end.

(** USBBoot sets the USB boot option for the specified node (0-3). *)
Definition USBBoot (b : BMCAPI) (node : Z) (w : World) : result string * World :=
  if (node <? 0)%Z || (node >? 3)%Z
  then (Err (Errorf "node number must be between 0 and 3" []), w)
  else
    match bmcAPICall b ("/api/bmc?opt=set&type=usb_boot&node=" +:+ Itoa node) w with
    | (Panic t, w') => (Panic t, w')
    | (Err err, w') => (Err (Errorf "error during USB Boot API call: %w" [AError err]), w')
    | (Ok bodyBytes, w') => (resultAPIParse b bodyBytes, w')
    end.

(** ClearUSBBoot clears the USB boot option for the specified node (0-3). *)
Definition ClearUSBBoot (b : BMCAPI) (node : Z) (w : World)
    : result string * World :=
  if (node <? 0)%Z || (node >? 3)%Z
  then (Err (Errorf "node number must be between 0 and 3" []), w)
  else
    match bmcAPICall b ("/api/bmc?opt=set&type=clear_usb_boot&node=" +:+ Itoa node) w with
    | (Panic t, w') => (Panic t, w')
    | (Err err, w') => (Err (Errorf "error during Clear USB Boot API call: %w" [AError err]), w')
    | (Ok bodyBytes, w') => (resultAPIParse b bodyBytes, w')
    end.

Definition ResetNetwork (b : BMCAPI) (w : World) : result string * World :=
  match bmcAPICall b "/api/bmc?opt=set&type=network" w with
  | (Panic t, w') => (Panic t, w')
  | (Err err, w') => (Err (Errorf "error during Reset Network Switch call: %w" [AError err]), w')
  | (Ok bodyBytes, w') => (resultAPIParse b bodyBytes, w')
  end.

(** NodetoMSD reboots a node into USB Mass Storage Device (MSD) mode. *)
Definition NodetoMSD (b : BMCAPI) (node : Z) (w : World) : result string * World :=
  if (node <? 0)%Z || (node >? 3)%Z
  then (Err (Errorf "node number must be between 0 and 3" []), w)
  else
    match bmcAPICall b ("/api/bmc?opt=set&type=node_to_msd&node=" +:+ Itoa node) w with
    | (Panic t, w') => (Panic t, w')
    | (Err err, w') => (Err (Errorf "error during Node to MSD call: %w" [AError err]), w')
    | (Ok bodyBytes, w') => (resultAPIParse b bodyBytes, w')
    end.

(** SetPower sets power status of specified nodes.  The powerState
    parameter should be 0 for off and 1 for on. *)
Definition SetPower (b : BMCAPI) (node powerState : Z) (w : World)
    : result string * World :=
  if (node <? 0)%Z || (node >? 3)%Z
  then (Err (Errorf "node number must be between 0 and 3" []), w)
  else if (powerState <? 0)%Z || (powerState >? 1)%Z
  then (Err (Errorf "powerState must be 0 (off) or 1 (on)" []), w)
  else
    match bmcAPICall b ("/api/bmc?opt=power&type=set&node" +:+ Itoa node +:+ "="
                         +:+ Itoa powerState) w with
    | (Panic t, w') => (Panic t, w')
    | (Err err, w') => (Err (Errorf "error during Set Power call: %w" [AError err]), w')
    | (Ok bodyBytes, w') => (resultAPIParse b bodyBytes, w')
    end.

(** GetPower gets power status of all nodes. *)
Definition GetPower (b : BMCAPI) (w : World)
    : result (gmap string string) * World :=
  match bmcAPICall b "/api/bmc?opt=get&type=power" w with
  | (Panic t, w') => (Panic t, w')
  | (Err err, w') => (Err (Errorf "error during Get Power call: %w" [AError err]), w')
  | (Ok bodyBytes, w') => (objectAPIParse b bodyBytes, w')
  end.

(** The [Other] of the revision that does not use the helpers: the
    request is built in place and the body is decoded into
    [bmcOtherResponse]. *)
Definition Other_inline (b : BMCAPI) (w : World) : result bmcOther * World :=
  match NewRequest "GET" (BaseURL b +:+ "/api/bmc?opt=get&type=other") with
  | inl err =>
    (Err (Errorf "Error creating Get Other request: %w" [AError err]), w)
  | inr req =>
    let authorized : result Request :=
      if String.eqb (AuthType b) "basic" then
        match auth b with
        | None => Panic nilDereference
        | Some a => Ok (SetBasicAuth (Username a) (Password a) req)
        end
      else if String.eqb (AuthType b) "bearer" then
        match auth b with
        | None => Panic nilDereference
        | Some a =>
          Ok (HeaderSet "Authorization" (Literal ("Bearer " +:+ AccessToken a))
                (HeaderSet "Content-Type" (Literal "application/json") req))
        end
      else Ok req in
    match authorized with
    | Panic t => (Panic t, w)
    | Err e => (Err e, w)
    | Ok req =>
      match ClientDo (Client b) req w with
      | (Panic t, w') => (Panic t, w')
      | (Err e, w') => (Err e, w')
      | (Ok (inl err), w') =>
        (Err (Errorf "Error making Get Other request: %w" [AError err]), w')
      | (Ok (inr resp), w') =>
        if negb (StatusCode resp =? StatusOK)%Z
        then (Err (Errorf "http error in response: %s" [AString (Status resp)]), w')
        else
          match ReadAll resp with
          | inl err =>
            (Err (Errorf "error reading response body: %w" [AError err]), w')
          | inr bodyBytes =>
            match Unmarshal "bmcapi.bmcOtherResponse" otherResponseFields bodyBytes
                    {| OtherResponse := [] |} with
            | (_, Some err) =>
              (Err (Errorf "error parsing json in /token response: %+v"
                      [AError (JsonError err)]), w')
            | (parsed, None) =>
              match OtherResponse parsed with
              | [] => (Err (Errorf "no data in response" []), w')
              | entry :: _ =>
                match OtherResult entry with
                | [] => (Err (Errorf "no data in response" []), w')
                | first :: _ => (Ok first, w')
                end
              end
            end
          end
      end
    end
  end.

End Package.

End bmcapi.

(** ** The example program *)

Module Main.

Import Http bmcapi.

(** An operand of [fmt.Println], and a line of standard output: the
    operands of one call, which are printed separated by spaces. *)
Inductive operand : Type :=
| OString (s : string)
| OError (e : error).

Definition line : Type := list operand.

Definition Println (operands : list operand) (out : list line) : list line :=
  (out ++ [operands])%list.

Section Program.

Variable parseURL : string -> bool.

(** [main], given [os.Args], the HTTP client the program builds with its
    transport, what standard output holds and the requests made so far:
    whether it returns or panics, with the output and the requests after
    it. *)
Definition main (Args : list string) (client : Http.Client)
    (out : list line) (w : World) : result unit * list line * World :=
  if (length Args <? 3)%nat
  then (Ok tt, Println [OString "Usage: program <username> <password>"] out, w)
  else
    match Args !! 1%nat, Args !! 2%nat with
    | Some username, Some password =>
      let baseURL := "https://turingpi.local" in
      let authType := "bearer" in
      match NewBMCAPI parseURL baseURL authType username password
              (Some client) w with
      | (Panic t, w') => (Panic t, out, w')
      | (Err err, w') =>
        (Ok tt, Println [OString "Error creating BMCAPI:"; OError err] out, w')
      | (Ok bmcClient, w') =>
        match Other parseURL bmcClient w' with
        | (Panic t, w'') => (Panic t, out, w'')
        | (Err err, w'') =>
          (Ok tt, Println [OString "Error getting other info:"; OError err] out,
           w'')
        | (Ok otherInfo, w'') =>
          let out := Println [OString "API:"; OString (API otherInfo)] out in
          let out := Println [OString "Build Version:";
                              OString (BuildVersion otherInfo)] out in
          let out := Println [OString "Buildroot:";
                              OString (Buildroot otherInfo)] out in
          let out := Println [OString "Buildtime:";
                              OString (Buildtime otherInfo)] out in
          let out := Println [OString "IP:"; OString (IP otherInfo)] out in
          let out := Println [OString "MAC:"; OString (MAC otherInfo)] out in
          let out := Println [OString "Version:";
                              OString (Version otherInfo)] out in
          (Ok tt, out, w'')
        end
      end
    | _, _ => (Panic indexOutOfRange, out, w)
    end.

End Program.

End Main.

(** * Properties *)

Module Properties.

Import Json Http bmcapi.

(** ** The notions the statements use *)

(** A transport that answers every request with the same status and
    body, and a client record to call the parse helpers on. *)
Definition respond (code : Z) (status body : string) : Http.Client :=
  {| Do := fun _ _ => inr {| StatusCode := code; Status := status;
                             ReadAll := inr body |} |}.

Definition mockClient (c : option Http.Client) : BMCAPI :=
  {| auth := Some {| AccessToken := ""; Name := ""; Description := "";
                     Username := "user"; Password := "pass" |};
     BaseURL := "http://mock"; Client := c; AuthType := "basic" |}.

Definition anyURL : string -> bool := fun _ => true.

(** The scalar envelope with result [s], and the object envelope with one
    result object, as JSON values. *)
Definition scalarEnvelope (s : string) : json :=
  JObj [("response", JArr [JObj [("result", JStr s)]])].

Definition objectEnvelope (members : list (string * json)) : json :=
  JObj [("response", JArr [JObj [("result", JArr [JObj members])]])].

Definition emptyResult : error := Errorf "result field in API response is empty" [].

Definition noData : error := Errorf "no data in response" [].

Definition parseFailure (e : json_error) : error :=
  Errorf "error parsing json in token response: %+v" [AError (JsonError e)].

(** What [decMembers] stores for members whose values are all strings:
    the members in reading order, a later one replacing an earlier one
    with the same key. *)
Definition stringMembers (members : list (string * string)) : list (string * json) :=
  List.map (fun kv => (fst kv, JStr (snd kv))) members.

Definition insertAll (members : list (string * string)) (m : gmap string string)
    : gmap string string :=
  fold_left (fun m kv => <[fst kv := snd kv]> m) members m.

Definition nodeRange : error := Errorf "node number must be between 0 and 3" [].

Definition powerStateRange : error := Errorf "powerState must be 0 (off) or 1 (on)" [].

(** The errors of the argument checks. *)
Definition ValidationError (e : error) : Prop :=
  e = nodeRange \/ e = powerStateRange.

Definition missingToken : error :=
  Errorf "Authentication response does not contain an auth token" [].

(** The base URL [NewBMCAPI] works with. *)
Definition effectiveBaseURL (baseURL : string) : string :=
  if String.eqb baseURL "" then tpiDefaultURL else baseURL.

(** The endpoint [SetPower] asks for. *)
Definition setPowerEndpoint (node powerState : Z) : string :=
  "/api/bmc?opt=power&type=set&node" +:+ Itoa node +:+ "=" +:+ Itoa powerState.

(** The decimal digit of a number below ten. *)
Definition digit (n : Z) : ascii := chr (48 + Z.to_N n).

Definition otherEndpoint : string := "/api/bmc?opt=get&type=other".

(** The record [Other] builds from the result map, and what each
    implementation makes of a response body once it has been read. *)
Definition recordOfMap (result : gmap string string) : bmcOther :=
  {| API := index result "api";
     BuildVersion := index result "build_version";
     Buildroot := index result "buildroot";
     Buildtime := index result "buildtime";
     IP := index result "ip";
     MAC := index result "mac";
     Version := index result "version" |}.

Definition otherOfBody (b : BMCAPI) (bodyBytes : string) : result bmcOther :=
  match objectAPIParse b bodyBytes with
  | Panic t => Panic t
  | Err err => Err (Errorf "error parsing response: %w" [AError err])
  | Ok result => Ok (recordOfMap result)
  end.

Definition otherInlineOfBody (bodyBytes : string) : result bmcOther :=
  match Unmarshal "bmcapi.bmcOtherResponse" otherResponseFields bodyBytes
          {| OtherResponse := [] |} with
  | (_, Some err) =>
    Err (Errorf "error parsing json in /token response: %+v" [AError (JsonError err)])
  | (parsed, None) =>
    match OtherResponse parsed with
    | [] => Err noData
    | entry :: _ =>
      match OtherResult entry with
      | [] => Err noData
      | first :: _ => Ok first
      end
    end
  end.

Definition isErr {A} (r : result A) : Prop := exists e, r = Err e.





(** The response of the package's test. *)
Definition fixture : string :=
  js "{'response':[{'result':[{'api':'1.1','build_version':'2024.05.1','buildroot':'\'Buildroot 2024.05.1\'','buildtime':'2025-01-17 17:12:52-00:00','ip':'Unknown','mac':'Unknown','version':'2.3.4'}]}]}".


Definition otherOn (body : string) : result bmcOther :=
  fst (Other anyURL (mockClient (Some (respond 200 "200 OK" body))) []).

Definition otherInlineOn (body : string) : result bmcOther :=
  fst (Other_inline anyURL (mockClient (Some (respond 200 "200 OK" body))) []).

Fixpoint allChars (p : ascii -> bool) (s : string) : bool :=
  match s with
  | "" => true
  | String c t => p c && allChars p t
  end.

(** No double quote and no backslash: the condition of C10. *)
Definition noQuoteBackslash (s : string) : Prop :=
  allChars (fun c => negb (Ascii.eqb c dquote) && negb (Ascii.eqb c backslash)) s
  = true.

(** No double quote, no backslash and no control character: the bytes a
    JSON string literal may hold as they are. *)
Definition safeChar (c : ascii) : bool :=
  negb (Ascii.eqb c dquote) && negb (Ascii.eqb c backslash)
  && negb (byte_of c <? 32).

Definition jsonSafe (s : string) : Prop := allChars safeChar s = true.

(** Well-formed UTF-8, by the sequences [utf8.DecodeRune] accepts. *)
Fixpoint wellFormedUTF8 (s : string) : bool :=
  match s with
  | "" => true
  | String c t =>
    if byte_of c <? 128 then wellFormedUTF8 t
    else
      match seqLen c, t with
      | 2%nat, String c2 t2 => isCont c2 && wellFormedUTF8 t2
      | 3%nat, String c2 (String c3 t3) =>
        second_ok c c2 && isCont c3 && wellFormedUTF8 t3
      | 4%nat, String c2 (String c3 (String c4 t4)) =>
        second_ok c c2 && isCont c3 && isCont c4 && wellFormedUTF8 t4
      | _, _ => false
      end
  end.

(** The JSON value of the credentials, and a body that reads as it. *)
Definition credentialsValue (username password : string) : json :=
  JObj [("username", JStr username); ("password", JStr password)].

Definition readsAsCredentials (body username password : string) : Prop :=
  parse body = inr (credentialsValue username password).

(** The JSON text of a string as RFC 8259 asks for it, for comparison
    with what [NewBMCAPI] sends: the double quote, the backslash and the
    control characters are escaped, every other byte is written as it
    is. *)
Definition hexDigit (n : N) : ascii :=
  if n <? 10 then chr (48 + n) else chr (87 + n).

Definition escapeJSON (c : ascii) : string :=
  if Ascii.eqb c dquote then String backslash (String dquote "")
  else if Ascii.eqb c backslash then String backslash (String backslash "")
  else if byte_of c <? 32 then
    String backslash
      (String "u" (String "0" (String "0"
         (String (hexDigit (N.shiftr (byte_of c) 4))
            (String (hexDigit (N.land (byte_of c) 15)) "")))))
  else String c "".

Fixpoint jsonString (s : string) : string :=
  match s with
  | "" => ""
  | String c t => escapeJSON c +:+ jsonString t
  end.

Definition credentialsJSON (username password : string) : string :=
  js "{'username':'" +:+ jsonString username +:+ js "','password':'"
    +:+ jsonString password +:+ js "'}".

Definition tab : string := String "009" "".

Definition simpleEscape (e : ascii) : bool :=
  Ascii.eqb e "b" || Ascii.eqb e "f" || Ascii.eqb e "n" || Ascii.eqb e "r"
  || Ascii.eqb e "t" || Ascii.eqb e backslash || Ascii.eqb e "/"
  || Ascii.eqb e dquote.

(** The bytes between the quotes of a string literal that the scanner
    accepts: no bare double quote, no control character, and after a
    backslash one of the eight escape characters or u and four
    hexadecimal digits. *)
Fixpoint isLiteral (s : string) : bool :=
  match s with
  | "" => true
  | String c t =>
    if Ascii.eqb c dquote then false
    else if Ascii.eqb c backslash then
      match t with
      | String e t1 =>
        if simpleEscape e then isLiteral t1
        else if Ascii.eqb e "u" then
          match t1 with
          | String h1 (String h2 (String h3 (String h4 t2))) =>
            isHex h1 && isHex h2 && isHex h3 && isHex h4 && isLiteral t2
          | _ => false
          end
        else false
      | "" => false
      end
    else if byte_of c <? 32 then false
    else isLiteral t
  end.

(** The scanner has failed or is still inside a string literal. *)
Definition stuck (st : scan) : Prop :=
  match st with
  | ScanError _ => True
  | Scanning (InString _) _ => True
  | Scanning (InStringEsc _) _ => True
  | Scanning (InStringEscU _ _) _ => True
  | _ => False
  end.

(** The occurrences of a byte in a string. *)
Definition b2n (b : bool) : nat := if b then 1%nat else 0%nat.

Fixpoint cnt (c : ascii) (s : string) : nat :=
  match s with
  | "" => 0%nat
  | String x t => (b2n (Ascii.eqb x c) + cnt c t)%nat
  end.

(** What [unquote] does to the number of double quotes, backslashes and
    letters u of an accepted literal. *)
Definition countsOK (X : string) : Prop :=
  (cnt dquote X <= cnt dquote (unquote X))%nat
  /\ (cnt dquote (unquote X) + cnt backslash (unquote X)
      <= cnt dquote X + cnt backslash X)%nat
  /\ (2 * (cnt backslash (unquote X) + cnt "u" (unquote X)) + cnt backslash X
      <= 2 * (cnt backslash X + cnt "u" X))%nat.

(** A frame of an object whose members read so far start with [pre]. *)
Definition objFrame (pre : list (string * json)) (f : frame) : Prop :=
  match f with
  | FArr _ => False
  | FKey d => exists more, d = (pre ++ more)%list
  | FColon d _ => exists more, d = (pre ++ more)%list
  | FVal d _ => exists more, d = (pre ++ more)%list
  | FPair d => exists more, d = (pre ++ more)%list
  end.

(** The bottom of the stack is such a frame. *)
Definition inObject (pre : list (string * json)) (stack : list frame) : Prop :=
  exists upper f, stack = (upper ++ [f])%list /\ objFrame pre f.

(** [Inv pre st]: the scanner is inside an outermost object whose members
    read so far start with [pre], or it has finished with such an object,
    or it has failed. *)
Definition Inv (pre : list (string * json)) (st : scan) : Prop :=
  match st with
  | ScanError _ => True
  | Scanning (EndTop v) stack =>
    stack = [] /\ exists more, v = JObj (pre ++ more)%list
  | Scanning _ stack => inObject pre stack
  end.

(** *** What a call sends and what it makes of the answer *)

(** The headers of a call, by the auth type of the client. *)
Definition callHeaders (b : BMCAPI) (a : bmcApiAuth) : gmap string headerValue :=
  if String.eqb (AuthType b) "basic" then
    {[ "Authorization" := BasicAuth (Username a) (Password a) ]}
  else if String.eqb (AuthType b) "bearer" then
    {[ "Authorization" := Literal ("Bearer " +:+ AccessToken a);
       "Content-Type" := Literal "application/json" ]}
  else ∅.

(** The request of a call to [endpoint]. *)
Definition callRequest (b : BMCAPI) (a : bmcApiAuth) (endpoint : string) : Request :=
  {| Method := "GET"; URL := BaseURL b +:+ endpoint;
     Header := callHeaders b a; Body := None |}.

Definition httpError (status : string) : error :=
  Errorf "http error in response: %s" [AString status].

(** What [bmcAPICall] returns for an answer of the transport. *)
Definition callOutcome (answer : error + Http.Response) : result string :=
  match answer with
  | inl err => Err (Errorf "Error making request: %w" [AError err])
  | inr resp =>
    if (StatusCode resp =? StatusOK)%Z then
      match ReadAll resp with
      | inl err => Err (Errorf "error reading response body: %w" [AError err])
      | inr bodyBytes => Ok bodyBytes
      end
    else Err (httpError (Status resp))
  end.

(** What a scalar operation makes of the result of its call; [context] is
    the format that wraps an error of the call. *)
Definition scalarResult (b : BMCAPI) (context : string)
    (r : result string * World) : result string * World :=
  match r with
  | (Panic t, w') => (Panic t, w')
  | (Err err, w') => (Err (Errorf context [AError err]), w')
  | (Ok bodyBytes, w') => (resultAPIParse b bodyBytes, w')
  end.

(** Nothing was sent, or one GET without body to a URL under the base URL
    of the client. *)
Definition sendsAtMostOne (b : BMCAPI) (w w' : World) : Prop :=
  w' = w
  \/ exists req endpoint,
       w' = (w ++ [req])%list /\ Method req = "GET"
       /\ URL req = BaseURL b +:+ endpoint /\ Body req = None.

Definition validNode (node : Z) : Prop := (0 <= node <= 3)%Z.

Definition validPowerState (powerState : Z) : Prop := (0 <= powerState <= 1)%Z.

(** [fmt.Errorf(context, err)] for a context that ends in the verb of the
    error. *)
Definition wrapped (context : string) (err : error) : error :=
  Errorf context [AError err].

(** The request of the handshake of [NewBMCAPI] in each mode, and the
    credentials of basic mode. *)
Definition handshakeRequest (baseURL authType username password : string)
    : Request :=
  if String.eqb authType "bearer" then
    {| Method := "GET";
       URL := effectiveBaseURL baseURL +:+ "/api/bmc/authenticate";
       Header := {[ "Content-Type" := Literal "application/json" ]};
       Body := Some (authRequestBody username password) |}
  else
    {| Method := "GET";
       URL := effectiveBaseURL baseURL +:+ "/api/bmc?opt=get&type=info";
       Header := {[ "Authorization" := BasicAuth username password ]};
       Body := None |}.

Definition basicCredentials (username password : string) : bmcApiAuth :=
  {| AccessToken := ""; Name := ""; Description := "";
     Username := username; Password := password |}.

(** The credentials a client holds after a handshake answered with
    [resp]: in bearer mode what the body decodes to, with a token; in
    basic mode the user name and password of the caller. *)
Definition storedCredentials (authType username password : string)
    (resp : Http.Response) (a : bmcApiAuth) : Prop :=
  if String.eqb authType "bearer" then
    exists body, ReadAll resp = inr body
                 /\ Unmarshal "bmcapi.bmcApiAuth" authFields body zeroAuth
                    = (a, None)
                 /\ AccessToken a <> ""
  else a = basicCredentials username password.

(** When [NewBMCAPI] returns the client [b] and leaves the record of
    requests [w']. *)
Definition handshakeAccepted (parseURL : string -> bool)
    (baseURL authType username password : string)
    (client : option Http.Client) (w : World) (b : BMCAPI) (w' : World) : Prop :=
  (authType = "basic" \/ authType = "bearer")
  /\ parseURL (URL (handshakeRequest baseURL authType username password)) = true
  /\ exists c resp a,
       client = Some c
       /\ w' = (w ++ [handshakeRequest baseURL authType username password])%list
       /\ Do c w (handshakeRequest baseURL authType username password) = inr resp
       /\ StatusCode resp = StatusOK
       /\ storedCredentials authType username password resp a
       /\ b = {| auth := Some a; BaseURL := effectiveBaseURL baseURL;
                 Client := client; AuthType := authType |}.

(** The JSON names of the credentials, the credentials a map of members
    amounts to, and the keys the decoder reads as written: a name itself,
    or a key that matches no field. *)
Definition authKeys : list string :=
  ["id"; "name"; "description"; "username"; "password"].

Definition credentialsOfMap (m : gmap string string) : bmcApiAuth :=
  {| AccessToken := index m "id"; Name := index m "name";
     Description := index m "description"; Username := index m "username";
     Password := index m "password" |}.

Definition exactAuthKey (k : string) : Prop :=
  In k authKeys \/ findField authFields k = None.

(** The value of the last member with key [k]. *)
Fixpoint lastValue (k : string) (members : list (string * string))
    : option string :=
  match members with
  | [] => None
  | (k', v) :: rest =>
    match lastValue k rest with
    | Some v' => Some v'
    | None => if String.eqb k' k then Some v else None
    end
  end.

(** The credentials a response object of string members amounts to:
    each field is the value of the last member with its name, and empty
    when there is none. *)
Definition credentialsOfMembers (members : list (string * string)) : bmcApiAuth :=
  {| AccessToken := default "" (lastValue "id" members);
     Name := default "" (lastValue "name" members);
     Description := default "" (lastValue "description" members);
     Username := default "" (lastValue "username" members);
     Password := default "" (lastValue "password" members) |}.

(** The operations that return the result string of the BMC, with the
    arguments they accept, the endpoint each one asks for and the context
    it wraps an error of its call in. *)
Inductive operation : Type :=
| OpUSBBoot (node : Z)
| OpClearUSBBoot (node : Z)
| OpNodetoMSD (node : Z)
| OpSetPower (node powerState : Z)
| OpResetNetwork.

Definition run (parseURL : string -> bool) (b : BMCAPI) (op : operation)
    (w : World) : result string * World :=
  match op with
  | OpUSBBoot node => USBBoot parseURL b node w
  | OpClearUSBBoot node => ClearUSBBoot parseURL b node w
  | OpNodetoMSD node => NodetoMSD parseURL b node w
  | OpSetPower node powerState => SetPower parseURL b node powerState w
  | OpResetNetwork => ResetNetwork parseURL b w
  end.

Definition validArguments (op : operation) : Prop :=
  match op with
  | OpUSBBoot node | OpClearUSBBoot node | OpNodetoMSD node => validNode node
  | OpSetPower node powerState => validNode node /\ validPowerState powerState
  | OpResetNetwork => True
  end.

Definition operationEndpoint (op : operation) : string :=
  match op with
  | OpUSBBoot node =>
    "/api/bmc?opt=set&type=usb_boot&node=" +:+ String (digit node) ""
  | OpClearUSBBoot node =>
    "/api/bmc?opt=set&type=clear_usb_boot&node=" +:+ String (digit node) ""
  | OpNodetoMSD node =>
    "/api/bmc?opt=set&type=node_to_msd&node=" +:+ String (digit node) ""
  | OpSetPower node powerState =>
    "/api/bmc?opt=power&type=set&node"
      +:+ String (digit node) (String "=" (String (digit powerState) ""))
  | OpResetNetwork => "/api/bmc?opt=set&type=network"
  end.

Definition operationContext (op : operation) : string :=
  match op with
  | OpUSBBoot _ => "error during USB Boot API call: %w"
  | OpClearUSBBoot _ => "error during Clear USB Boot API call: %w"
  | OpNodetoMSD _ => "error during Node to MSD call: %w"
  | OpSetPower _ _ => "error during Set Power call: %w"
  | OpResetNetwork => "error during Reset Network Switch call: %w"
  end.

(** The transport answers the request with status 200 and the body. *)
Definition answers (c : Http.Client) (w : World) (req : Request)
    (body : string) : Prop :=
  exists resp, Do c w req = inr resp
               /\ StatusCode resp = StatusOK /\ ReadAll resp = inr body.

(** The body decodes without error to a response list that is empty. *)
Definition emptyResponse (body : string) : Prop :=
  exists parsed,
    Unmarshal "bmcapi.bmcResultAPIResponse" resultResponseFields body
      {| Response := [] |} = (parsed, None)
    /\ Response parsed = [].

(** No key of the members is read as the field response. *)
Definition noResponseMember (members : list (string * json)) : Prop :=
  Forall (fun k => findField resultResponseFields k = None) (List.map fst members).

(** A call dereferences [b.auth] in the modes basic and bearer, and
    [b.Client] always: the call meets a nil pointer when one of them is
    nil where it is used. *)
Definition usesCredentials (b : BMCAPI) : bool :=
  String.eqb (AuthType b) "basic" || String.eqb (AuthType b) "bearer".

Definition nilPointer (b : BMCAPI) : Prop :=
  (usesCredentials b = true /\ auth b = None) \/ Client b = None.

Definition powerEndpoint : string := "/api/bmc?opt=get&type=power".

(** The record [Other] returns for a result object of string members:
    each field is the value of the last member with its name, and empty
    when there is none. *)
Definition otherOfMembers (members : list (string * string)) : bmcOther :=
  {| API := default "" (lastValue "api" members);
     BuildVersion := default "" (lastValue "build_version" members);
     Buildroot := default "" (lastValue "buildroot" members);
     Buildtime := default "" (lastValue "buildtime" members);
     IP := default "" (lastValue "ip" members);
     MAC := default "" (lastValue "mac" members);
     Version := default "" (lastValue "version" members) |}.

Definition inlineParseFailure (e : json_error) : error :=
  Errorf "error parsing json in /token response: %+v" [AError (JsonError e)].

(** What the inline [Other] returns for an answer of the transport. *)
Definition inlineOutcome (answer : error + Http.Response) : result bmcOther :=
  match answer with
  | inl err => Err (Errorf "Error making Get Other request: %w" [AError err])
  | inr resp =>
    if (StatusCode resp =? StatusOK)%Z then
      match ReadAll resp with
      | inl err => Err (Errorf "error reading response body: %w" [AError err])
      | inr bodyBytes => otherInlineOfBody bodyBytes
      end
    else Err (httpError (Status resp))
  end.

Definition requestFailure (err : error) : error :=
  Errorf "Error making request: %w" [AError err].

Definition readFailure (err : error) : error :=
  Errorf "error reading response body: %w" [AError err].

(** The error of a call whose answer is no body: the transport failed,
    the status is not 200, or the body could not be read.  The inline
    [Other] names its request in the first of them. *)
Definition callFailure (answer : error + Http.Response) : option error :=
  match answer with
  | inl err => Some (requestFailure err)
  | inr resp =>
    if (StatusCode resp =? StatusOK)%Z then
      match ReadAll resp with
      | inl err => Some (readFailure err)
      | inr _ => None
      end
    else Some (httpError (Status resp))
  end.

Definition inlineCallFailure (answer : error + Http.Response) : option error :=
  match answer with
  | inl err => Some (Errorf "Error making Get Other request: %w" [AError err])
  | inr _ => callFailure answer
  end.

(** The first member value that a [map[string]string] cannot hold: one
    that is neither a string nor null; and the error it causes. *)
Definition isStringOrNull (j : json) : bool :=
  match j with
  | JStr _ | JNull => true
  | _ => false
  end.

Definition firstMismatch (members : list (string * json)) : option json :=
  option_map snd (List.find (fun kv => negb (isStringOrNull (snd kv))) members).

Definition typeFailure (j : json) : error :=
  parseFailure (UnmarshalTypeError (kindName j) "string").

(** *** The example program *)


(** The lines the program prints for a record. *)
Definition report (r : bmcOther) : list Main.line :=
  [ [Main.OString "API:"; Main.OString (API r)];
    [Main.OString "Build Version:"; Main.OString (BuildVersion r)];
    [Main.OString "Buildroot:"; Main.OString (Buildroot r)];
    [Main.OString "Buildtime:"; Main.OString (Buildtime r)];
    [Main.OString "IP:"; Main.OString (IP r)];
    [Main.OString "MAC:"; Main.OString (MAC r)];
    [Main.OString "Version:"; Main.OString (Version r)] ].

(** The two requests of the program: the bearer handshake with the
    credentials of the command line, and the GET of Other with a token. *)
Definition programHandshake (username password : string) : Request :=
  handshakeRequest "https://turingpi.local" "bearer" username password.

Definition programOther (token : string) : Request :=
  {| Method := "GET";
     URL := "https://turingpi.local/api/bmc?opt=get&type=other";
     Header := {[ "Authorization" := Literal ("Bearer " +:+ token);
                  "Content-Type" := Literal "application/json" ]};
     Body := None |}.


(** A device for the examples: it answers the handshake with a token and
    every other request with the response of the package's test. *)
Definition device : Http.Client :=
  {| Do := fun _ req =>
       if String.eqb (URL req) "https://turingpi.local/api/bmc/authenticate"
       then inr {| StatusCode := 200; Status := "200 OK";
                   ReadAll := inr (js "{'id':'tok','name':'root'}") |}
       else inr {| StatusCode := 200; Status := "200 OK";
                   ReadAll := inr fixture |} |}.

Definition fixtureMembers : list (string * string) :=
  [ ("api", "1.1"); ("build_version", "2024.05.1");
    ("buildroot", js "'Buildroot 2024.05.1'");
    ("buildtime", "2025-01-17 17:12:52-00:00"); ("ip", "Unknown");
    ("mac", "Unknown"); ("version", "2.3.4") ].

(** ** The envelope parsers *)

Lemma Unmarshal_parse {T} gotype (fields : fieldsOf T) data v j :
  parse data = inr j ->
  Unmarshal gotype fields data v = decStruct gotype fields j v None.
Proof. intros H. unfold Unmarshal. now rewrite H. Qed.

Lemma Unmarshal_malformed {T} gotype (fields : fieldsOf T) data v e :
  parse data = inl e ->
  Unmarshal gotype fields data v = (v, Some e).
Proof. intros H. unfold Unmarshal. now rewrite H. Qed.

(** C1 (failing input): on the well-formed body with an empty response
    list, and on the bodies of an empty object and of null,
    [resultAPIParse] indexes the empty slice and panics, where
    [objectAPIParse] checks the length and returns its no-data error. *)
Theorem resultAPIParse_empty_response_panics (b : BMCAPI) :
  resultAPIParse b (js "{'response':[]}") = Panic indexOutOfRange
  /\ resultAPIParse b "{}" = Panic indexOutOfRange
  /\ resultAPIParse b "null" = Panic indexOutOfRange
  /\ objectAPIParse b (js "{'response':[]}") = Err noData.
Proof. repeat split; vm_compute; reflexivity. Qed.

(** C2: [resultAPIParse] returns ok on the scalar envelope with result ok
    and fails on the one with the empty result; whenever the body decodes
    and [Response[0].Result] is [s], it returns [s] when [s] is not empty
    and fails when it is; so it does on every body that reads as the
    scalar envelope of [s]. *)
Theorem resultAPIParse_scalar_envelope (b : BMCAPI) :
  resultAPIParse b (js "{'response':[{'result':'ok'}]}") = Ok "ok"
  /\ resultAPIParse b (js "{'response':[{'result':''}]}") = Err emptyResult
  /\ (forall body parsed entry,
        Unmarshal "bmcapi.bmcResultAPIResponse" resultResponseFields body
          {| Response := [] |} = (parsed, None) ->
        Response parsed !! 0%nat = Some entry ->
        (Result entry <> "" -> resultAPIParse b body = Ok (Result entry))
        /\ (Result entry = "" -> resultAPIParse b body = Err emptyResult))
  /\ (forall body s,
        parse body = inr (scalarEnvelope s) ->
        (s <> "" -> resultAPIParse b body = Ok s)
        /\ (s = "" -> resultAPIParse b body = Err emptyResult)).
Proof.
  assert (Hdec : forall body parsed entry,
    Unmarshal "bmcapi.bmcResultAPIResponse" resultResponseFields body
      {| Response := [] |} = (parsed, None) ->
    Response parsed !! 0%nat = Some entry ->
    (Result entry <> "" -> resultAPIParse b body = Ok (Result entry))
    /\ (Result entry = "" -> resultAPIParse b body = Err emptyResult)).
  { intros body parsed entry Hu Hl. unfold resultAPIParse. rewrite Hu, Hl.
    split; intros Hr.
    - apply String.eqb_neq in Hr. now rewrite Hr.
    - now rewrite Hr. }
  split; [vm_compute; reflexivity|].
  split; [vm_compute; reflexivity|].
  split; [exact Hdec|].
  intros body s Hp.
  apply (Hdec body {| Response := [ {| Result := s |} ] |} {| Result := s |}).
  - rewrite (Unmarshal_parse _ _ _ _ _ Hp). reflexivity.
  - reflexivity.
Qed.

Lemma resultAPIParse_scalar_envelope_witness :
  resultAPIParse
    (mockClient None) (js " { 'response' : [ { 'result' : 'on' } ] } ") = Ok "on".
Proof.
  destruct (resultAPIParse_scalar_envelope (mockClient None)) as (_ & _ & _ & H).
  apply (H _ "on").
  - vm_compute. reflexivity.
  - discriminate.
Defined.

Lemma decMembers_strings members m saved :
  decMembers (stringMembers members) m saved = (insertAll members m, saved).
Proof.
  revert m. induction members as [|[k v] members IH]; intros m; [reflexivity|].
  simpl. unfold bind. simpl. apply IH.
Qed.

Lemma objectEnvelope_decode members :
  decStruct "bmcapi.bmcObjectAPIResponse" objectResponseFields
    (objectEnvelope members) {| ObjResponse := [] |} None
  = let (m, saved) := decMembers members ∅ None in
    ({| ObjResponse := [ {| ObjResult := [m] |} ] |}, saved).
Proof.
  unfold objectEnvelope. cbn. unfold bind. cbn.
  destruct (decMembers members ∅ None) as [m saved]. reflexivity.
Qed.

(** C3: [objectAPIParse] fails when the body is not valid JSON or does not
    decode, when the decoded response list is empty and when the result
    list of its first entry is empty (so on the bodies with an empty
    response or result list); when both lists have a first element it
    returns the first result map, which for an envelope with one object
    of string members holds exactly those members. *)
Theorem objectAPIParse_contract (b : BMCAPI) :
  (forall body e, parse body = inl e -> objectAPIParse b body = Err (parseFailure e))
  /\ (forall body parsed e,
        Unmarshal "bmcapi.bmcObjectAPIResponse" objectResponseFields body
          {| ObjResponse := [] |} = (parsed, Some e) ->
        objectAPIParse b body = Err (parseFailure e))
  /\ (forall body parsed,
        Unmarshal "bmcapi.bmcObjectAPIResponse" objectResponseFields body
          {| ObjResponse := [] |} = (parsed, None) ->
        (ObjResponse parsed = [] -> objectAPIParse b body = Err noData)
        /\ (forall entry rest, ObjResponse parsed = entry :: rest ->
              ObjResult entry = [] -> objectAPIParse b body = Err noData)
        /\ (forall entry rest first more, ObjResponse parsed = entry :: rest ->
              ObjResult entry = first :: more -> objectAPIParse b body = Ok first))
  /\ objectAPIParse b (js "{'response':[{'result':[]}]}") = Err noData
  /\ objectAPIParse b (js "{'response':[]}") = Err noData
  /\ (forall body members,
        parse body = inr (objectEnvelope (stringMembers members)) ->
        objectAPIParse b body = Ok (insertAll members ∅)).
Proof.
  split; [|split; [|split; [|split; [|split]]]].
  - intros body e Hp. unfold objectAPIParse.
    rewrite (Unmarshal_malformed _ _ _ _ _ Hp). reflexivity.
  - intros body parsed e Hu. unfold objectAPIParse. rewrite Hu. reflexivity.
  - intros body parsed Hu. unfold objectAPIParse. rewrite Hu.
    split; [|split].
    + intros ->. reflexivity.
    + intros entry rest -> ->. reflexivity.
    + intros entry rest first more -> ->. reflexivity.
  - vm_compute. reflexivity.
  - vm_compute. reflexivity.
  - intros body members Hp. unfold objectAPIParse.
    rewrite (Unmarshal_parse _ _ _ _ _ Hp), objectEnvelope_decode,
      decMembers_strings. reflexivity.
Qed.

Lemma objectAPIParse_contract_witness :
  objectAPIParse (mockClient None)
    (js "{'response':[{'result':[{'node1':'1','node2':'0'}]}]}")
  = Ok (<["node2" := "0"]> (<["node1" := "1"]> ∅)).
Proof.
  destruct (objectAPIParse_contract (mockClient None)) as (_ & _ & _ & _ & _ & H).
  apply (H _ [("node1", "1"); ("node2", "0")]).
  vm_compute. reflexivity.
Defined.

(** ** Validation before any request *)

(** C4: for a node outside 0..3, USBBoot, ClearUSBBoot, NodetoMSD and
    SetPower return the node-range error, a validation error, and leave
    the record of requests as it was, whatever the client and its
    transport; for a power state outside 0..1, SetPower returns a
    validation error and sends nothing. *)
Theorem validation_precedes_requests (parseURL : string -> bool) (b : BMCAPI)
    (w : World) :
  ValidationError nodeRange
  /\ (forall node : Z, (node < 0 \/ node > 3)%Z ->
     USBBoot parseURL b node w = (Err nodeRange, w)
     /\ ClearUSBBoot parseURL b node w = (Err nodeRange, w)
     /\ NodetoMSD parseURL b node w = (Err nodeRange, w)
     /\ forall powerState, SetPower parseURL b node powerState w = (Err nodeRange, w))
  /\ (forall node powerState : Z, (powerState < 0 \/ powerState > 1)%Z ->
        exists e, ValidationError e
                  /\ SetPower parseURL b node powerState w = (Err e, w)).
Proof.
  split; [now left|]. split.
  - intros node Hn.
    assert (Hc : ((node <? 0)%Z || (node >? 3)%Z) = true).
    { apply orb_true_iff. destruct Hn; [left; lia | right; lia]. }
    unfold USBBoot, ClearUSBBoot, NodetoMSD, SetPower. rewrite Hc. auto.
  - intros node powerState Hs.
    assert (Hc : ((powerState <? 0)%Z || (powerState >? 1)%Z) = true).
    { apply orb_true_iff. destruct Hs; [left; lia | right; lia]. }
    unfold SetPower. destruct ((node <? 0)%Z || (node >? 3)%Z).
    + exists nodeRange. split; [left|]; reflexivity.
    + rewrite Hc. exists powerStateRange. split; [right|]; reflexivity.
Qed.

Lemma validation_precedes_requests_witness :
  USBBoot anyURL (mockClient None) 4 [] = (Err nodeRange, []).
Proof.
  destruct (validation_precedes_requests anyURL (mockClient None) [])
    as (_ & H & _).
  destruct (H 4%Z) as [H1 _]; [right; lia | exact H1].
Defined.

(** C5: an auth type other than basic and bearer makes [NewBMCAPI] return
    the invalid-auth-type error at once: nothing is sent, whatever the
    other arguments. *)
Theorem NewBMCAPI_invalid_auth_type (parseURL : string -> bool)
    (baseURL authType username password : string) (client : option Http.Client)
    (w : World) :
  authType <> "basic" -> authType <> "bearer" ->
  NewBMCAPI parseURL baseURL authType username password client w
  = (Err (New ("invalid auth type: " +:+ authType)), w).
Proof.
  intros Hb Hr. unfold NewBMCAPI.
  apply String.eqb_neq in Hb. apply String.eqb_neq in Hr.
  rewrite Hb, Hr. reflexivity.
Qed.

Lemma NewBMCAPI_invalid_auth_type_witness :
  NewBMCAPI anyURL "" "digest" "root" "turing" None []
  = (Err (New "invalid auth type: digest"), []).
Proof.
  apply (NewBMCAPI_invalid_auth_type anyURL "" "digest" "root" "turing" None []);
    discriminate.
Defined.

(** ** The handshake *)

(** C6: in bearer mode, when the handshake request is answered with
    status 200 and a body that decodes without error into credentials
    whose token is empty, [NewBMCAPI] returns the missing-token error and
    no client. *)
Theorem NewBMCAPI_bearer_missing_token (parseURL : string -> bool)
    (baseURL username password : string) (c : Http.Client) (w : World)
    (req : Request) (resp : Http.Response) (bodyBytes : string)
    (authResponse : bmcApiAuth) :
  NewRequest parseURL "GET" (effectiveBaseURL baseURL +:+ "/api/bmc/authenticate")
    = inr req ->
  Do c w (SetBody (authRequestBody username password)
            (HeaderSet "Content-Type" (Literal "application/json") req))
    = inr resp ->
  StatusCode resp = StatusOK ->
  ReadAll resp = inr bodyBytes ->
  Unmarshal "bmcapi.bmcApiAuth" authFields bodyBytes zeroAuth
    = (authResponse, None) ->
  AccessToken authResponse = "" ->
  NewBMCAPI parseURL baseURL "bearer" username password (Some c) w
  = (Err missingToken,
     (w ++ [SetBody (authRequestBody username password)
              (HeaderSet "Content-Type" (Literal "application/json") req)])%list).
Proof.
  intros Hreq Hdo Hst Hrd Hun Htok. unfold NewBMCAPI.
  fold (effectiveBaseURL baseURL). cbn [String.eqb Ascii.eqb Bool.eqb negb andb].
  rewrite Hreq. unfold ClientDo. rewrite Hdo, Hst, Z.eqb_refl. cbn [negb].
  rewrite Hrd, Hun, Htok. reflexivity.
Qed.

Lemma NewBMCAPI_bearer_missing_token_witness :
  fst (NewBMCAPI anyURL "" "bearer" "root" "turing"
         (Some (respond 200 "200 OK" (js "{'id':'','name':'admin'}"))) [])
  = Err missingToken.
Proof.
  rewrite (NewBMCAPI_bearer_missing_token anyURL "" "root" "turing"
             (respond 200 "200 OK" (js "{'id':'','name':'admin'}")) []
             {| Method := "GET"; URL := "https://turingpi.local/api/bmc/authenticate";
                Header := ∅; Body := None |}
             {| StatusCode := 200; Status := "200 OK";
                ReadAll := inr (js "{'id':'','name':'admin'}") |}
             (js "{'id':'','name':'admin'}")
             {| AccessToken := ""; Name := "admin"; Description := "";
                Username := ""; Password := "" |});
    reflexivity.
Defined.

(** ** Requests *)

(** [bmcAPICall] sends at most one request, a GET of the base URL
    followed by the endpoint. *)
Lemma bmcAPICall_request parseURL b endpoint w r w' :
  bmcAPICall parseURL b endpoint w = (r, w') ->
  w' = w
  \/ exists req, w' = (w ++ [req])%list
                 /\ Method req = "GET" /\ URL req = BaseURL b +:+ endpoint.
Proof.
  unfold bmcAPICall, NewRequest, ClientDo.
  destruct (parseURL (BaseURL b +:+ endpoint)); [|intros [= _ <-]; now left].
  destruct (String.eqb (AuthType b) "basic");
    [|destruct (String.eqb (AuthType b) "bearer")];
    try (destruct (auth b) as [a|]; [|intros [= _ <-]; now left]);
    (destruct (Client b) as [c|]; [|intros [= _ <-]; now left]);
    match goal with
    | |- context [Do c w ?rq] =>
      destruct (Do c w rq) as [err|resp];
        [ intros [= _ <-]; right; exists rq; repeat split; reflexivity |
          destruct (negb (StatusCode resp =? StatusOK)%Z);
            [ intros [= _ <-]; right; exists rq; repeat split; reflexivity |
              destruct (ReadAll resp); intros [= _ <-]; right; exists rq;
                repeat split; reflexivity ] ]
    end.
Qed.

(** With credentials and an http client in place and a URL that parses,
    a call hands one request to the transport and turns its answer into
    the result. *)
Lemma bmcAPICall_run parseURL b a c endpoint w :
  parseURL (BaseURL b +:+ endpoint) = true ->
  auth b = Some a -> Client b = Some c ->
  bmcAPICall parseURL b endpoint w
  = (callOutcome (Do c w (callRequest b a endpoint)),
     (w ++ [callRequest b a endpoint])%list).
Proof.
  intros Hurl Ha Hc.
  unfold bmcAPICall, NewRequest, ClientDo, callOutcome.
  rewrite Hurl, Ha, Hc.
  assert (Hreq : callRequest b a endpoint
    = if String.eqb (AuthType b) "basic" then
        SetBasicAuth (Username a) (Password a)
          {| Method := "GET"; URL := BaseURL b +:+ endpoint; Header := ∅;
             Body := None |}
      else if String.eqb (AuthType b) "bearer" then
        HeaderSet "Authorization" (Literal ("Bearer " +:+ AccessToken a))
          (HeaderSet "Content-Type" (Literal "application/json")
             {| Method := "GET"; URL := BaseURL b +:+ endpoint; Header := ∅;
                Body := None |})
      else {| Method := "GET"; URL := BaseURL b +:+ endpoint; Header := ∅;
              Body := None |}).
  { unfold callRequest, callHeaders.
    destruct (String.eqb (AuthType b) "basic");
      [|destruct (String.eqb (AuthType b) "bearer")]; reflexivity. }
  rewrite Hreq. clear Hreq.
  destruct (String.eqb (AuthType b) "basic");
    [|destruct (String.eqb (AuthType b) "bearer")];
    match goal with
    | |- context [Do c w ?rq] => destruct (Do c w rq) as [err|resp]
    end; try reflexivity;
    destruct (StatusCode resp =? StatusOK)%Z; cbn [negb]; try reflexivity;
    destruct (ReadAll resp); reflexivity.
Qed.

(** C7: for a node in 0..3 and a power state in 0..1, [SetPower] calls
    [bmcAPICall] with the endpoint that writes the node number directly
    after the word node and the state after the equals sign, and hands the
    body to [resultAPIParse]; the request it sends, if any, is a GET of
    the base URL followed by that endpoint, and it does send one when the
    URL parses and the client and its credentials are present.  What it
    returns then is what the transport answered to that request: the
    outcome of [resultAPIParse] on the body of an answer with status 200,
    and the error of the call, in the context of Set Power, for any other
    answer. *)
Theorem SetPower_endpoint (parseURL : string -> bool) (b : BMCAPI)
    (node powerState : Z) (w : World) :
  (0 <= node <= 3)%Z -> (0 <= powerState <= 1)%Z ->
  setPowerEndpoint node powerState
    = "/api/bmc?opt=power&type=set&node"
        +:+ String (digit node) (String "=" (String (digit powerState) ""))
  /\ SetPower parseURL b node powerState w
      = match bmcAPICall parseURL b (setPowerEndpoint node powerState) w with
        | (Panic t, w') => (Panic t, w')
        | (Err err, w') =>
          (Err (Errorf "error during Set Power call: %w" [AError err]), w')
        | (Ok bodyBytes, w') => (resultAPIParse b bodyBytes, w')
        end
  /\ (snd (SetPower parseURL b node powerState w) = w
      \/ exists req, snd (SetPower parseURL b node powerState w) = (w ++ [req])%list
                     /\ Method req = "GET"
                     /\ URL req = BaseURL b +:+ setPowerEndpoint node powerState)
  /\ (parseURL (BaseURL b +:+ setPowerEndpoint node powerState) = true ->
      auth b <> None -> Client b <> None ->
      exists req, snd (SetPower parseURL b node powerState w) = (w ++ [req])%list
                  /\ URL req = BaseURL b +:+ setPowerEndpoint node powerState)
  /\ (forall a c,
        auth b = Some a -> Client b = Some c ->
        parseURL (BaseURL b +:+ "/api/bmc?opt=power&type=set&node"
                    +:+ String (digit node) (String "=" (String (digit powerState) "")))
          = true ->
        snd (SetPower parseURL b node powerState w)
        = (w ++ [callRequest b a
                   ("/api/bmc?opt=power&type=set&node"
                      +:+ String (digit node)
                            (String "=" (String (digit powerState) "")))])%list
        /\ (forall body,
              answers c w
                (callRequest b a
                   ("/api/bmc?opt=power&type=set&node"
                      +:+ String (digit node)
                            (String "=" (String (digit powerState) ""))))
                body ->
              fst (SetPower parseURL b node powerState w) = resultAPIParse b body)
        /\ (forall failure,
              callFailure
                (Do c w
                   (callRequest b a
                      ("/api/bmc?opt=power&type=set&node"
                         +:+ String (digit node)
                               (String "=" (String (digit powerState) "")))))
              = Some failure ->
              fst (SetPower parseURL b node powerState w)
              = Err (wrapped "error during Set Power call: %w" failure))).
Proof.
  intros Hn Hs.
  assert (Hrun : SetPower parseURL b node powerState w
      = match bmcAPICall parseURL b (setPowerEndpoint node powerState) w with
        | (Panic t, w') => (Panic t, w')
        | (Err err, w') =>
          (Err (Errorf "error during Set Power call: %w" [AError err]), w')
        | (Ok bodyBytes, w') => (resultAPIParse b bodyBytes, w')
        end).
  { unfold SetPower.
    replace ((node <? 0)%Z || (node >? 3)%Z) with false
      by (symmetry; apply orb_false_iff; split; lia).
    replace ((powerState <? 0)%Z || (powerState >? 1)%Z) with false
      by (symmetry; apply orb_false_iff; split; lia).
    reflexivity. }
  assert (Hw : snd (SetPower parseURL b node powerState w)
               = snd (bmcAPICall parseURL b (setPowerEndpoint node powerState) w)).
  { rewrite Hrun.
    destruct (bmcAPICall parseURL b (setPowerEndpoint node powerState) w)
      as [[body|err|t] w']; reflexivity. }
  assert (Hend : setPowerEndpoint node powerState
                 = "/api/bmc?opt=power&type=set&node"
                     +:+ String (digit node)
                           (String "=" (String (digit powerState) ""))).
  { assert (Hnode : (node = 0 \/ node = 1 \/ node = 2 \/ node = 3)%Z) by lia.
    assert (Hstate : (powerState = 0 \/ powerState = 1)%Z) by lia.
    destruct Hnode as [-> | [-> | [-> | ->] ] ]; destruct Hstate as [-> | ->];
      reflexivity. }
  split; [exact Hend|]. split; [exact Hrun|]. split; [|split].
  - rewrite Hw.
    destruct (bmcAPICall parseURL b (setPowerEndpoint node powerState) w)
      as [r w'] eqn:Hcall.
    apply bmcAPICall_request in Hcall. exact Hcall.
  - intros Hurl Hauth Hclient. rewrite Hw.
    unfold bmcAPICall, NewRequest, ClientDo. rewrite Hurl.
    destruct (auth b) as [a|]; [|congruence].
    destruct (Client b) as [c|]; [|congruence].
    destruct (String.eqb (AuthType b) "basic");
      [|destruct (String.eqb (AuthType b) "bearer")];
      match goal with
      | |- context [Do c w ?rq] =>
        exists rq; split; [|reflexivity];
          destruct (Do c w rq) as [err|resp]; [reflexivity|];
          destruct (negb (StatusCode resp =? StatusOK)%Z); [reflexivity|];
          destruct (ReadAll resp); reflexivity
      end.
  - intros a c Ha Hc Hurl. rewrite Hrun, Hend.
    rewrite (bmcAPICall_run parseURL b a c _ w Hurl Ha Hc).
    unfold wrapped, answers, callFailure, callOutcome.
    split; [|split].
    + destruct (Do c w _) as [err|resp]; [reflexivity|].
      destruct (StatusCode resp =? StatusOK)%Z; [|reflexivity].
      destruct (ReadAll resp); reflexivity.
    + intros body (resp & Hdo & Hst & Hrd).
      now rewrite Hdo, Hst, Z.eqb_refl, Hrd.
    + intros failure.
      destruct (Do c w _) as [err|resp]; [now intros [= <-]|].
      destruct (StatusCode resp =? StatusOK)%Z; [|now intros [= <-]].
      destruct (ReadAll resp); [now intros [= <-] | discriminate].
Qed.

Lemma SetPower_endpoint_witness :
  SetPower anyURL
    (mockClient (Some (respond 200 "200 OK"
                         (js "{'response':[{'result':'ok'}]}"))))
    2 1 []
  = (Ok "ok",
     [ {| Method := "GET";
          URL := "http://mock/api/bmc?opt=power&type=set&node2=1";
          Header := {[ "Authorization" := BasicAuth "user" "pass" ]};
          Body := None |} ]).
Proof.
  destruct (SetPower_endpoint anyURL
              (mockClient (Some (respond 200 "200 OK"
                                   (js "{'response':[{'result':'ok'}]}"))))
              2 1 []) as (_ & _ & _ & _ & Hanswer); [lia | lia |].
  destruct (Hanswer
              {| AccessToken := ""; Name := ""; Description := "";
                 Username := "user"; Password := "pass" |}
              (respond 200 "200 OK" (js "{'response':[{'result':'ok'}]}"))
              eq_refl eq_refl eq_refl) as (Hw & Hbody & _).
  specialize (Hbody (js "{'response':[{'result':'ok'}]}")).
  rewrite (surjective_pairing (SetPower _ _ _ _ _)), Hw, Hbody.
  - reflexivity.
  - eexists. repeat split; reflexivity.
Defined.

(** What [NewBMCAPI] sends, if anything, is one request to a URL that
    starts with the effective base URL, and a client it returns holds
    that base URL. *)
Lemma NewBMCAPI_request parseURL baseURL authType username password client w r w' :
  NewBMCAPI parseURL baseURL authType username password client w = (r, w') ->
  (w' = w
   \/ exists req path, w' = (w ++ [req])%list
                       /\ URL req = effectiveBaseURL baseURL +:+ path)
  /\ forall b, r = Ok b -> BaseURL b = effectiveBaseURL baseURL.
Proof.
  unfold NewBMCAPI, NewRequest, ClientDo. fold (effectiveBaseURL baseURL).
  destruct (negb (String.eqb authType "basic") && negb (String.eqb authType "bearer"));
    [intros [= <- <-]; split; [now left | discriminate]|].
  destruct (String.eqb authType "bearer").
  - destruct (parseURL _); [|intros [= <- <-]; split; [now left | discriminate]].
    destruct client as [c|]; [|intros [= <- <-]; split; [now left | discriminate]].
    match goal with
    | |- context [Do c w ?rq] =>
      assert (Hsent : w' = (w ++ [rq])%list ->
                w' = w \/ exists req path, w' = (w ++ [req])%list
                     /\ URL req = effectiveBaseURL baseURL +:+ path)
        by (intros ->; right; exists rq, "/api/bmc/authenticate"; split; reflexivity);
      destruct (Do c w rq) as [err|resp]
    end; [intros [= <- <-]; split; [now apply Hsent | discriminate]|].
    destruct (negb (StatusCode resp =? StatusOK)%Z);
      [intros [= <- <-]; split; [now apply Hsent | discriminate]|].
    destruct (ReadAll resp) as [err|bodyBytes];
      [intros [= <- <-]; split; [now apply Hsent | discriminate]|].
    destruct (Unmarshal _ _ _ _) as [a [e|]];
      [intros [= <- <-]; split; [now apply Hsent | discriminate]|].
    destruct (String.eqb (AccessToken a) "");
      intros [= <- <-]; (split; [now apply Hsent|]); [discriminate|].
    intros b [= <-]. reflexivity.
  - destruct (String.eqb authType "basic").
    + destruct (parseURL _); [|intros [= <- <-]; split; [now left | discriminate]].
      destruct client as [c|]; [|intros [= <- <-]; split; [now left | discriminate]].
      match goal with
      | |- context [Do c w ?rq] =>
        assert (Hsent : w' = (w ++ [rq])%list ->
                  w' = w \/ exists req path, w' = (w ++ [req])%list
                       /\ URL req = effectiveBaseURL baseURL +:+ path)
          by (intros ->; right; exists rq, "/api/bmc?opt=get&type=info";
              split; reflexivity);
        destruct (Do c w rq) as [err|resp]
      end; [intros [= <- <-]; split; [now apply Hsent | discriminate]|].
      destruct (negb (StatusCode resp =? StatusOK)%Z);
        intros [= <- <-]; (split; [now apply Hsent|]); [discriminate|].
      intros b [= <-]. reflexivity.
    + intros [= <- <-]. split; [now left|]. intros b [= <-]. reflexivity.
Qed.

(** C8: with an empty base URL [NewBMCAPI] behaves as with the default
    URL https://turingpi.local: the handshake request goes to a URL that
    starts with it and the client returned holds it as [BaseURL]; a base
    URL that is not empty is used as given; and every later call sends
    its request to the client's [BaseURL] followed by the endpoint. *)
Theorem NewBMCAPI_default_base_url (parseURL : string -> bool)
    (authType username password : string) (client : option Http.Client)
    (w : World) :
  effectiveBaseURL "" = "https://turingpi.local"
  /\ NewBMCAPI parseURL "" authType username password client w
      = NewBMCAPI parseURL tpiDefaultURL authType username password client w
  /\ (forall baseURL r w',
        NewBMCAPI parseURL baseURL authType username password client w = (r, w') ->
        (baseURL <> "" -> effectiveBaseURL baseURL = baseURL)
        /\ (w' = w
            \/ exists req path, w' = (w ++ [req])%list
                                /\ URL req = effectiveBaseURL baseURL +:+ path)
        /\ forall b, r = Ok b -> BaseURL b = effectiveBaseURL baseURL)
  /\ (forall b endpoint w0 r w',
        bmcAPICall parseURL b endpoint w0 = (r, w') ->
        w' = w0
        \/ exists req, w' = (w0 ++ [req])%list
                       /\ URL req = BaseURL b +:+ endpoint).
Proof.
  split; [reflexivity|]. split; [reflexivity|]. split.
  - intros baseURL r w' Hnew. split.
    + intros Hne. unfold effectiveBaseURL.
      apply String.eqb_neq in Hne. now rewrite Hne.
    + exact (NewBMCAPI_request _ _ _ _ _ _ _ _ _ Hnew).
  - intros b endpoint w0 r w' Hcall.
    destruct (bmcAPICall_request _ _ _ _ _ _ Hcall) as [->|(req & -> & _ & Hu)];
      [now left | right; eauto].
Qed.

Lemma NewBMCAPI_default_base_url_witness :
  match NewBMCAPI anyURL "" "basic" "root" "turing"
          (Some (respond 200 "200 OK" "")) [] with
  | (Ok b, w') =>
    BaseURL b = "https://turingpi.local"
    /\ map URL w' = ["https://turingpi.local/api/bmc?opt=get&type=info"]
  | _ => False
  end.
Proof.
  destruct (NewBMCAPI_default_base_url anyURL "basic" "root" "turing"
              (Some (respond 200 "200 OK" "")) []) as (_ & _ & H & _).
  destruct (NewBMCAPI anyURL "" "basic" "root" "turing"
              (Some (respond 200 "200 OK" "")) []) as [r w'] eqn:Hnew.
  destruct (H "" r w' Hnew) as (_ & _ & Hb).
  vm_compute in Hnew. injection Hnew as <- <-.
  split; [exact (Hb _ eq_refl) | reflexivity].
Defined.

(** ** The two implementations of Other *)

(** Both implementations send the same request; when the call fails they
    both fail, and when it returns a body each goes on with that body. *)
Lemma Other_call parseURL b w :
  match bmcAPICall parseURL b otherEndpoint w with
  | (Panic t, w') =>
    Other parseURL b w = (Panic t, w') /\ Other_inline parseURL b w = (Panic t, w')
  | (Err _, w') =>
    isErr (fst (Other parseURL b w)) /\ snd (Other parseURL b w) = w'
    /\ isErr (fst (Other_inline parseURL b w))
    /\ snd (Other_inline parseURL b w) = w'
  | (Ok bodyBytes, w') =>
    Other parseURL b w = (otherOfBody b bodyBytes, w')
    /\ Other_inline parseURL b w = (otherInlineOfBody bodyBytes, w')
  end.
Proof.
  unfold Other, Other_inline, bmcAPICall, NewRequest, ClientDo, otherEndpoint, isErr.
  destruct (parseURL _); [|cbn; eauto 6].
  destruct (String.eqb (AuthType b) "basic");
    [|destruct (String.eqb (AuthType b) "bearer")];
    try (destruct (auth b) as [a|]; [|cbn; eauto 6]);
    (destruct (Client b) as [c|]; [|cbn; eauto 6]);
    match goal with
    | |- context [Do c w ?rq] => destruct (Do c w rq) as [err|resp]
    end; try (cbn; eauto 6);
    (destruct (negb (StatusCode resp =? StatusOK)%Z); [cbn; eauto 6|]);
    (destruct (ReadAll resp) as [err|bodyBytes]; [cbn; eauto 6|]);
    split; try reflexivity;
    unfold otherOfBody, otherInlineOfBody;
    try (destruct (objectAPIParse b bodyBytes); reflexivity);
    destruct (Unmarshal _ _ _ _) as [parsed [e|]]; try reflexivity;
    destruct (OtherResponse parsed) as [|entry ?]; try reflexivity;
    destruct (OtherResult entry); reflexivity.
Qed.

(** *** One JSON value decoded into two Go types *)












(** *** Keys that both implementations read alike *)


Lemma index_insert_eq k v (m : gmap string string) : index (<[k := v]> m) k = v.
Proof. unfold index. now rewrite lookup_insert_eq. Qed.

Lemma index_insert_ne k k' v (m : gmap string string) :
  k <> k' -> index (<[k := v]> m) k' = index m k'.
Proof. intros H. unfold index. now rewrite lookup_insert_ne. Qed.






(** A key that is a name in upper case is read by the inline
    implementation only. *)
Example Other_upper_case_key :
  otherOn (js "{'response':[{'result':[{'API':'1.1'}]}]}") = Ok zeroOther
  /\ otherInlineOn (js "{'response':[{'result':[{'API':'1.1'}]}]}")
     = Ok {| API := "1.1"; BuildVersion := ""; Buildroot := ""; Buildtime := "";
             IP := ""; MAC := ""; Version := "" |}.
Proof. split; vm_compute; reflexivity. Qed.

(** A number under a key that is no field is an error for the
    helper-based implementation only. *)
Example Other_number_member :
  isErr (otherOn (js "{'response':[{'result':[{'api':'1.1','uptime':5}]}]}"))
  /\ otherInlineOn (js "{'response':[{'result':[{'api':'1.1','uptime':5}]}]}")
     = Ok {| API := "1.1"; BuildVersion := ""; Buildroot := ""; Buildtime := "";
             IP := ""; MAC := ""; Version := "" |}.
Proof. split; [eexists|]; vm_compute; reflexivity. Qed.






(** ** The body of the bearer handshake *)

Lemma append_cons c s1 s2 : String c s1 +:+ s2 = String c (s1 +:+ s2).
Proof. reflexivity. Qed.

Lemma length_append s1 s2 :
  String.length (s1 +:+ s2) = (String.length s1 + String.length s2)%nat.
Proof.
  induction s1 as [|c s1 IH]; [reflexivity|].
  rewrite append_cons. cbn [String.length]. now rewrite IH.
Qed.

Lemma append_assoc s1 s2 s3 : (s1 +:+ s2) +:+ s3 = s1 +:+ (s2 +:+ s3).
Proof.
  induction s1 as [|c s1 IH]; [reflexivity|].
  rewrite !append_cons. now rewrite IH.
Qed.

Lemma escapeJSON_length c :
  (1 <= String.length (escapeJSON c))%nat
  /\ (String.length (escapeJSON c) = 1%nat -> safeChar c = true).
Proof.
  unfold escapeJSON, safeChar.
  destruct (Ascii.eqb c dquote); [cbn; split; [lia | discriminate]|].
  destruct (Ascii.eqb c backslash); [cbn; split; [lia | discriminate]|].
  destruct (byte_of c <? 32); cbn; split; lia.
Qed.

Lemma escapeJSON_safe c : safeChar c = true -> escapeJSON c = String c "".
Proof.
  unfold escapeJSON, safeChar. intros H.
  destruct (Ascii.eqb c dquote); [discriminate|].
  destruct (Ascii.eqb c backslash); [discriminate|].
  destruct (byte_of c <? 32); [discriminate | reflexivity].
Qed.

Lemma jsonString_length s :
  (String.length s <= String.length (jsonString s))%nat
  /\ (String.length (jsonString s) = String.length s -> jsonSafe s).
Proof.
  unfold jsonSafe. induction s as [|c s [IH1 IH2]]; [cbn; auto|].
  change (jsonString (String c s)) with (escapeJSON c +:+ jsonString s).
  rewrite length_append. destruct (escapeJSON_length c) as [H1 H2].
  cbn [String.length allChars].
  split; [lia|]. intros H.
  rewrite H2 by lia. rewrite IH2 by lia. reflexivity.
Qed.

Lemma jsonString_safe s : jsonSafe s -> jsonString s = s.
Proof.
  unfold jsonSafe. induction s as [|c s IH]; [reflexivity|].
  cbn [allChars jsonString].
  intros H. apply andb_true_iff in H as [Hc Hs].
  now rewrite (escapeJSON_safe c Hc), (IH Hs).
Qed.

(** *** The scanner on the bytes of a plain string *)

Lemma append_nil_r s : s +:+ "" = s.
Proof.
  induction s as [|c s IH]; [reflexivity|]. now rewrite append_cons, IH.
Qed.

Lemma scanBytes_error data e : scanBytes data (ScanError e) = ScanError e.
Proof. destruct data; reflexivity. Qed.

Lemma scanBytes_app s1 s2 st :
  scanBytes (s1 +:+ s2) st = scanBytes s2 (scanBytes s1 st).
Proof.
  revert st. induction s1 as [|c s1 IH]; intros st.
  - destruct st; reflexivity.
  - rewrite append_cons. destruct st as [m stack|e].
    + cbn [scanBytes]. apply IH.
    + cbn [scanBytes]. now rewrite scanBytes_error.
Qed.

Lemma step_safe raw stack c :
  safeChar c = true ->
  step (InString raw) stack c = Scanning (InString (snoc raw c)) stack.
Proof.
  unfold safeChar. intros H. cbn [step].
  destruct (Ascii.eqb c dquote); [discriminate|].
  destruct (Ascii.eqb c backslash); [discriminate|].
  destruct (byte_of c <? 32); [discriminate | reflexivity].
Qed.

Lemma scanBytes_safe s : forall raw stack,
  jsonSafe s ->
  scanBytes s (Scanning (InString raw) stack)
  = Scanning (InString (raw +:+ s)) stack.
Proof.
  unfold jsonSafe. induction s as [|c s IH]; intros raw stack H.
  - now rewrite append_nil_r.
  - cbn [allChars] in H. apply andb_true_iff in H as [Hc Hs].
    cbn [scanBytes]. rewrite (step_safe raw stack c Hc), (IH _ _ Hs).
    unfold snoc. now rewrite append_assoc.
Qed.

Lemma scanBytes_close_string rest raw stack :
  scanBytes (String dquote rest) (Scanning (InString raw) stack)
  = scanBytes rest (complete (JStr (unquote raw)) stack).
Proof. reflexivity. Qed.

Lemma safeChar_not_backslash c : safeChar c = true -> Ascii.eqb c backslash = false.
Proof.
  unfold safeChar. destruct (Ascii.eqb c backslash); [|reflexivity].
  rewrite andb_false_r. discriminate.
Qed.

(** [unquote] leaves a string of safe bytes in well-formed UTF-8 as it
    is. *)
Lemma unquote_plain_bounded n : forall s,
  (String.length s <= n)%nat -> jsonSafe s -> wellFormedUTF8 s = true ->
  unquote s = s.
Proof.
  unfold jsonSafe.
  induction n as [|n IH]; intros s Hlen Hs Hw.
  - destruct s; [reflexivity | cbn in Hlen; lia].
  - destruct s as [|c t]; [reflexivity|].
    cbn [allChars] in Hs. apply andb_true_iff in Hs as [Hc Ht].
    cbn [String.length] in Hlen.
    cbn [unquote]. rewrite (safeChar_not_backslash c Hc).
    cbn [wellFormedUTF8] in Hw.
    destruct (byte_of c <? 128).
    + f_equal. apply IH; [lia | assumption | assumption].
    + destruct (seqLen c) as [|[|[|[|[|k]]]]]; try discriminate Hw.
      * destruct t as [|c2 t2]; [discriminate|].
        apply andb_true_iff in Hw as [H2 Hw]. rewrite H2.
        cbn [allChars String.length] in Ht, Hlen.
        apply andb_true_iff in Ht as [_ Ht].
        do 2 f_equal. apply IH; [lia | assumption | assumption].
      * destruct t as [|c2 [|c3 t3]]; try discriminate.
        apply andb_true_iff in Hw as [H2 Hw]. rewrite H2.
        cbn [allChars String.length] in Ht, Hlen.
        apply andb_true_iff in Ht as [_ Ht]. apply andb_true_iff in Ht as [_ Ht].
        do 3 f_equal. apply IH; [lia | assumption | assumption].
      * destruct t as [|c2 [|c3 [|c4 t4]]]; try discriminate.
        apply andb_true_iff in Hw as [H2 Hw]. rewrite H2.
        cbn [allChars String.length] in Ht, Hlen.
        apply andb_true_iff in Ht as [_ Ht]. apply andb_true_iff in Ht as [_ Ht].
        apply andb_true_iff in Ht as [_ Ht].
        do 4 f_equal. apply IH; [lia | assumption | assumption].
Qed.

Lemma unquote_plain s : jsonSafe s -> wellFormedUTF8 s = true -> unquote s = s.
Proof. apply (unquote_plain_bounded (String.length s)). lia. Qed.

(** The body of plain credentials reads as the credentials. *)
Lemma authRequestBody_plain username password :
  jsonSafe username -> jsonSafe password ->
  wellFormedUTF8 username = true -> wellFormedUTF8 password = true ->
  readsAsCredentials (authRequestBody username password) username password.
Proof.
  intros Hu Hp Wu Wp. unfold readsAsCredentials, parse, authRequestBody.
  rewrite scanBytes_app.
  change (scanBytes (js "{'username':'") (Scanning BeginValue []))
    with (Scanning (InString "") [FVal [] "username"]).
  rewrite scanBytes_app, (scanBytes_safe username "" _ Hu).
  change ("" +:+ username) with username.
  rewrite scanBytes_app.
  change (js "','password':'") with (String dquote (js ",'password':'")).
  rewrite scanBytes_close_string, (unquote_plain username Hu Wu).
  change (scanBytes (js ",'password':'")
            (complete (JStr username) [FVal [] "username"]))
    with (Scanning (InString "") [FVal [("username", JStr username)] "password"]).
  rewrite scanBytes_app, (scanBytes_safe password "" _ Hp).
  change ("" +:+ password) with password.
  change (js "'}") with (String dquote "}").
  rewrite scanBytes_close_string, (unquote_plain password Hp Wp).
  reflexivity.
Qed.

(** *** The scanner inside a string literal *)

Lemma stuck_eof st v : stuck st -> eof st <> inr v.
Proof.
  destruct st as [m stack|e]; [|discriminate].
  destruct m; cbn; try contradiction; intros _.
  - destruct (byte_of " " <? 32) eqn:H; discriminate.
  - discriminate.
  - discriminate.
Qed.

(** From inside a string literal the scanner either reaches the closing
    quote, having read an accepted literal, or it fails or runs out of
    input. *)
Lemma string_run n : forall T acc stack, (String.length T <= n)%nat ->
  (exists raw rest,
      T = raw +:+ String dquote rest /\ isLiteral raw = true
      /\ scanBytes T (Scanning (InString acc) stack)
         = scanBytes rest (complete (JStr (unquote (acc +:+ raw))) stack))
  \/ stuck (scanBytes T (Scanning (InString acc) stack)).
Proof.
  induction n as [|n IH]; intros T acc stack Hlen.
  - destruct T; [right; rewrite ?scanBytes_error; exact I | cbn in Hlen; lia].
  - destruct T as [|c t]; [right; rewrite ?scanBytes_error; exact I|].
    cbn [String.length] in Hlen. cbn [scanBytes step].
    destruct (Ascii.eqb c dquote) eqn:Hq.
    { apply Ascii.eqb_eq in Hq. subst c. left. exists "", t.
      rewrite append_nil_r. repeat split. }
    destruct (Ascii.eqb c backslash) eqn:Hb.
    + destruct t as [|e t1]; [right; rewrite ?scanBytes_error; exact I|].
      cbn [String.length] in Hlen. cbn [scanBytes step].
      fold (simpleEscape e). destruct (simpleEscape e) eqn:He.
      * destruct (IH t1 (snoc (snoc acc c) e) stack ltac:(lia))
          as [(raw & rest & -> & Hl & Hs)|Hs]; [left|right; exact Hs].
        exists (String c (String e raw)), rest. split; [reflexivity|].
        split; [cbn [isLiteral]; now rewrite Hq, Hb, He|].
        rewrite Hs. unfold snoc. now rewrite !append_assoc.
      * destruct (Ascii.eqb e "u") eqn:Hu; [|right; rewrite ?scanBytes_error; exact I].
        destruct t1 as [|h1 t2]; [right; rewrite ?scanBytes_error; exact I|]. cbn [scanBytes step].
        destruct (isHex h1) eqn:H1; [|right; rewrite ?scanBytes_error; exact I].
        destruct t2 as [|h2 t3]; [right; rewrite ?scanBytes_error; exact I|]. cbn [scanBytes step Nat.ltb Nat.leb].
        destruct (isHex h2) eqn:H2; [|right; rewrite ?scanBytes_error; exact I].
        destruct t3 as [|h3 t4]; [right; rewrite ?scanBytes_error; exact I|]. cbn [scanBytes step Nat.ltb Nat.leb].
        destruct (isHex h3) eqn:H3; [|right; rewrite ?scanBytes_error; exact I].
        destruct t4 as [|h4 t5]; [right; rewrite ?scanBytes_error; exact I|]. cbn [scanBytes step Nat.ltb Nat.leb].
        destruct (isHex h4) eqn:H4; [|right; rewrite ?scanBytes_error; exact I].
        cbn [String.length] in Hlen.
        match goal with
        | |- context [Scanning (InString ?a) stack] =>
          destruct (IH t5 a stack ltac:(lia)) as [(raw & rest & -> & Hl & Hs)|Hs];
            [left|right; exact Hs]
        end.
        exists (String c (String e (String h1 (String h2 (String h3 (String h4 raw)))))),
          rest.
        split; [reflexivity|].
        split; [cbn [isLiteral]; now rewrite Hq, Hb, He, Hu, H1, H2, H3, H4|].
        rewrite Hs. unfold snoc. now rewrite !append_assoc.
    + destruct (byte_of c <? 32) eqn:Hc; [right; rewrite ?scanBytes_error; exact I|].
      destruct (IH t (snoc acc c) stack ltac:(lia))
        as [(raw & rest & -> & Hl & Hs)|Hs]; [left|right; exact Hs].
      exists (String c raw), rest. split; [reflexivity|].
      split; [cbn [isLiteral]; now rewrite Hq, Hb, Hc|].
      rewrite Hs. unfold snoc. now rewrite !append_assoc.
Qed.

(** *** Counting bytes through [unquote] *)

Lemma cnt_append c s1 s2 : cnt c (s1 +:+ s2) = (cnt c s1 + cnt c s2)%nat.
Proof.
  induction s1 as [|x s1 IH]; [reflexivity|].
  rewrite append_cons. cbn [cnt]. rewrite IH. lia.
Qed.

Lemma byte_of_chr n : n < 256 -> byte_of (chr n) = n.
Proof. intros H. unfold byte_of, chr. now apply N_ascii_embedding. Qed.

(** A byte of 128 or more is none of the double quote, the backslash and
    the letter u. *)
Lemma high_special x :
  128 <= byte_of x ->
  Ascii.eqb x dquote = false /\ Ascii.eqb x backslash = false
  /\ Ascii.eqb x "u" = false.
Proof.
  intros H. repeat split;
    (destruct (Ascii.eqb x _) eqn:E; [|reflexivity];
     apply Ascii.eqb_eq in E; subst x; vm_compute in H; congruence).
Qed.

Lemma hex_special h :
  isHex h = true ->
  Ascii.eqb h dquote = false /\ Ascii.eqb h backslash = false
  /\ Ascii.eqb h "u" = false.
Proof.
  intros H. repeat split;
    (destruct (Ascii.eqb h _) eqn:E; [|reflexivity];
     apply Ascii.eqb_eq in E; subst h; discriminate H).
Qed.

Lemma cnt_high c x s :
  128 <= byte_of x -> c = dquote \/ c = backslash \/ c = "u"%char ->
  cnt c (String x s) = cnt c s.
Proof.
  intros H Hc. destruct (high_special x H) as (H1 & H2 & H3).
  cbn [cnt]. destruct Hc as [->|[->| ->]]; [rewrite H1|rewrite H2|rewrite H3];
    reflexivity.
Qed.

Lemma shiftr_bound r k b : r < b * 2 ^ k -> N.shiftr r k < b.
Proof.
  intros H. rewrite N.shiftr_div_pow2.
  apply N.Div0.div_lt_upper_bound. lia.
Qed.

Lemma land63_bound r : N.land r 63 < 64.
Proof.
  change 63 with (N.ones 6). rewrite N.land_ones.
  apply N.mod_lt. discriminate.
Qed.

(** A rune is written with at most one double quote, backslash or u. *)
Lemma encodeRune_special r :
  (cnt dquote (encodeRune r) + cnt backslash (encodeRune r)
   + cnt "u" (encodeRune r) <= 1)%nat.
Proof.
  unfold encodeRune.
  destruct (r <? 128) eqn:H1.
  { cbn [cnt].
    destruct (Ascii.eqb (chr r) dquote) eqn:E1;
      [apply Ascii.eqb_eq in E1; rewrite E1; cbn; lia|].
    destruct (Ascii.eqb (chr r) backslash) eqn:E2;
      [apply Ascii.eqb_eq in E2; rewrite E2; cbn; lia|].
    cbn. destruct (Ascii.eqb (chr r) "u"); cbn; lia. }
  apply N.ltb_ge in H1.
  destruct (r <? 2048) eqn:H2.
  { apply N.ltb_lt in H2.
    pose proof (shiftr_bound r 6 32 ltac:(cbn; lia)) as Hs.
    pose proof (land63_bound r) as Hl.
    rewrite !cnt_high; auto; try (cbn; lia);
      rewrite byte_of_chr; lia. }
  destruct (((55296 <=? r) && (r <? 57344)) || (1114111 <? r)) eqn:H3.
  { vm_compute. lia. }
  apply orb_false_iff in H3 as [_ H3]. apply N.ltb_ge in H3.
  destruct (r <? 65536) eqn:H4.
  { apply N.ltb_lt in H4.
    pose proof (shiftr_bound r 12 16 ltac:(cbn; lia)) as Hs.
    pose proof (land63_bound r) as Hl.
    pose proof (land63_bound (N.shiftr r 6)) as Hl2.
    rewrite !cnt_high; auto; try (cbn; lia);
      rewrite byte_of_chr; lia. }
  pose proof (shiftr_bound r 18 5 ltac:(cbn; lia)) as Hs.
  pose proof (land63_bound r) as Hl.
  pose proof (land63_bound (N.shiftr r 6)) as Hl2.
  pose proof (land63_bound (N.shiftr r 12)) as Hl3.
  rewrite !cnt_high; auto; try (cbn; lia);
    rewrite byte_of_chr; lia.
Qed.

Lemma runeError_counts c :
  c = dquote \/ c = backslash \/ c = "u"%char -> cnt c runeError = 0%nat.
Proof. intros [->|[->| ->]]; reflexivity. Qed.

Lemma cont_special x :
  isCont x = true ->
  Ascii.eqb x dquote = false /\ Ascii.eqb x backslash = false
  /\ Ascii.eqb x "u" = false.
Proof.
  intros H. apply high_special. unfold isCont in H.
  apply andb_true_iff in H as [H _]. now apply N.leb_le in H.
Qed.

Lemma second_ok_special c x :
  second_ok c x = true ->
  Ascii.eqb x dquote = false /\ Ascii.eqb x backslash = false
  /\ Ascii.eqb x "u" = false.
Proof.
  intros H. apply high_special. unfold second_ok, isCont in H.
  repeat match type of H with
         | (if ?b then _ else _) = true => destruct b
         end;
    apply andb_true_iff in H as [H _]; apply N.leb_le in H; lia.
Qed.

Lemma isLiteral_high x t :
  128 <= byte_of x -> isLiteral (String x t) = isLiteral t.
Proof.
  intros H. destruct (high_special x H) as (H1 & H2 & _).
  cbn [isLiteral]. rewrite H1, H2.
  replace (byte_of x <? 32) with false; [reflexivity|].
  symmetry. apply N.ltb_ge. lia.
Qed.

Lemma isCont_high x : isCont x = true -> 128 <= byte_of x.
Proof.
  unfold isCont. intros H. apply andb_true_iff in H as [H _].
  now apply N.leb_le in H.
Qed.

Lemma second_ok_high c x : second_ok c x = true -> 128 <= byte_of x.
Proof.
  unfold second_ok, isCont. intros H.
  repeat match type of H with
         | (if ?b then _ else _) = true => destruct b
         end;
    apply andb_true_iff in H as [H _]; apply N.leb_le in H; lia.
Qed.

Lemma unquote_counts n : forall X,
  (String.length X <= n)%nat -> isLiteral X = true -> countsOK X.
Proof.
  induction n as [|n IH]; intros X Hlen HX.
  - destruct X; [unfold countsOK; cbn; lia | cbn in Hlen; lia].
  - destruct X as [|c t]; [unfold countsOK; cbn; lia|].
    cbn [String.length] in Hlen. cbn [isLiteral] in HX.
    destruct (Ascii.eqb c dquote) eqn:Hq; [discriminate|].
    unfold countsOK. cbn [unquote].
    destruct (Ascii.eqb c backslash) eqn:Hb.
    + apply Ascii.eqb_eq in Hb. subst c.
      destruct t as [|e t1]; [discriminate|]. cbn [String.length] in Hlen.
      destruct (simpleEscape e) eqn:He.
      * assert (Hu : Ascii.eqb e "u" = false).
        { destruct (Ascii.eqb e "u") eqn:E; [|reflexivity].
          apply Ascii.eqb_eq in E. subst e. discriminate He. }
        rewrite Hu. destruct (IH t1 ltac:(lia) HX) as (I1 & I2 & I3).
        unfold simpleEscape in He.
        repeat (apply orb_true_iff in He as [He|He]);
          apply Ascii.eqb_eq in He; subst e; cbn; cbn in I1, I2, I3; lia.
      * destruct (Ascii.eqb e "u") eqn:Hu; [|discriminate].
        apply Ascii.eqb_eq in Hu. subst e.
        destruct t1 as [|h1 [|h2 [|h3 [|h4 t2]]]]; try discriminate.
        cbn [String.length] in Hlen.
        apply andb_true_iff in HX as [HX H5].
        apply andb_true_iff in HX as [HX H4].
        apply andb_true_iff in HX as [HX H3].
        apply andb_true_iff in HX as [H1 H2].
        destruct (hex_special h1 H1) as (A1 & B1 & C1).
        destruct (hex_special h2 H2) as (A2 & B2 & C2).
        destruct (hex_special h3 H3) as (A3 & B3 & C3).
        destruct (hex_special h4 H4) as (A4 & B4 & C4).
        destruct (IH t2 ltac:(lia) H5) as (I1 & I2 & I3).
        cbn [cnt].
        rewrite A1, A2, A3, A4, B1, B2, B3, B4, C1, C2, C3, C4.
        cbn [Ascii.eqb Bool.eqb backslash dquote b2n].
        destruct (isSurrogate (getu4 h1 h2 h3 h4)).
        2:{ rewrite !cnt_append.
            pose proof (encodeRune_special (getu4 h1 h2 h3 h4)). lia. }
        destruct t2 as [|b [|u' [|k1 [|k2 [|k3 [|k4 t3]]]]]];
          try (rewrite !cnt_append, !runeError_counts by auto; lia).
        match goal with
        | |- context [if ?cond then _ else _] => destruct cond eqn:Hc
        end.
        2:{ rewrite !cnt_append, !runeError_counts by auto. lia. }
        repeat (apply andb_true_iff in Hc as [Hc ?]).
        apply Ascii.eqb_eq in Hc. subst b.
        match goal with
        | Hu : Ascii.eqb u' "u" = true |- _ => apply Ascii.eqb_eq in Hu; subst u'
        end.
        cbn [isLiteral] in H5.
        change (Ascii.eqb backslash dquote) with false in H5.
        change (Ascii.eqb backslash backslash) with true in H5.
        change (simpleEscape "u") with false in H5.
        change (Ascii.eqb "u" "u") with true in H5. cbn iota in H5.
        repeat match goal with
               | Hk : isHex ?k = true |- _ =>
                 lazymatch goal with
                 | _ : Ascii.eqb k dquote = false |- _ => fail
                 | _ => destruct (hex_special k Hk) as (? & ? & ?)
                 end
               end.
        repeat (apply andb_true_iff in H5 as [? H5]).
        cbn [String.length] in Hlen.
        destruct (IH t3 ltac:(lia) H5) as (J1 & J2 & J3).
        rewrite !cnt_append.
        match goal with
        | |- context [encodeRune ?r] => pose proof (encodeRune_special r)
        end.
        cbn [cnt] in *.
        repeat match goal with
               | Hk : Ascii.eqb ?k _ = false |- _ => rewrite Hk in *; clear Hk
               end.
        cbn [Ascii.eqb Bool.eqb backslash dquote b2n] in *. lia.
    + destruct (byte_of c <? 32); [discriminate|].
      destruct (IH t ltac:(lia) HX) as (I1 & I2 & I3).
      destruct (byte_of c <? 128).
      { cbn [cnt]. rewrite Hq, Hb. cbn [b2n]. lia. }
      destruct (seqLen c) as [|[|[|[|[|k]]]]];
        try (rewrite !cnt_append, !runeError_counts by auto;
             cbn [cnt] in *; rewrite ?Hq, ?Hb; cbn [b2n]; lia).
      * destruct t as [|c2 t2];
          [rewrite !cnt_append, !runeError_counts by auto;
           cbn [cnt] in *; rewrite ?Hq, ?Hb; cbn [b2n]; lia|].
        destruct (isCont c2) eqn:H2;
          [|rewrite !cnt_append, !runeError_counts by auto;
            cbn [cnt] in *; rewrite ?Hq, ?Hb; cbn [b2n]; lia].
        rewrite (isLiteral_high c2 t2 (isCont_high _ H2)) in HX.
        destruct (cont_special c2 H2) as (A2 & B2 & C2).
        cbn [String.length] in Hlen.
        destruct (IH t2 ltac:(lia) HX) as (J1 & J2 & J3).
        cbn [cnt]. rewrite Hq, Hb, A2, B2, C2. cbn [b2n]. lia.
      * destruct t as [|c2 [|c3 t3]];
          try (rewrite !cnt_append, !runeError_counts by auto;
               cbn [cnt] in *; rewrite ?Hq, ?Hb; cbn [b2n]; lia).
        destruct (second_ok c c2 && isCont c3) eqn:H2;
          [|rewrite !cnt_append, !runeError_counts by auto;
            cbn [cnt] in *; rewrite ?Hq, ?Hb; cbn [b2n]; lia].
        apply andb_true_iff in H2 as [H2 H3].
        rewrite (isLiteral_high c2 _ (second_ok_high _ _ H2)),
          (isLiteral_high c3 _ (isCont_high _ H3)) in HX.
        destruct (second_ok_special c c2 H2) as (A2 & B2 & C2).
        destruct (cont_special c3 H3) as (A3 & B3 & C3).
        cbn [String.length] in Hlen.
        destruct (IH t3 ltac:(lia) HX) as (J1 & J2 & J3).
        cbn [cnt]. rewrite Hq, Hb, A2, B2, C2, A3, B3, C3. cbn [b2n]. lia.
      * destruct t as [|c2 [|c3 [|c4 t4]]];
          try (rewrite !cnt_append, !runeError_counts by auto;
               cbn [cnt] in *; rewrite ?Hq, ?Hb; cbn [b2n]; lia).
        destruct (second_ok c c2 && isCont c3 && isCont c4) eqn:H2;
          [|rewrite !cnt_append, !runeError_counts by auto;
            cbn [cnt] in *; rewrite ?Hq, ?Hb; cbn [b2n]; lia].
        apply andb_true_iff in H2 as [H2 H4].
        apply andb_true_iff in H2 as [H2 H3].
        rewrite (isLiteral_high c2 _ (second_ok_high _ _ H2)),
          (isLiteral_high c3 _ (isCont_high _ H3)),
          (isLiteral_high c4 _ (isCont_high _ H4)) in HX.
        destruct (second_ok_special c c2 H2) as (A2 & B2 & C2).
        destruct (cont_special c3 H3) as (A3 & B3 & C3).
        destruct (cont_special c4 H4) as (A4 & B4 & C4).
        cbn [String.length] in Hlen.
        destruct (IH t4 ltac:(lia) HX) as (J1 & J2 & J3).
        cbn [cnt]. rewrite Hq, Hb, A2, B2, C2, A3, B3, C3, A4, B4, C4.
        cbn [b2n]. lia.
Qed.

(** *** A literal that denotes the text it is written in *)

Lemma append_eq_split s1 : forall t1 s2 t2,
  s1 +:+ t1 = s2 +:+ t2 ->
  (exists w, s1 = s2 +:+ w /\ t2 = w +:+ t1)
  \/ (exists w, s2 = s1 +:+ w /\ t1 = w +:+ t2).
Proof.
  induction s1 as [|x s1 IH]; intros t1 s2 t2 H.
  - right. exists s2. split; [reflexivity | exact H].
  - destruct s2 as [|y s2].
    + left. exists (String x s1). split; [reflexivity | exact (eq_sym H)].
    + rewrite !append_cons in H. injection H as -> H.
      destruct (IH _ _ _ H) as [(w & -> & ->)|(w & -> & ->)];
        [left | right]; exists w; split; reflexivity.
Qed.

Lemma append_cancel_l s : forall t1 t2, s +:+ t1 = s +:+ t2 -> t1 = t2.
Proof.
  induction s as [|x s IH]; intros t1 t2 H; [exact H|].
  rewrite !append_cons in H. injection H as H. now apply IH.
Qed.

(** If the text that follows an opening quote starts with [U] and a
    double quote, and the literal the scanner reads there denotes [U],
    then the literal is [U] itself and holds no backslash. *)
Lemma literal_fixpoint raw rest U rest' :
  isLiteral raw = true ->
  raw +:+ String dquote rest = U +:+ String dquote rest' ->
  unquote raw = U ->
  raw = U /\ rest = rest' /\ cnt backslash U = 0%nat.
Proof.
  intros Hl Heq Hu.
  destruct (unquote_counts (String.length raw) raw (le_n _) Hl) as (C1 & C2 & C3).
  rewrite Hu in C1, C2, C3.
  assert (Hraw : raw = U).
  { destruct (append_eq_split _ _ _ _ Heq) as [(w & Hw & Hr)|(w & Hw & Hr)].
    - destruct w as [|x w]; [now rewrite append_nil_r in Hw|].
      rewrite append_cons in Hr. injection Hr as <- _.
      rewrite Hw, cnt_append in C1. cbn in C1. lia.
    - destruct w as [|x w]; [now rewrite append_nil_r in Hw|].
      rewrite append_cons in Hr. injection Hr as <- _.
      rewrite Hw, !cnt_append in C2. cbn in C2. lia. }
  subst raw. split; [reflexivity|]. split.
  - apply append_cancel_l in Heq. now injection Heq.
  - lia.
Qed.

Lemma isLiteral_safe X :
  isLiteral X = true -> cnt backslash X = 0%nat -> jsonSafe X.
Proof.
  unfold jsonSafe. induction X as [|c t IH]; [reflexivity|].
  cbn [isLiteral cnt allChars]. intros Hl Hc. unfold safeChar.
  destruct (Ascii.eqb c dquote); [discriminate|].
  destruct (Ascii.eqb c backslash); [cbn in Hc; lia|].
  destruct (byte_of c <? 32); [discriminate|].
  cbn. apply IH; [assumption | cbn in Hc; lia].
Qed.

Lemma runeError_length : String.length runeError = 3%nat.
Proof. reflexivity. Qed.

(** On safe bytes [unquote] never shortens, and it keeps the length only
    of well-formed UTF-8. *)
Lemma unquote_safe_length n : forall X,
  (String.length X <= n)%nat -> jsonSafe X ->
  (String.length X <= String.length (unquote X))%nat
  /\ (String.length (unquote X) = String.length X -> wellFormedUTF8 X = true).
Proof.
  unfold jsonSafe.
  induction n as [|n IH]; intros X Hlen Hs.
  - destruct X; [cbn; auto | cbn in Hlen; lia].
  - destruct X as [|c t]; [cbn; auto|].
    cbn [allChars] in Hs. apply andb_true_iff in Hs as [Hc Ht].
    cbn [String.length] in Hlen.
    cbn [unquote wellFormedUTF8]. rewrite (safeChar_not_backslash c Hc).
    destruct (IH t ltac:(lia) Ht) as [I1 I2].
    destruct (byte_of c <? 128).
    { cbn [String.length]. split; [lia|]. intros H. apply I2. lia. }
    destruct (seqLen c) as [|[|[|[|[|k]]]]];
      try (rewrite length_append, runeError_length; cbn [String.length];
           split; [lia | intros H; lia]).
    + destruct t as [|c2 t2];
        [rewrite length_append, runeError_length; cbn [String.length] in *;
         split; [lia | intros H; lia]|].
      destruct (isCont c2);
        [|rewrite length_append, runeError_length; cbn [String.length] in *;
          split; [lia | intros H; lia]].
      cbn [allChars String.length] in Ht, Hlen.
      apply andb_true_iff in Ht as [_ Ht].
      destruct (IH t2 ltac:(lia) Ht) as [J1 J2].
      cbn [String.length andb]. split; [lia|]. intros H. apply J2. lia.
    + destruct t as [|c2 [|c3 t3]];
        try (rewrite length_append, runeError_length; cbn [String.length] in *;
             split; [lia | intros H; lia]).
      destruct (second_ok c c2 && isCont c3);
        [|rewrite length_append, runeError_length; cbn [String.length] in *;
          split; [lia | intros H; lia]].
      cbn [allChars String.length] in Ht, Hlen.
      apply andb_true_iff in Ht as [_ Ht]. apply andb_true_iff in Ht as [_ Ht].
      destruct (IH t3 ltac:(lia) Ht) as [J1 J2].
      cbn [String.length andb]. split; [lia|]. intros H. apply J2. lia.
    + destruct t as [|c2 [|c3 [|c4 t4]]];
        try (rewrite length_append, runeError_length; cbn [String.length] in *;
             split; [lia | intros H; lia]).
      destruct (second_ok c c2 && isCont c3 && isCont c4);
        [|rewrite length_append, runeError_length; cbn [String.length] in *;
          split; [lia | intros H; lia]].
      cbn [allChars String.length] in Ht, Hlen.
      apply andb_true_iff in Ht as [_ Ht]. apply andb_true_iff in Ht as [_ Ht].
      apply andb_true_iff in Ht as [_ Ht].
      destruct (IH t4 ltac:(lia) Ht) as [J1 J2].
      cbn [String.length andb]. split; [lia|]. intros H. apply J2. lia.
Qed.

Lemma unquote_fixed_wellFormed X :
  jsonSafe X -> unquote X = X -> wellFormedUTF8 X = true.
Proof.
  intros Hs Hu.
  destruct (unquote_safe_length (String.length X) X (le_n _) Hs) as [_ H].
  apply H. now rewrite Hu.
Qed.

(** *** The members of the outermost object *)

Lemma inObject_push pre f stack : inObject pre stack -> inObject pre (f :: stack).
Proof. intros (upper & g & -> & Hg). now exists (f :: upper), g. Qed.

(** A complete value inside the object leaves the scanner at the end of
    a value, still inside the object. *)
Lemma complete_inObject pre v stack :
  inObject pre stack ->
  (exists e, complete v stack = ScanError e)
  \/ (exists stack', complete v stack = Scanning EndValue stack'
                     /\ inObject pre stack').
Proof.
  intros (upper & f & -> & Hf).
  destruct upper as [|u upper].
  - cbn [app]. destruct f as [d|d|d k|d k|d]; cbn [complete objFrame] in *.
    + contradiction.
    + destruct v; eauto. right. eexists. split; [reflexivity|].
      exists [], (FColon d s). now split.
    + eauto.
    + right. eexists. split; [reflexivity|].
      exists [], (FPair (d ++ [(k, v)])). split; [reflexivity|].
      destruct Hf as [more ->]. exists (more ++ [(k, v)])%list.
      now rewrite app_assoc.
    + eauto.
  - cbn [app]. destruct u as [d|d|d k|d k|d]; cbn [complete].
    + right. eexists. split; [reflexivity|].
      now exists (FArr (d ++ [v]) :: upper), f.
    + destruct v; eauto. right. eexists. split; [reflexivity|].
      now exists (FColon d s :: upper), f.
    + eauto.
    + right. eexists. split; [reflexivity|].
      now exists (FPair (d ++ [(k, v)]) :: upper), f.
    + eauto.
Qed.

Lemma stateEndValue_Inv pre stack c :
  inObject pre stack -> Inv pre (stateEndValue stack c).
Proof.
  intros Hin. unfold stateEndValue.
  destruct (isSpace c); [exact Hin|].
  destruct Hin as (upper & f & -> & Hf).
  destruct upper as [|u upper].
  - cbn [app]. destruct f as [d|d|d k|d k|d]; cbn [objFrame] in Hf;
      try exact I; try contradiction.
    + destruct (Ascii.eqb c ":"); [|exact I].
      exists [], (FVal d k). now split.
    + destruct (Ascii.eqb c ","); [exists [], (FKey d); now split|].
      destruct (Ascii.eqb c "}"); [|exact I].
      cbn. split; [reflexivity|]. destruct Hf as [more ->]. now exists more.
  - cbn [app]. destruct u as [d|d|d k|d k|d]; try exact I.
    + destruct (Ascii.eqb c ","); [now exists (FArr d :: upper), f|].
      destruct (Ascii.eqb c "]"); [|exact I].
      destruct (complete_inObject pre (JArr d) (upper ++ [f]))
        as [[e ->]|(st' & -> & Hst)]; [now exists upper, f | exact I | exact Hst].
    + destruct (Ascii.eqb c ":"); [|exact I].
      now exists (FVal d k :: upper), f.
    + destruct (Ascii.eqb c ","); [now exists (FKey d :: upper), f|].
      destruct (Ascii.eqb c "}"); [|exact I].
      destruct (complete_inObject pre (JObj d) (upper ++ [f]))
        as [[e ->]|(st' & -> & Hst)]; [now exists upper, f | exact I | exact Hst].
Qed.

Lemma complete_Inv pre v stack :
  inObject pre stack -> Inv pre (complete v stack).
Proof.
  intros Hin.
  destruct (complete_inObject pre v stack Hin) as [[e ->]|(st' & -> & Hst)];
    [exact I | exact Hst].
Qed.

Lemma afterValue_Inv pre v stack c :
  inObject pre stack -> Inv pre (afterValue v stack c).
Proof.
  intros Hin. unfold afterValue.
  destruct (complete_inObject pre v stack Hin) as [[e ->]|(st' & -> & Hst)];
    [exact I | now apply stateEndValue_Inv].
Qed.

Lemma pushParseState_Inv pre f m stack :
  inObject pre stack ->
  (forall v, m <> EndTop v) ->
  Inv pre (pushParseState f m stack).
Proof.
  intros Hin Hm. unfold pushParseState.
  destruct (N.of_nat (length (f :: stack)) <=? maxNestingDepth); [|exact I].
  destruct m; try (now apply inObject_push). now destruct (Hm v).
Qed.

Lemma stateBeginString_Inv pre stack c :
  inObject pre stack -> Inv pre (stateBeginString stack c).
Proof.
  intros Hin. unfold stateBeginString.
  destruct (isSpace c); [exact Hin|].
  destruct (Ascii.eqb c dquote); [exact Hin | exact I].
Qed.

Lemma stateBeginValue_Inv pre stack c :
  inObject pre stack -> Inv pre (stateBeginValue stack c).
Proof.
  intros Hin. unfold stateBeginValue.
  repeat match goal with
         | |- Inv _ (if ?b then _ else _) => destruct b
         end;
    try exact Hin; try exact I; apply pushParseState_Inv; auto; discriminate.
Qed.

Lemma stateNumber_Inv pre ns raw stack c :
  inObject pre stack -> Inv pre (stateNumber ns raw stack c).
Proof.
  intros Hin. unfold stateNumber.
  destruct ns;
    repeat match goal with
           | |- Inv _ (if ?b then _ else _) => destruct b
           end;
    try exact Hin; try exact I; now apply afterValue_Inv.
Qed.

(** One byte keeps the scanner inside the object. *)
Lemma step_Inv pre m stack c :
  Inv pre (Scanning m stack) -> Inv pre (step m stack c).
Proof.
  intros H. destruct m; cbn [Inv] in H; cbn [step].
  - now apply stateBeginValue_Inv.
  - destruct (isSpace c); [exact H|].
    destruct (Ascii.eqb c "]");
      [now apply stateEndValue_Inv | now apply stateBeginValue_Inv].
  - destruct (isSpace c); [exact H|].
    destruct (Ascii.eqb c "}"); [|now apply stateBeginString_Inv].
    destruct H as (upper & f & -> & Hf).
    destruct upper as [|u upper]; cbn [app].
    + destruct f as [d|d|d k|d k|d]; try exact I.
      apply stateEndValue_Inv. exists [], (FPair d). now split.
    + destruct u as [d|d|d k|d k|d]; try exact I.
      apply stateEndValue_Inv. now exists (FPair d :: upper), f.
  - now apply stateBeginString_Inv.
  - destruct (Ascii.eqb c dquote); [now apply complete_Inv|].
    destruct (Ascii.eqb c backslash); [exact H|].
    destruct (byte_of c <? 32); [exact I | exact H].
  - match goal with
    | |- Inv _ (if ?b then _ else _) => destruct b
    end; [exact H|].
    destruct (Ascii.eqb c "u"); [exact H | exact I].
  - destruct (isHex c); [|exact I].
    destruct (seen <? 3)%nat; exact H.
  - now apply stateNumber_Inv.
  - destruct rest as [|e rest']; [exact I|].
    destruct (Ascii.eqb c e); [|exact I].
    destruct rest'; [now apply complete_Inv | exact H].
  - now apply stateEndValue_Inv.
  - destruct H as [-> Hv]. unfold stateEndTop.
    destruct (isSpace c); [|exact I]. now split.
Qed.

Lemma scanBytes_Inv pre data : forall st,
  Inv pre st -> Inv pre (scanBytes data st).
Proof.
  induction data as [|c data IH]; intros st H.
  - destruct st; exact H.
  - destruct st as [m stack|e]; [|exact H].
    cbn [scanBytes]. apply IH. now apply step_Inv.
Qed.

(** The value the input ends up as is an object that starts with the
    members read so far. *)
Lemma eof_Inv pre st v :
  Inv pre st -> eof st = inr v -> exists more, v = JObj (pre ++ more)%list.
Proof.
  intros H He. destruct st as [m stack|e]; [|discriminate].
  unfold eof in He. pose proof (step_Inv pre m stack " " H) as Hs.
  destruct (step m stack " ") as [m' stack'|e]; [|discriminate].
  destruct m'; try discriminate. injection He as <-.
  now destruct Hs as [_ Hv].
Qed.

Lemma Inv_pair pre : Inv pre (Scanning EndValue [FPair pre]).
Proof.
  cbn [Inv]. exists [], (FPair pre). split; [reflexivity|].
  exists []. now rewrite app_nil_r.
Qed.

(** A body that reads as the credentials was built from plain
    credentials. *)
Lemma authRequestBody_reads_plain username password :
  readsAsCredentials (authRequestBody username password) username password ->
  (jsonSafe username /\ wellFormedUTF8 username = true)
  /\ (jsonSafe password /\ wellFormedUTF8 password = true).
Proof.
  unfold readsAsCredentials, parse, authRequestBody. intros H.
  set (rest1 := js ",'password':'" +:+ password +:+ String dquote "}").
  change (eof (scanBytes (js "{'username':'" +:+ username +:+ String dquote rest1)
                 (Scanning BeginValue []))
          = inr (credentialsValue username password)) in H.
  rewrite scanBytes_app in H.
  change (scanBytes (js "{'username':'") (Scanning BeginValue []))
    with (Scanning (InString "") [FVal [] "username"]) in H.
  destruct (string_run _ (username +:+ String dquote rest1) ""
              [FVal [] "username"] (le_n _))
    as [(raw & rest & HT & Hl & Hs)|Hst];
    [|now destruct (stuck_eof _ _ Hst H)].
  rewrite Hs in H. change ("" +:+ raw) with raw in H.
  change (complete (JStr (unquote raw)) [FVal [] "username"])
    with (Scanning EndValue [FPair [("username", JStr (unquote raw))]]) in H.
  assert (Hu : unquote raw = username).
  { destruct (eof_Inv [("username", JStr (unquote raw))] _ _
                (scanBytes_Inv _ rest _ (Inv_pair _)) H)
      as [more Hv].
    unfold credentialsValue in Hv. cbn [app] in Hv. now injection Hv. }
  destruct (literal_fixpoint raw rest username rest1 Hl (eq_sym HT) Hu)
    as (-> & -> & Hb).
  split; [split; [now apply isLiteral_safe
                 | apply unquote_fixed_wellFormed;
                   [now apply isLiteral_safe | exact Hu]]|].
  rewrite Hu in H. clear HT Hs Hl Hu Hb. subst rest1.
  rewrite scanBytes_app in H.
  change (scanBytes (js ",'password':'")
            (Scanning EndValue [FPair [("username", JStr username)]]))
    with (Scanning (InString "") [FVal [("username", JStr username)] "password"])
    in H.
  destruct (string_run _ (password +:+ String dquote "}") ""
              [FVal [("username", JStr username)] "password"] (le_n _))
    as [(raw & rest & HT & Hl & Hs)|Hst];
    [|now destruct (stuck_eof _ _ Hst H)].
  rewrite Hs in H. change ("" +:+ raw) with raw in H.
  change (complete (JStr (unquote raw))
            [FVal [("username", JStr username)] "password"])
    with (Scanning EndValue
            [FPair [("username", JStr username); ("password", JStr (unquote raw))]])
    in H.
  assert (Hu : unquote raw = password).
  { destruct (eof_Inv
                [("username", JStr username); ("password", JStr (unquote raw))] _ _
                (scanBytes_Inv _ rest _ (Inv_pair _)) H)
      as [more Hv].
    unfold credentialsValue in Hv. cbn [app] in Hv. now injection Hv. }
  destruct (literal_fixpoint raw rest password "}" Hl (eq_sym HT) Hu)
    as (-> & -> & Hb).
  split; [now apply isLiteral_safe
         | apply unquote_fixed_wellFormed; [now apply isLiteral_safe | exact Hu]].
Qed.

(** ** C10: the body and the credentials *)

(** The body equals the JSON text of the credentials exactly when the
    credentials hold no byte that JSON escapes. *)
Lemma authRequestBody_credentialsJSON username password :
  jsonSafe username /\ jsonSafe password
  <-> authRequestBody username password = credentialsJSON username password.
Proof.
  unfold authRequestBody, credentialsJSON. split.
  - intros [Hu Hp]. now rewrite (jsonString_safe _ Hu), (jsonString_safe _ Hp).
  - intros H. apply (f_equal String.length) in H.
    rewrite !length_append in H.
    destruct (jsonString_length username) as [Hu1 Hu2].
    destruct (jsonString_length password) as [Hp1 Hp2].
    split; [apply Hu2 | apply Hp2]; lia.
Qed.

(** A user name that is one byte FF: the body is valid JSON, and it reads
    as the replacement character, not as the user name. *)
Example authRequestBody_ill_formed_utf8 :
  jsonSafe (String (chr 255) "")
  /\ parse (authRequestBody (String (chr 255) "") "turing")
     = inr (credentialsValue runeError "turing")
  /\ ~ readsAsCredentials (authRequestBody (String (chr 255) "") "turing")
         (String (chr 255) "") "turing".
Proof.
  split; [reflexivity|]. split; [vm_compute; reflexivity|].
  intros H. apply authRequestBody_reads_plain in H as [[_ H] _].
  discriminate H.
Qed.

(** C10 (counterexample): a user name that is one tab character holds no
    double quote and no backslash, yet the body sent is not well-formed
    JSON (the scanner refuses a control character inside a string), so it
    does not read as the credentials and is not their JSON text. *)
Lemma authRequestBody_control_character :
  noQuoteBackslash tab /\ noQuoteBackslash "turing"
  /\ parse (authRequestBody tab "turing") = inl (SyntaxError "009" "in string literal")
  /\ ~ readsAsCredentials (authRequestBody tab "turing") tab "turing"
  /\ authRequestBody tab "turing" <> credentialsJSON tab "turing".
Proof.
  split; [reflexivity|]. split; [reflexivity|]. split; [vm_compute; reflexivity|].
  split; [|vm_compute; discriminate].
  unfold readsAsCredentials.
  replace (parse (authRequestBody tab "turing"))
    with (@inl json_error json (SyntaxError "009" "in string literal"))
    by (vm_compute; reflexivity).
  discriminate.
Qed.

(** C10 (amended): the body is the concatenation of the four fixed pieces
    with the user name and the password as they are; it is valid JSON
    that reads as exactly these credentials if and only if neither of
    them holds a double quote, a backslash, a control character or
    ill-formed UTF-8; and for a password with a double quote in it the
    body is not well-formed JSON. *)
Theorem authRequestBody_encoding (username password : string) :
  authRequestBody username password
    = js "{'username':'" +:+ username +:+ js "','password':'" +:+ password
        +:+ js "'}"
  /\ (readsAsCredentials (authRequestBody username password) username password
      <-> (jsonSafe username /\ wellFormedUTF8 username = true)
          /\ (jsonSafe password /\ wellFormedUTF8 password = true))
  /\ parse (authRequestBody "root" (js "pa'ss"))
     = inl (SyntaxError "s" "after object key:value pair").
Proof.
  split; [reflexivity|]. split; [|vm_compute; reflexivity].
  split.
  - apply authRequestBody_reads_plain.
  - intros [[Hu Wu] [Hp Wp]]. now apply authRequestBody_plain.
Qed.

Lemma authRequestBody_encoding_witness :
  readsAsCredentials (authRequestBody "root" "turing") "root" "turing".
Proof.
  destruct (authRequestBody_encoding "root" "turing") as (_ & H & _).
  apply H. repeat split.
Defined.

(** * Further properties of the package *)

(** ** Calls *)

Lemma app_one_ne {A} (l : list A) x : l <> (l ++ [x])%list.
Proof.
  intros H. apply (f_equal (@length A)) in H.
  rewrite length_app in H. cbn in H. lia.
Qed.

(** X1: a request that [bmcAPICall] hands to the transport is a GET of
    the base URL followed by the endpoint, without body, and its headers
    are those of the auth type: the Basic credentials of the client, or
    the JSON content type with the Bearer token, or none. *)
Theorem bmcAPICall_request_sent (parseURL : string -> bool) (b : BMCAPI)
    (a : bmcApiAuth) (endpoint : string) (w : World) (req : Request) :
  auth b = Some a ->
  snd (bmcAPICall parseURL b endpoint w) = (w ++ [req])%list ->
  req = callRequest b a endpoint.
Proof.
  intros Ha Hsent.
  destruct (parseURL (BaseURL b +:+ endpoint)) eqn:Hurl.
  - destruct (Client b) as [c|] eqn:Hc.
    + rewrite (bmcAPICall_run parseURL b a c endpoint w Hurl Ha Hc) in Hsent.
      cbn [snd] in Hsent. apply app_inj_tail in Hsent as [_ <-]. reflexivity.
    + exfalso. revert Hsent. unfold bmcAPICall, NewRequest, ClientDo.
      rewrite Hurl, Ha, Hc.
      destruct (String.eqb (AuthType b) "basic");
        [|destruct (String.eqb (AuthType b) "bearer")];
        cbn [snd]; apply app_one_ne.
  - exfalso. revert Hsent. unfold bmcAPICall, NewRequest. rewrite Hurl.
    cbn [snd]. apply app_one_ne.
Qed.

Lemma bmcAPICall_request_sent_witness :
  {| Method := "GET"; URL := "http://mock/x";
     Header := {[ "Authorization" := BasicAuth "user" "pass" ]}; Body := None |}
  = callRequest (mockClient (Some (respond 200 "200 OK" "")))
      {| AccessToken := ""; Name := ""; Description := "";
         Username := "user"; Password := "pass" |} "/x".
Proof.
  apply (bmcAPICall_request_sent anyURL
           (mockClient (Some (respond 200 "200 OK" ""))) _ "/x" []);
    reflexivity.
Defined.

Lemma node_check node :
  validNode node -> ((node <? 0)%Z || (node >? 3)%Z) = false.
Proof. unfold validNode. intros H. apply orb_false_iff. split; lia. Qed.

Lemma powerState_check s :
  validPowerState s -> ((s <? 0)%Z || (s >? 1)%Z) = false.
Proof. unfold validPowerState. intros H. apply orb_false_iff. split; lia. Qed.

(** The operations that return a string, for valid arguments, as their
    call followed by [resultAPIParse]. *)
Lemma USBBoot_call parseURL b node w :
  validNode node ->
  USBBoot parseURL b node w
  = scalarResult b "error during USB Boot API call: %w"
      (bmcAPICall parseURL b
         ("/api/bmc?opt=set&type=usb_boot&node=" +:+ Itoa node) w).
Proof.
  intros H. unfold USBBoot, scalarResult. rewrite (node_check _ H).
  destruct (bmcAPICall _ _ _ _) as [[?|?|?] ?]; reflexivity.
Qed.

Lemma ClearUSBBoot_call parseURL b node w :
  validNode node ->
  ClearUSBBoot parseURL b node w
  = scalarResult b "error during Clear USB Boot API call: %w"
      (bmcAPICall parseURL b
         ("/api/bmc?opt=set&type=clear_usb_boot&node=" +:+ Itoa node) w).
Proof.
  intros H. unfold ClearUSBBoot, scalarResult. rewrite (node_check _ H).
  destruct (bmcAPICall _ _ _ _) as [[?|?|?] ?]; reflexivity.
Qed.

Lemma NodetoMSD_call parseURL b node w :
  validNode node ->
  NodetoMSD parseURL b node w
  = scalarResult b "error during Node to MSD call: %w"
      (bmcAPICall parseURL b
         ("/api/bmc?opt=set&type=node_to_msd&node=" +:+ Itoa node) w).
Proof.
  intros H. unfold NodetoMSD, scalarResult. rewrite (node_check _ H).
  destruct (bmcAPICall _ _ _ _) as [[?|?|?] ?]; reflexivity.
Qed.

Lemma SetPower_call parseURL b node powerState w :
  validNode node -> validPowerState powerState ->
  SetPower parseURL b node powerState w
  = scalarResult b "error during Set Power call: %w"
      (bmcAPICall parseURL b (setPowerEndpoint node powerState) w).
Proof.
  intros H Hs. unfold SetPower, scalarResult, setPowerEndpoint.
  rewrite (node_check _ H), (powerState_check _ Hs).
  destruct (bmcAPICall _ _ _ _) as [[?|?|?] ?]; reflexivity.
Qed.

Lemma ResetNetwork_call parseURL b w :
  ResetNetwork parseURL b w
  = scalarResult b "error during Reset Network Switch call: %w"
      (bmcAPICall parseURL b "/api/bmc?opt=set&type=network" w).
Proof.
  unfold ResetNetwork, scalarResult.
  destruct (bmcAPICall _ _ _ _) as [[?|?|?] ?]; reflexivity.
Qed.

(** A call sends nothing or one GET without body under the base URL. *)
Lemma bmcAPICall_sendsAtMostOne parseURL b endpoint w :
  sendsAtMostOne b w (snd (bmcAPICall parseURL b endpoint w)).
Proof.
  unfold sendsAtMostOne, bmcAPICall, NewRequest, ClientDo.
  destruct (parseURL (BaseURL b +:+ endpoint)); [|now left].
  destruct (String.eqb (AuthType b) "basic");
    [|destruct (String.eqb (AuthType b) "bearer")];
    try (destruct (auth b) as [a|]; [|now left]);
    (destruct (Client b) as [c|]; [|now left]);
    match goal with
    | |- context [Do c w ?rq] =>
      right; exists rq, endpoint;
        destruct (Do c w rq) as [err|resp]; [now repeat split|];
        destruct (negb (StatusCode resp =? StatusOK)%Z); [now repeat split|];
        destruct (ReadAll resp); now repeat split
    end.
Qed.

Lemma scalarResult_world b context r : snd (scalarResult b context r) = snd r.
Proof. destruct r as [[?|?|?] ?]; reflexivity. Qed.

(** X2: no operation retries: each sends nothing or exactly one request,
    a GET without body to a URL that starts with the base URL of the
    client, for all arguments and whatever the transport answers. *)
Theorem operations_send_at_most_one (parseURL : string -> bool) (b : BMCAPI)
    (w : World) :
  sendsAtMostOne b w (snd (Other parseURL b w))
  /\ sendsAtMostOne b w (snd (Other_inline parseURL b w))
  /\ sendsAtMostOne b w (snd (GetPower parseURL b w))
  /\ sendsAtMostOne b w (snd (ResetNetwork parseURL b w))
  /\ (forall node,
        sendsAtMostOne b w (snd (USBBoot parseURL b node w))
        /\ sendsAtMostOne b w (snd (ClearUSBBoot parseURL b node w))
        /\ sendsAtMostOne b w (snd (NodetoMSD parseURL b node w))
        /\ forall powerState,
             sendsAtMostOne b w (snd (SetPower parseURL b node powerState w))).
Proof.
  assert (Hother : snd (Other parseURL b w)
                   = snd (bmcAPICall parseURL b otherEndpoint w)
                   /\ snd (Other_inline parseURL b w)
                      = snd (bmcAPICall parseURL b otherEndpoint w)).
  { pose proof (Other_call parseURL b w) as H.
    destruct (bmcAPICall parseURL b otherEndpoint w) as [[?|?|?] ?].
    - destruct H as [-> ->]. now split.
    - destruct H as (_ & -> & _ & ->). now split.
    - destruct H as [-> ->]. now split. }
  destruct Hother as [H1 H2].
  split; [rewrite H1; apply bmcAPICall_sendsAtMostOne|].
  split; [rewrite H2; apply bmcAPICall_sendsAtMostOne|].
  split.
  { clear H1 H2. unfold GetPower.
    pose proof (bmcAPICall_sendsAtMostOne parseURL b
                  "/api/bmc?opt=get&type=power" w) as H.
    destruct (bmcAPICall parseURL b "/api/bmc?opt=get&type=power" w)
      as [[?|?|?] ?]; exact H. }
  split; [rewrite ResetNetwork_call, scalarResult_world;
          apply bmcAPICall_sendsAtMostOne|].
  intros node.
  assert (Hnode : validNode node \/ ((node <? 0)%Z || (node >? 3)%Z) = true).
  { unfold validNode. destruct ((node <? 0)%Z || (node >? 3)%Z) eqn:E;
      [now right | left]. apply orb_false_iff in E. lia. }
  destruct Hnode as [Hn|Hn].
  - split; [rewrite (USBBoot_call _ _ _ _ Hn), scalarResult_world;
            apply bmcAPICall_sendsAtMostOne|].
    split; [rewrite (ClearUSBBoot_call _ _ _ _ Hn), scalarResult_world;
            apply bmcAPICall_sendsAtMostOne|].
    split; [rewrite (NodetoMSD_call _ _ _ _ Hn), scalarResult_world;
            apply bmcAPICall_sendsAtMostOne|].
    intros s.
    assert (Hstate : validPowerState s \/ ((s <? 0)%Z || (s >? 1)%Z) = true).
    { unfold validPowerState. destruct ((s <? 0)%Z || (s >? 1)%Z) eqn:E;
        [now right | left]. apply orb_false_iff in E. lia. }
    destruct Hstate as [Hs|Hs].
    + rewrite (SetPower_call _ _ _ _ _ Hn Hs), scalarResult_world.
      apply bmcAPICall_sendsAtMostOne.
    + unfold SetPower. rewrite (node_check _ Hn), Hs. now left.
  - unfold USBBoot, ClearUSBBoot, NodetoMSD, SetPower. rewrite Hn.
    repeat split; try (now left).
Qed.

(** ** Construction *)

Lemma handshakeRequest_bearer baseURL username password :
  handshakeRequest baseURL "bearer" username password
  = SetBody (authRequestBody username password)
      (HeaderSet "Content-Type" (Literal "application/json")
         {| Method := "GET";
            URL := effectiveBaseURL baseURL +:+ "/api/bmc/authenticate";
            Header := ∅; Body := None |}).
Proof.
  unfold handshakeRequest, SetBody, HeaderSet. cbn.
  now rewrite insert_empty.
Qed.

Lemma handshakeRequest_basic baseURL username password :
  handshakeRequest baseURL "basic" username password
  = SetBasicAuth username password
      {| Method := "GET";
         URL := effectiveBaseURL baseURL +:+ "/api/bmc?opt=get&type=info";
         Header := ∅; Body := None |}.
Proof.
  unfold handshakeRequest, SetBasicAuth, HeaderSet. cbn.
  now rewrite insert_empty.
Qed.

Lemma authType_cases authType :
  negb (String.eqb authType "basic") && negb (String.eqb authType "bearer") = false ->
  authType = "basic" \/ authType = "bearer".
Proof.
  destruct (String.eqb_spec authType "basic") as [->|_]; [now left|].
  destruct (String.eqb_spec authType "bearer") as [->|_]; [now right|].
  discriminate.
Qed.

Lemma NewBMCAPI_accepted parseURL baseURL authType username password client w b w' :
  NewBMCAPI parseURL baseURL authType username password client w = (Ok b, w')
  <-> handshakeAccepted parseURL baseURL authType username password client w b w'.
Proof.
  unfold handshakeAccepted, NewBMCAPI, NewRequest, ClientDo.
  fold (effectiveBaseURL baseURL).
  destruct (negb (String.eqb authType "basic") && negb (String.eqb authType "bearer"))
    eqn:Hty.
  { split; [discriminate|]. intros ([->| ->] & _); discriminate. }
  apply authType_cases in Hty. destruct Hty as [-> | ->].
  - (* basic *)
    rewrite handshakeRequest_basic.
    change (String.eqb "basic" "bearer") with false.
    change (String.eqb "basic" "basic") with true. cbv iota.
    cbn [URL SetBasicAuth HeaderSet].
    unfold storedCredentials. change (String.eqb "basic" "bearer") with false.
    cbv iota.
    destruct (parseURL (effectiveBaseURL baseURL +:+ "/api/bmc?opt=get&type=info")).
    2:{ split; [discriminate|]. intros (_ & H & _). discriminate. }
    destruct client as [c|].
    2:{ split; [discriminate|]. intros (_ & _ & c & resp & a & H & _).
        discriminate. }
    match goal with |- context [Do c w ?rq] => set (req := rq) end.
    destruct (Do c w req) as [err|resp] eqn:Hdo.
    { split; [discriminate|].
      intros (_ & _ & c' & resp & a & [= <-] & _ & H & _). congruence. }
    destruct (Z.eqb_spec (StatusCode resp) StatusOK) as [Hst|Hst]; cbn [negb].
    + split.
      * intros [= <- <-]. split; [now left|]. split; [reflexivity|].
        exists c, resp, (basicCredentials username password).
        repeat split; assumption.
      * intros (_ & _ & c' & resp' & a & [= <-] & -> & H & _ & -> & ->).
        reflexivity.
    + split; [discriminate|].
      intros (_ & _ & c' & resp' & a & [= <-] & _ & H & Hok & _). congruence.
  - (* bearer *)
    rewrite handshakeRequest_bearer.
    change (String.eqb "bearer" "bearer") with true. cbv iota.
    cbn [URL SetBody HeaderSet].
    unfold storedCredentials. change (String.eqb "bearer" "bearer") with true.
    cbv iota.
    destruct (parseURL (effectiveBaseURL baseURL +:+ "/api/bmc/authenticate")).
    2:{ split; [discriminate|]. intros (_ & H & _). discriminate. }
    destruct client as [c|].
    2:{ split; [discriminate|]. intros (_ & _ & c & resp & a & H & _).
        discriminate. }
    match goal with |- context [Do c w ?rq] => set (req := rq) end.
    destruct (Do c w req) as [err|resp] eqn:Hdo.
    { split; [discriminate|].
      intros (_ & _ & c' & resp & a & [= <-] & _ & H & _). congruence. }
    destruct (Z.eqb_spec (StatusCode resp) StatusOK) as [Hst|Hst]; cbn [negb].
    2:{ split; [discriminate|].
        intros (_ & _ & c' & resp' & a & [= <-] & _ & H & Hok & _). congruence. }
    destruct (ReadAll resp) as [err|bodyBytes] eqn:Hread.
    { split; [discriminate|].
      intros (_ & _ & c' & resp' & a & [= <-] & _ & H & _ & (body & Hb & _) & _).
      congruence. }
    destruct (Unmarshal "bmcapi.bmcApiAuth" authFields bodyBytes zeroAuth)
      as [a [e|]] eqn:Hun.
    { split; [discriminate|].
      intros (_ & _ & c' & resp' & a' & [= <-] & _ & H & _ & (body & Hb & Hu & _) & _).
      congruence. }
    destruct (String.eqb_spec (AccessToken a) "") as [Htok|Htok].
    { split; [discriminate|].
      intros (_ & _ & c' & resp' & a' & [= <-] & _ & H & _
              & (body & Hb & Hu & Hne) & _).
      assert (resp' = resp) by congruence. subst resp'.
      assert (body = bodyBytes) by congruence. subst body.
      assert (a' = a) by congruence. subst a'. contradiction. }
    split.
    + intros [= <- <-]. split; [now right|]. split; [reflexivity|].
      exists c, resp, a. repeat split; try assumption.
      exists bodyBytes. repeat split; assumption.
    + intros (_ & _ & c' & resp' & a' & [= <-] & -> & H & _
              & (body & Hb & Hu & Hne) & ->).
      assert (resp' = resp) by congruence. subst resp'.
      assert (body = bodyBytes) by congruence. subst body.
      assert (a' = a) by congruence. subst a'. reflexivity.
Qed.

(** X3: [NewBMCAPI] returns a client exactly when the authentication
    type is basic or bearer, the handshake URL parses, the given HTTP
    client is not nil and answers the one handshake request with status
    200, and, in bearer mode, the body is read and decodes without error
    to credentials with a token.  The client returned holds those
    credentials (in basic mode the caller's user name and password), the
    effective base URL, the given HTTP client and the type. *)
Theorem NewBMCAPI_returns_client_iff (parseURL : string -> bool)
    (baseURL authType username password : string)
    (client : option Http.Client) (w : World) (b : BMCAPI) (w' : World) :
  NewBMCAPI parseURL baseURL authType username password client w = (Ok b, w')
  <-> handshakeAccepted parseURL baseURL authType username password client w b w'.
Proof. apply NewBMCAPI_accepted. Qed.

Lemma NewBMCAPI_returns_client_iff_witness :
  handshakeAccepted anyURL "" "basic" "user" "pass"
    (Some (respond 200 "200 OK" "")) []
    {| auth := Some (basicCredentials "user" "pass");
       BaseURL := "https://turingpi.local";
       Client := Some (respond 200 "200 OK" ""); AuthType := "basic" |}
    [handshakeRequest "" "basic" "user" "pass"].
Proof.
  apply (NewBMCAPI_returns_client_iff anyURL "" "basic" "user" "pass"
           (Some (respond 200 "200 OK" "")) []).
  reflexivity.
Defined.

(** X4: a client that [NewBMCAPI] returned can make calls: when the URL
    of a call parses, [bmcAPICall] sends one GET to the effective base
    URL followed by the endpoint and neither panics nor fails before
    sending; in basic mode the request carries the user name and password
    given to [NewBMCAPI], in bearer mode the token of the handshake
    response, which is not empty, and the JSON content type. *)
Theorem NewBMCAPI_then_call (parseURL : string -> bool)
    (baseURL authType username password : string)
    (client : option Http.Client) (w w1 w2 : World) (b : BMCAPI)
    (endpoint : string) :
  NewBMCAPI parseURL baseURL authType username password client w = (Ok b, w1) ->
  parseURL (effectiveBaseURL baseURL +:+ endpoint) = true ->
  exists c a req,
    client = Some c /\ auth b = Some a
    /\ bmcAPICall parseURL b endpoint w2
       = (callOutcome (Do c w2 req), (w2 ++ [req])%list)
    /\ Method req = "GET"
    /\ URL req = effectiveBaseURL baseURL +:+ endpoint
    /\ Body req = None
    /\ (authType = "basic" ->
        Header req = {[ "Authorization" := BasicAuth username password ]})
    /\ (authType = "bearer" ->
        AccessToken a <> ""
        /\ Header req
           = {[ "Authorization" := Literal ("Bearer " +:+ AccessToken a);
                "Content-Type" := Literal "application/json" ]}).
Proof.
  intros Hnew Hurl. apply NewBMCAPI_accepted in Hnew.
  destruct Hnew as (Hty & _ & c & resp & a & -> & _ & _ & _ & Hcred & ->).
  exists c, a.
  eexists. split; [reflexivity|]. split; [reflexivity|].
  split; [apply bmcAPICall_run; [exact Hurl | reflexivity | reflexivity]|].
  split; [reflexivity|]. split; [reflexivity|]. split; [reflexivity|].
  unfold callRequest, callHeaders, storedCredentials in *.
  cbn [Header AuthType BaseURL].
  split.
  - intros ->. cbn in Hcred. subst a. reflexivity.
  - intros ->. cbn in Hcred. destruct Hcred as (body & _ & _ & Hne).
    split; [exact Hne | reflexivity].
Qed.

Lemma NewBMCAPI_then_call_witness :
  exists c a req,
    Some (respond 200 "200 OK" "") = Some c
    /\ auth {| auth := Some (basicCredentials "user" "pass");
               BaseURL := "https://turingpi.local";
               Client := Some (respond 200 "200 OK" "");
               AuthType := "basic" |} = Some a
    /\ bmcAPICall anyURL
         {| auth := Some (basicCredentials "user" "pass");
            BaseURL := "https://turingpi.local";
            Client := Some (respond 200 "200 OK" "");
            AuthType := "basic" |} "/x" []
       = (callOutcome (Do c [] req), ([] ++ [req])%list)
    /\ Method req = "GET"
    /\ URL req = effectiveBaseURL "" +:+ "/x"
    /\ Body req = None
    /\ ("basic" = "basic" ->
        Header req = {[ "Authorization" := BasicAuth "user" "pass" ]})
    /\ ("basic" = "bearer" ->
        AccessToken a <> ""
        /\ Header req
           = {[ "Authorization" := Literal ("Bearer " +:+ AccessToken a);
                "Content-Type" := Literal "application/json" ]}).
Proof.
  apply (NewBMCAPI_then_call anyURL "" "basic" "user" "pass"
           (Some (respond 200 "200 OK" "")) []
           [handshakeRequest "" "basic" "user" "pass"] []); reflexivity.
Defined.

(** *** The token of the handshake response *)

Lemma findField_authKeys k : In k authKeys -> findField authFields k <> None.
Proof.
  intros Hin. repeat (destruct Hin as [<-|Hin]; [discriminate|]). destruct Hin.
Qed.

Lemma credentialsOfMap_insert_other k v m :
  ~ In k authKeys -> credentialsOfMap (<[k := v]> m) = credentialsOfMap m.
Proof.
  intros Hk. unfold credentialsOfMap.
  rewrite !index_insert_ne; [reflexivity|..];
    intros ->; apply Hk; unfold authKeys; cbn; tauto.
Qed.

Lemma decFields_auth_member k v r s :
  In k authKeys ->
  exists r',
    (forall rest, decFields authFields ((k, JStr v) :: rest) r s
                  = decFields authFields rest r' s)
    /\ forall m, credentialsOfMap m = r -> credentialsOfMap (<[k := v]> m) = r'.
Proof.
  intros Hin.
  repeat (destruct Hin as [<-|Hin];
          [eexists; split; [intros rest; reflexivity|];
           intros m <-; unfold credentialsOfMap;
           cbn [AccessToken Name Description Username Password];
           rewrite index_insert_eq, !index_insert_ne by discriminate;
           reflexivity|]).
  destruct Hin.
Qed.

Lemma decFields_auth members : forall m r s,
  Forall exactAuthKey (List.map fst members) ->
  credentialsOfMap m = r ->
  decFields authFields (stringMembers members) r s
  = (credentialsOfMap (insertAll members m), s).
Proof.
  induction members as [|[k v] members IH]; intros m r s Hk Hr.
  - cbn. now rewrite Hr.
  - cbn [List.map fst] in Hk. inversion Hk as [|? ? Hk1 Hk2]; subst.
    cbn [stringMembers List.map fst snd insertAll fold_left].
    destruct (findField authFields k) as [dec|] eqn:Hf.
    + destruct Hk1 as [Hin|Hnone]; [|congruence].
      destruct (decFields_auth_member k v (credentialsOfMap m) s Hin)
        as (r' & Hstep & Hr').
      rewrite Hstep. apply IH; [assumption | now apply Hr'].
    + cbn [decFields]. rewrite Hf. apply IH; [assumption|].
      apply credentialsOfMap_insert_other. intros Hin.
      now apply (findField_authKeys k Hin).
Qed.

(** Looking a key up after storing the members one by one gives the
    value of its last member. *)
Lemma insertAll_lookup members : forall (m : gmap string string) k,
  insertAll members m !! k
  = match lastValue k members with Some v => Some v | None => m !! k end.
Proof.
  induction members as [|[k' v] members IH]; intros m k; [reflexivity|].
  cbn [insertAll fold_left fst snd lastValue].
  change (fold_left _ members ?m0) with (insertAll members m0).
  rewrite IH. destruct (lastValue k members); [reflexivity|].
  destruct (String.eqb_spec k' k) as [->|Hne].
  - apply lookup_insert_eq.
  - now apply lookup_insert_ne.
Qed.

Lemma index_insertAll members k :
  index (insertAll members ∅) k = default "" (lastValue k members).
Proof.
  unfold index. rewrite insertAll_lookup, lookup_empty.
  now destruct (lastValue k members).
Qed.

Lemma credentialsOfMap_members members :
  credentialsOfMap (insertAll members ∅) = credentialsOfMembers members.
Proof.
  unfold credentialsOfMap, credentialsOfMembers.
  now rewrite !index_insertAll.
Qed.

(** X5: in bearer mode, when the handshake is answered with status 200
    and an object of string members whose keys are field names as written
    or match no field, the client stores the value of the last member
    named id as its token, and the values of the members name,
    description, username and password of the response, not the user
    name and password of the caller; when there is no member id, or the
    last one is empty, [NewBMCAPI] returns the missing-token error. *)
Theorem NewBMCAPI_bearer_token (parseURL : string -> bool)
    (baseURL username password : string) (c : Http.Client) (w : World)
    (resp : Http.Response) (body : string)
    (members : list (string * string)) :
  parseURL (effectiveBaseURL baseURL +:+ "/api/bmc/authenticate") = true ->
  Do c w (handshakeRequest baseURL "bearer" username password) = inr resp ->
  StatusCode resp = StatusOK ->
  ReadAll resp = inr body ->
  parse body = inr (JObj (stringMembers members)) ->
  Forall exactAuthKey (List.map fst members) ->
  NewBMCAPI parseURL baseURL "bearer" username password (Some c) w
  = (if String.eqb (default "" (lastValue "id" members)) ""
     then Err missingToken
     else Ok {| auth := Some (credentialsOfMembers members);
                BaseURL := effectiveBaseURL baseURL;
                Client := Some c; AuthType := "bearer" |},
     (w ++ [handshakeRequest baseURL "bearer" username password])%list).
Proof.
  intros Hurl Hdo Hst Hrd Hp Hk. rewrite handshakeRequest_bearer in *.
  unfold NewBMCAPI, NewRequest.
  fold (effectiveBaseURL baseURL). cbn [String.eqb Ascii.eqb Bool.eqb negb andb].
  rewrite Hurl. unfold ClientDo. rewrite Hdo, Hst, Z.eqb_refl. cbn [negb].
  rewrite Hrd, (Unmarshal_parse _ _ _ _ _ Hp). cbn [decStruct].
  rewrite (decFields_auth members ∅ zeroAuth None Hk) by reflexivity.
  rewrite credentialsOfMap_members.
  change (AccessToken (credentialsOfMembers members))
    with (default "" (lastValue "id" members)).
  destruct (String.eqb (default "" (lastValue "id" members)) ""); reflexivity.
Qed.

Lemma NewBMCAPI_bearer_token_witness :
  NewBMCAPI anyURL "" "bearer" "root" "turing"
    (Some (respond 200 "200 OK" (js "{'id':'old','Extra':'x','id':'tok'}"))) []
  = (Ok {| auth := Some {| AccessToken := "tok"; Name := ""; Description := "";
                           Username := ""; Password := "" |};
           BaseURL := "https://turingpi.local";
           Client := Some (respond 200 "200 OK"
                             (js "{'id':'old','Extra':'x','id':'tok'}"));
           AuthType := "bearer" |},
     [handshakeRequest "" "bearer" "root" "turing"]).
Proof.
  apply (NewBMCAPI_bearer_token anyURL "" "root" "turing"
           (respond 200 "200 OK" (js "{'id':'old','Extra':'x','id':'tok'}")) []
           {| StatusCode := 200; Status := "200 OK";
              ReadAll := inr (js "{'id':'old','Extra':'x','id':'tok'}") |}
           (js "{'id':'old','Extra':'x','id':'tok'}")
           [("id", "old"); ("Extra", "x"); ("id", "tok")]);
    try reflexivity.
  repeat constructor; try (right; reflexivity); left; cbn; tauto.
Defined.

(** ** The operations that return a string *)

Lemma Itoa_digit n : (0 <= n <= 3)%Z -> Itoa n = String (digit n) "".
Proof.
  intros H. assert (Hn : (n = 0 \/ n = 1 \/ n = 2 \/ n = 3)%Z) by lia.
  destruct Hn as [-> | [-> | [-> | ->] ] ]; reflexivity.
Qed.

Lemma run_call parseURL b op w :
  validArguments op ->
  run parseURL b op w
  = scalarResult b (operationContext op)
      (bmcAPICall parseURL b (operationEndpoint op) w).
Proof.
  destruct op as [node|node|node|node powerState|]; cbn [validArguments run
    operationContext operationEndpoint].
  - intros Hn. rewrite (USBBoot_call _ _ _ _ Hn), (Itoa_digit node Hn).
    reflexivity.
  - intros Hn. rewrite (ClearUSBBoot_call _ _ _ _ Hn), (Itoa_digit node Hn).
    reflexivity.
  - intros Hn. rewrite (NodetoMSD_call _ _ _ _ Hn), (Itoa_digit node Hn).
    reflexivity.
  - intros [Hn Hs]. rewrite (SetPower_call _ _ _ _ _ Hn Hs).
    unfold setPowerEndpoint. rewrite (Itoa_digit node Hn).
    assert (Hs' : (0 <= powerState <= 3)%Z) by (unfold validPowerState in Hs; lia).
    rewrite (Itoa_digit powerState Hs'). reflexivity.
  - intros _. apply ResetNetwork_call.
Qed.

Lemma run_answered parseURL b a c op w body :
  validArguments op ->
  auth b = Some a -> Client b = Some c ->
  parseURL (BaseURL b +:+ operationEndpoint op) = true ->
  answers c w (callRequest b a (operationEndpoint op)) body ->
  run parseURL b op w
  = (resultAPIParse b body, (w ++ [callRequest b a (operationEndpoint op)])%list).
Proof.
  intros Hv Ha Hc Hurl (resp & Hdo & Hst & Hrd).
  rewrite (run_call _ _ _ _ Hv), (bmcAPICall_run _ _ _ _ _ _ Hurl Ha Hc).
  unfold callOutcome. rewrite Hdo, Hst, Z.eqb_refl, Hrd. reflexivity.
Qed.

Lemma resultAPIParse_scalar b body s :
  parse body = inr (scalarEnvelope s) ->
  resultAPIParse b body = if String.eqb s "" then Err emptyResult else Ok s.
Proof.
  intros Hp. unfold resultAPIParse.
  rewrite (Unmarshal_parse _ _ _ _ _ Hp). reflexivity.
Qed.

(** X6: for valid arguments and a client with its credentials, when the
    URL parses and the transport answers with status 200 and a body that
    reads as the scalar envelope of [s], each of USBBoot, ClearUSBBoot,
    NodetoMSD, SetPower and ResetNetwork returns [s], or the empty-result
    error (not wrapped in the context of the operation) when [s] is
    empty, after one request to its endpoint: the node number follows
    node= directly for the first three, and for SetPower the word node
    itself, followed by = and the state. *)
Theorem scalar_operation_result (parseURL : string -> bool) (b : BMCAPI)
    (a : bmcApiAuth) (c : Http.Client) (op : operation) (w : World)
    (body s : string) :
  validArguments op ->
  auth b = Some a -> Client b = Some c ->
  parseURL (BaseURL b +:+ operationEndpoint op) = true ->
  answers c w (callRequest b a (operationEndpoint op)) body ->
  parse body = inr (scalarEnvelope s) ->
  run parseURL b op w
  = (if String.eqb s "" then Err emptyResult else Ok s,
     (w ++ [callRequest b a (operationEndpoint op)])%list).
Proof.
  intros Hv Ha Hc Hurl Hans Hp.
  rewrite (run_answered _ _ _ _ _ _ _ Hv Ha Hc Hurl Hans).
  now rewrite (resultAPIParse_scalar _ _ _ Hp).
Qed.

Lemma scalar_operation_result_witness :
  run anyURL (mockClient (Some (respond 200 "200 OK"
                                  (js "{'response':[{'result':'ok'}]}"))))
    (OpNodetoMSD 2) []
  = (Ok "ok",
     [ {| Method := "GET";
          URL := "http://mock/api/bmc?opt=set&type=node_to_msd&node=2";
          Header := {[ "Authorization" := BasicAuth "user" "pass" ]};
          Body := None |} ]).
Proof.
  apply (scalar_operation_result anyURL
           (mockClient (Some (respond 200 "200 OK"
                                (js "{'response':[{'result':'ok'}]}"))))
           {| AccessToken := ""; Name := ""; Description := "";
              Username := "user"; Password := "pass" |}
           (respond 200 "200 OK" (js "{'response':[{'result':'ok'}]}"))
           (OpNodetoMSD 2) [] (js "{'response':[{'result':'ok'}]}") "ok");
    try reflexivity.
  - unfold validArguments, validNode. lia.
  - eexists. repeat split; reflexivity.
Defined.

Lemma decFields_unread {T} (fields : fieldsOf T) members (v : T) s :
  Forall (fun k => findField fields k = None) (List.map fst members) ->
  decFields fields members v s = (v, s).
Proof.
  induction members as [|[k j] members IH]; intros H; [reflexivity|].
  cbn [List.map fst] in H. inversion H as [|? ? H1 H2]; subst.
  cbn [decFields]. rewrite H1. now apply IH.
Qed.

Lemma noResponseMember_empty body members :
  parse body = inr (JObj members) -> noResponseMember members ->
  emptyResponse body.
Proof.
  intros Hp Hk. exists {| Response := [] |}. split; [|reflexivity].
  rewrite (Unmarshal_parse _ _ _ _ _ Hp). cbn [decStruct].
  now apply decFields_unread.
Qed.

Lemma resultAPIParse_panics b body t :
  resultAPIParse b body = Panic t <-> t = indexOutOfRange /\ emptyResponse body.
Proof.
  unfold resultAPIParse, emptyResponse.
  destruct (Unmarshal _ _ body _) as [parsed [e|]] eqn:Hun.
  - split; [discriminate|]. intros (_ & parsed' & [= _ ?] & _).
  - destruct (Response parsed) as [|entry rest] eqn:Hr; cbn [lookup list_lookup].
    + split.
      * intros [= <-]. split; [reflexivity|]. now exists parsed.
      * intros [-> _]. reflexivity.
    + split.
      * destruct (String.eqb (Result entry) ""); discriminate.
      * intros (_ & parsed' & [= <-] & H). congruence.
Qed.

(** X7: for valid arguments and a client with its credentials whose URL
    parses, an operation that returns a string panics exactly when the
    transport answers its request with status 200 and a body that decodes
    without error to an empty response list; the panic is that of an
    index out of range, and it comes after the request was sent.  Every
    JSON object without a member that is read as response is such a
    body. *)
Theorem scalar_operation_panics (parseURL : string -> bool) (b : BMCAPI)
    (a : bmcApiAuth) (c : Http.Client) (op : operation) (w : World) :
  validArguments op ->
  auth b = Some a -> Client b = Some c ->
  parseURL (BaseURL b +:+ operationEndpoint op) = true ->
  (forall t,
     fst (run parseURL b op w) = Panic t
     <-> t = indexOutOfRange
         /\ exists body,
              answers c w (callRequest b a (operationEndpoint op)) body
              /\ emptyResponse body)
  /\ (forall body members,
        answers c w (callRequest b a (operationEndpoint op)) body ->
        parse body = inr (JObj members) -> noResponseMember members ->
        run parseURL b op w
        = (Panic indexOutOfRange,
           (w ++ [callRequest b a (operationEndpoint op)])%list)).
Proof.
  intros Hv Ha Hc Hurl. split.
  - intros t.
    rewrite (run_call _ _ _ _ Hv), (bmcAPICall_run _ _ _ _ _ _ Hurl Ha Hc).
    unfold callOutcome, answers.
    destruct (Do c w (callRequest b a (operationEndpoint op))) as [err|resp].
    { split; [discriminate|]. intros (_ & body & (resp & [=] & _) & _). }
    destruct (Z.eqb_spec (StatusCode resp) StatusOK) as [Hst|Hst].
    2:{ split; [discriminate|].
        intros (_ & body & (resp' & [= <-] & Hok & _) & _). contradiction. }
    destruct (ReadAll resp) as [err|body] eqn:Hrd.
    { split; [discriminate|].
      intros (_ & body & (resp' & [= <-] & _ & Hb) & _). congruence. }
    cbn [scalarResult fst]. rewrite resultAPIParse_panics. split.
    + intros [-> He]. split; [reflexivity|]. exists body. split; [|exact He].
      exists resp. repeat split; assumption.
    + intros (-> & body' & (resp' & [= <-] & _ & Hb) & He).
      split; [reflexivity|]. congruence.
  - intros body members Hans Hp Hk.
    rewrite (run_answered _ _ _ _ _ _ _ Hv Ha Hc Hurl Hans). f_equal.
    apply resultAPIParse_panics. split; [reflexivity|].
    now apply (noResponseMember_empty body members).
Qed.

Lemma scalar_operation_panics_witness :
  run anyURL (mockClient (Some (respond 200 "200 OK"
                                  (js "{'error':'not authorized'}"))))
    (OpSetPower 1 0) []
  = (Panic indexOutOfRange,
     [ {| Method := "GET";
          URL := "http://mock/api/bmc?opt=power&type=set&node1=0";
          Header := {[ "Authorization" := BasicAuth "user" "pass" ]};
          Body := None |} ]).
Proof.
  apply (proj2 (scalar_operation_panics anyURL
           (mockClient (Some (respond 200 "200 OK"
                                (js "{'error':'not authorized'}"))))
           {| AccessToken := ""; Name := ""; Description := "";
              Username := "user"; Password := "pass" |}
           (respond 200 "200 OK" (js "{'error':'not authorized'}"))
           (OpSetPower 1 0) []
           ltac:(unfold validArguments, validNode, validPowerState; lia)
           eq_refl eq_refl eq_refl)
         (js "{'error':'not authorized'}") [("error", JStr "not authorized")]).
  - eexists. repeat split; reflexivity.
  - reflexivity.
  - repeat constructor.
Defined.

(** ** Nil pointers *)

Lemma bmcAPICall_panics parseURL b endpoint w t :
  fst (bmcAPICall parseURL b endpoint w) = Panic t
  <-> t = nilDereference
      /\ parseURL (BaseURL b +:+ endpoint) = true /\ nilPointer b.
Proof.
  unfold bmcAPICall, NewRequest, ClientDo, nilPointer, usesCredentials.
  destruct (parseURL (BaseURL b +:+ endpoint)).
  2:{ split; [discriminate|]. intros (_ & H & _). discriminate. }
  destruct (String.eqb (AuthType b) "basic");
    [|destruct (String.eqb (AuthType b) "bearer")]; cbn [orb];
    try (destruct (auth b) as [a|];
         [|cbn [fst]; split; [intros [= <-]; auto | now intros [-> _] ] ]);
    (destruct (Client b) as [c|];
     [|cbn [fst]; split; [intros [= <-]; auto | now intros [-> _] ] ]);
    match goal with
    | |- context [Do c w ?rq] =>
      (split; [|intros (_ & _ & [[H1 H2]|H]); discriminate]);
        destruct (Do c w rq) as [err|resp]; [discriminate|];
        destruct (negb (StatusCode resp =? StatusOK)%Z); [discriminate|];
        destruct (ReadAll resp); discriminate
    end.
Qed.

Lemma bmcAPICall_panic_world parseURL b endpoint w t :
  fst (bmcAPICall parseURL b endpoint w) = Panic t ->
  snd (bmcAPICall parseURL b endpoint w) = w.
Proof.
  unfold bmcAPICall, NewRequest, ClientDo.
  destruct (parseURL (BaseURL b +:+ endpoint)); [|reflexivity].
  destruct (String.eqb (AuthType b) "basic");
    [|destruct (String.eqb (AuthType b) "bearer")];
    try (destruct (auth b) as [a|]; [|reflexivity]);
    (destruct (Client b) as [c|]; [|reflexivity]);
    match goal with
    | |- context [Do c w ?rq] =>
        destruct (Do c w rq) as [err|resp]; [discriminate|];
        destruct (negb (StatusCode resp =? StatusOK)%Z); [discriminate|];
        destruct (ReadAll resp); discriminate
    end.
Qed.

Lemma objectAPIParse_no_panic b body t : objectAPIParse b body <> Panic t.
Proof.
  unfold objectAPIParse.
  destruct (Unmarshal _ _ _ _) as [parsed [e|]]; [discriminate|].
  destruct (ObjResponse parsed) as [|entry ?]; [discriminate|].
  destruct (ObjResult entry); discriminate.
Qed.

Lemma otherOfBody_no_panic b body t : otherOfBody b body <> Panic t.
Proof.
  unfold otherOfBody.
  pose proof (objectAPIParse_no_panic b body) as H.
  destruct (objectAPIParse b body) as [m|e|t']; [discriminate | discriminate |].
  now destruct (H t').
Qed.

Lemma otherInlineOfBody_no_panic body t : otherInlineOfBody body <> Panic t.
Proof.
  unfold otherInlineOfBody.
  destruct (Unmarshal _ _ _ _) as [parsed [e|]]; [discriminate|].
  destruct (OtherResponse parsed) as [|entry ?]; [discriminate|].
  destruct (OtherResult entry); discriminate.
Qed.

Lemma GetPower_panics parseURL b w t :
  fst (GetPower parseURL b w) = Panic t
  <-> fst (bmcAPICall parseURL b powerEndpoint w) = Panic t.
Proof.
  unfold GetPower, powerEndpoint.
  destruct (bmcAPICall parseURL b "/api/bmc?opt=get&type=power" w)
    as [[body|err|t'] w']; cbn [fst].
  - split; [|discriminate]. intros H. now apply objectAPIParse_no_panic in H.
  - split; discriminate.
  - split; intros [= ->]; reflexivity.
Qed.

Lemma Other_panics parseURL b w t :
  (fst (Other parseURL b w) = Panic t
   <-> fst (bmcAPICall parseURL b otherEndpoint w) = Panic t)
  /\ (fst (Other_inline parseURL b w) = Panic t
      <-> fst (bmcAPICall parseURL b otherEndpoint w) = Panic t).
Proof.
  pose proof (Other_call parseURL b w) as H.
  destruct (bmcAPICall parseURL b otherEndpoint w) as [[body|err|t'] w'];
    cbn [fst].
  - destruct H as [-> ->]. cbn [fst]. split; (split; [|discriminate]); intros H.
    + now apply otherOfBody_no_panic in H.
    + now apply otherInlineOfBody_no_panic in H.
  - destruct H as ([e1 ->] & _ & [e2 ->] & _). split; split; discriminate.
  - destruct H as [-> ->]. cbn [fst]. split; split; intros [= ->]; reflexivity.
Qed.

(** X8: on a client record that exists (the receiver of the call is not
    nil), GetPower and both implementations of Other panic exactly when
    the URL of their request parses and the record lacks a pointer the
    call uses: the credentials in the modes basic and bearer, or the HTTP
    client.  The panic is that of a nil pointer, and nothing has been
    sent when it comes, for each of the three; every other operation with
    valid arguments panics the same way on such a record, having sent
    nothing. *)
Theorem operations_nil_pointer (parseURL : string -> bool) (b : BMCAPI)
    (w : World) :
  (forall t,
     fst (GetPower parseURL b w) = Panic t
     <-> t = nilDereference
         /\ parseURL (BaseURL b +:+ powerEndpoint) = true /\ nilPointer b)
  /\ (forall t,
        fst (Other parseURL b w) = Panic t
        <-> t = nilDereference
            /\ parseURL (BaseURL b +:+ otherEndpoint) = true /\ nilPointer b)
  /\ (forall t,
        fst (Other_inline parseURL b w) = Panic t
        <-> t = nilDereference
            /\ parseURL (BaseURL b +:+ otherEndpoint) = true /\ nilPointer b)
  /\ (forall t, fst (GetPower parseURL b w) = Panic t ->
                snd (GetPower parseURL b w) = w)
  /\ (forall t, fst (Other parseURL b w) = Panic t ->
                snd (Other parseURL b w) = w)
  /\ (forall t, fst (Other_inline parseURL b w) = Panic t ->
                snd (Other_inline parseURL b w) = w)
  /\ (forall op, validArguments op ->
                 parseURL (BaseURL b +:+ operationEndpoint op) = true ->
                 nilPointer b ->
                 run parseURL b op w = (Panic nilDereference, w)).
Proof.
  split; [intros t; rewrite GetPower_panics; apply bmcAPICall_panics|].
  split; [intros t; rewrite (proj1 (Other_panics parseURL b w t));
          apply bmcAPICall_panics|].
  split; [intros t; rewrite (proj2 (Other_panics parseURL b w t));
          apply bmcAPICall_panics|].
  split.
  { intros t H. pose proof H as H'. apply GetPower_panics in H'.
    apply bmcAPICall_panic_world in H'. revert H'.
    unfold GetPower, powerEndpoint.
    destruct (bmcAPICall parseURL b "/api/bmc?opt=get&type=power" w)
      as [[body|err|t'] w']; trivial. }
  split.
  { intros t H. pose proof H as H'. apply Other_panics in H'.
    apply bmcAPICall_panic_world in H'. revert H'.
    pose proof (Other_call parseURL b w) as Hc.
    destruct (bmcAPICall parseURL b otherEndpoint w) as [[body|err|t'] w'].
    - destruct Hc as [-> _]. trivial.
    - destruct Hc as (_ & -> & _). trivial.
    - destruct Hc as [-> _]. trivial. }
  split.
  { intros t H. pose proof H as H'. apply Other_panics in H'.
    apply bmcAPICall_panic_world in H'. revert H'.
    pose proof (Other_call parseURL b w) as Hc.
    destruct (bmcAPICall parseURL b otherEndpoint w) as [[body|err|t'] w'].
    - destruct Hc as [_ ->]. trivial.
    - destruct Hc as (_ & _ & _ & ->). trivial.
    - destruct Hc as [_ ->]. trivial. }
  intros op Hv Hurl Hnil. rewrite (run_call _ _ _ _ Hv).
  assert (Hp : fst (bmcAPICall parseURL b (operationEndpoint op) w)
               = Panic nilDereference)
    by (apply bmcAPICall_panics; auto).
  pose proof (bmcAPICall_panic_world _ _ _ _ _ Hp) as Hw.
  destruct (bmcAPICall parseURL b (operationEndpoint op) w) as [r w'].
  cbn [fst snd] in Hp, Hw. subst r w'. reflexivity.
Qed.

Lemma operations_nil_pointer_witness :
  run anyURL {| auth := None; BaseURL := "http://mock";
                Client := Some (respond 200 "200 OK" ""); AuthType := "basic" |}
    (OpUSBBoot 0) []
  = (Panic nilDereference, []).
Proof.
  apply (proj2 (proj2 (proj2 (proj2 (proj2 (proj2
           (operations_nil_pointer anyURL
              {| auth := None; BaseURL := "http://mock";
                 Client := Some (respond 200 "200 OK" "");
                 AuthType := "basic" |} []))))))).
  - unfold validArguments, validNode. lia.
  - reflexivity.
  - left. split; reflexivity.
Defined.

(** ** Answers of the transport *)

Lemma Other_inline_run parseURL b a c w :
  parseURL (BaseURL b +:+ otherEndpoint) = true ->
  auth b = Some a -> Client b = Some c ->
  Other_inline parseURL b w
  = (inlineOutcome (Do c w (callRequest b a otherEndpoint)),
     (w ++ [callRequest b a otherEndpoint])%list).
Proof.
  intros Hurl Ha Hc. unfold otherEndpoint in *.
  unfold Other_inline, NewRequest, ClientDo, inlineOutcome, otherInlineOfBody.
  rewrite Hurl, Ha, Hc.
  assert (Hreq : callRequest b a "/api/bmc?opt=get&type=other"
    = if String.eqb (AuthType b) "basic" then
        SetBasicAuth (Username a) (Password a)
          {| Method := "GET"; URL := BaseURL b +:+ "/api/bmc?opt=get&type=other";
             Header := ∅; Body := None |}
      else if String.eqb (AuthType b) "bearer" then
        HeaderSet "Authorization" (Literal ("Bearer " +:+ AccessToken a))
          (HeaderSet "Content-Type" (Literal "application/json")
             {| Method := "GET";
                URL := BaseURL b +:+ "/api/bmc?opt=get&type=other";
                Header := ∅; Body := None |})
      else {| Method := "GET"; URL := BaseURL b +:+ "/api/bmc?opt=get&type=other";
              Header := ∅; Body := None |}).
  { unfold callRequest, callHeaders.
    destruct (String.eqb (AuthType b) "basic");
      [|destruct (String.eqb (AuthType b) "bearer")]; reflexivity. }
  rewrite Hreq. clear Hreq.
  destruct (String.eqb (AuthType b) "basic");
    [|destruct (String.eqb (AuthType b) "bearer")];
    match goal with
    | |- context [Do c w ?rq] => destruct (Do c w rq) as [err|resp]
    end; try reflexivity;
    destruct (StatusCode resp =? StatusOK)%Z; cbn [negb]; try reflexivity;
    destruct (ReadAll resp) as [err|bodyBytes]; try reflexivity;
    destruct (Unmarshal _ _ _ _) as [parsed [e|]]; try reflexivity;
    destruct (OtherResponse parsed) as [|entry ?]; try reflexivity;
    destruct (OtherResult entry); reflexivity.
Qed.

Lemma Other_run parseURL b w :
  Other parseURL b w
  = match bmcAPICall parseURL b otherEndpoint w with
    | (Panic t, w') => (Panic t, w')
    | (Err err, w') =>
      (Err (wrapped "error during USB Boot API call: %w" err), w')
    | (Ok bodyBytes, w') => (otherOfBody b bodyBytes, w')
    end.
Proof.
  unfold Other, otherEndpoint, otherOfBody, recordOfMap, wrapped.
  destruct (bmcAPICall parseURL b "/api/bmc?opt=get&type=other" w)
    as [[body|err|t] w']; try reflexivity.
  destruct (objectAPIParse b body); reflexivity.
Qed.

Lemma GetPower_run parseURL b w :
  GetPower parseURL b w
  = match bmcAPICall parseURL b powerEndpoint w with
    | (Panic t, w') => (Panic t, w')
    | (Err err, w') => (Err (wrapped "error during Get Power call: %w" err), w')
    | (Ok bodyBytes, w') => (objectAPIParse b bodyBytes, w')
    end.
Proof. reflexivity. Qed.

Lemma bmcAPICall_answered parseURL b a c endpoint w body :
  auth b = Some a -> Client b = Some c ->
  parseURL (BaseURL b +:+ endpoint) = true ->
  answers c w (callRequest b a endpoint) body ->
  bmcAPICall parseURL b endpoint w
  = (Ok body, (w ++ [callRequest b a endpoint])%list).
Proof.
  intros Ha Hc Hurl (resp & Hdo & Hst & Hrd).
  rewrite (bmcAPICall_run _ _ _ _ _ _ Hurl Ha Hc).
  unfold callOutcome. now rewrite Hdo, Hst, Z.eqb_refl, Hrd.
Qed.

Lemma objectAPIParse_members b body members :
  parse body = inr (objectEnvelope (stringMembers members)) ->
  objectAPIParse b body = Ok (insertAll members ∅).
Proof.
  intros Hp. unfold objectAPIParse.
  rewrite (Unmarshal_parse _ _ _ _ _ Hp), objectEnvelope_decode,
    decMembers_strings. reflexivity.
Qed.

Lemma recordOfMap_members members :
  recordOfMap (insertAll members ∅) = otherOfMembers members.
Proof.
  unfold recordOfMap, otherOfMembers. now rewrite !index_insertAll.
Qed.

(** X9: when the transport answers the request of GetPower with status
    200 and an envelope with one result object whose values are strings,
    GetPower returns a map in which every key leads to the value of the
    last member with that key, and no other key is present. *)
Theorem GetPower_result (parseURL : string -> bool) (b : BMCAPI)
    (a : bmcApiAuth) (c : Http.Client) (w : World) (body : string)
    (members : list (string * string)) :
  auth b = Some a -> Client b = Some c ->
  parseURL (BaseURL b +:+ powerEndpoint) = true ->
  answers c w (callRequest b a powerEndpoint) body ->
  parse body = inr (objectEnvelope (stringMembers members)) ->
  exists m,
    GetPower parseURL b w = (Ok m, (w ++ [callRequest b a powerEndpoint])%list)
    /\ forall k, m !! k = lastValue k members.
Proof.
  intros Ha Hc Hurl Hans Hp. exists (insertAll members ∅). split.
  - rewrite GetPower_run, (bmcAPICall_answered _ _ _ _ _ _ _ Ha Hc Hurl Hans).
    now rewrite (objectAPIParse_members _ _ _ Hp).
  - intros k. rewrite insertAll_lookup, lookup_empty.
    now destruct (lastValue k members).
Qed.

Lemma GetPower_result_witness :
  exists m,
    GetPower anyURL
      (mockClient (Some (respond 200 "200 OK"
         (js "{'response':[{'result':[{'node1':'0','node2':'1','node1':'1'}]}]}"))))
      []
    = (Ok m, ([] ++ [callRequest
                       (mockClient (Some (respond 200 "200 OK"
         (js "{'response':[{'result':[{'node1':'0','node2':'1','node1':'1'}]}]}"))))
                       (basicCredentials "user" "pass") powerEndpoint])%list)
    /\ forall k, m !! k = lastValue k [("node1", "0"); ("node2", "1"); ("node1", "1")].
Proof.
  apply (GetPower_result anyURL _ (basicCredentials "user" "pass")
           (respond 200 "200 OK"
         (js "{'response':[{'result':[{'node1':'0','node2':'1','node1':'1'}]}]}"))
           []
         (js "{'response':[{'result':[{'node1':'0','node2':'1','node1':'1'}]}]}"));
    try reflexivity.
  eexists. repeat split; reflexivity.
Defined.

(** X10: when the transport answers the request of Other with status 200
    and an envelope with one result object whose values are strings, the
    record Other returns holds, in each field, the value of the last
    member with the lower-case name of the field, and the empty string
    when the object has no such member; members with other keys are
    ignored. *)
Theorem Other_result (parseURL : string -> bool) (b : BMCAPI)
    (a : bmcApiAuth) (c : Http.Client) (w : World) (body : string)
    (members : list (string * string)) :
  auth b = Some a -> Client b = Some c ->
  parseURL (BaseURL b +:+ otherEndpoint) = true ->
  answers c w (callRequest b a otherEndpoint) body ->
  parse body = inr (objectEnvelope (stringMembers members)) ->
  Other parseURL b w
  = (Ok (otherOfMembers members), (w ++ [callRequest b a otherEndpoint])%list).
Proof.
  intros Ha Hc Hurl Hans Hp.
  rewrite Other_run, (bmcAPICall_answered _ _ _ _ _ _ _ Ha Hc Hurl Hans).
  unfold otherOfBody. rewrite (objectAPIParse_members _ _ _ Hp).
  now rewrite recordOfMap_members.
Qed.

Lemma Other_result_witness :
  Other anyURL
    (mockClient (Some (respond 200 "200 OK"
       (js "{'response':[{'result':[{'api':'1.0','uptime':'5','api':'1.1'}]}]}"))))
    []
  = (Ok (otherOfMembers [("api", "1.0"); ("uptime", "5"); ("api", "1.1")]),
     ([] ++ [callRequest
               (mockClient (Some (respond 200 "200 OK"
       (js "{'response':[{'result':[{'api':'1.0','uptime':'5','api':'1.1'}]}]}"))))
               (basicCredentials "user" "pass") otherEndpoint])%list).
Proof.
  apply (Other_result anyURL _ (basicCredentials "user" "pass")
           (respond 200 "200 OK"
       (js "{'response':[{'result':[{'api':'1.0','uptime':'5','api':'1.1'}]}]}"))
           []
       (js "{'response':[{'result':[{'api':'1.0','uptime':'5','api':'1.1'}]}]}")
           [("api", "1.0"); ("uptime", "5"); ("api", "1.1")]);
    try reflexivity.
  eexists. repeat split; reflexivity.
Defined.

(** ** Failures *)

Lemma callOutcome_failure answer failure :
  callFailure answer = Some failure -> callOutcome answer = Err failure.
Proof.
  unfold callFailure, callOutcome. destruct answer as [err|resp].
  - now intros [= <-].
  - destruct (StatusCode resp =? StatusOK)%Z; [|now intros [= <-]].
    destruct (ReadAll resp); [now intros [= <-] | discriminate].
Qed.

Lemma inlineOutcome_failure answer failure :
  inlineCallFailure answer = Some failure -> inlineOutcome answer = Err failure.
Proof.
  unfold inlineCallFailure, callFailure, inlineOutcome.
  destruct answer as [err|resp].
  - now intros [= <-].
  - destruct (StatusCode resp =? StatusOK)%Z; [|now intros [= <-]].
    destruct (ReadAll resp); [now intros [= <-] | discriminate].
Qed.

(** X11: when the transport fails, answers with a status other than 200,
    or gives a body that cannot be read, every operation returns, after
    its one request, the error of the call wrapped in the context of the
    operation; Other wraps it in the context of USB Boot, and the inline
    Other returns it unwrapped. *)
Theorem operations_call_failure (parseURL : string -> bool) (b : BMCAPI)
    (a : bmcApiAuth) (c : Http.Client) (w : World) :
  auth b = Some a -> Client b = Some c ->
  (forall failure,
     parseURL (BaseURL b +:+ powerEndpoint) = true ->
     callFailure (Do c w (callRequest b a powerEndpoint)) = Some failure ->
     GetPower parseURL b w
     = (Err (wrapped "error during Get Power call: %w" failure),
        (w ++ [callRequest b a powerEndpoint])%list))
  /\ (forall failure,
        parseURL (BaseURL b +:+ otherEndpoint) = true ->
        callFailure (Do c w (callRequest b a otherEndpoint)) = Some failure ->
        Other parseURL b w
        = (Err (wrapped "error during USB Boot API call: %w" failure),
           (w ++ [callRequest b a otherEndpoint])%list))
  /\ (forall failure,
        parseURL (BaseURL b +:+ otherEndpoint) = true ->
        inlineCallFailure (Do c w (callRequest b a otherEndpoint)) = Some failure ->
        Other_inline parseURL b w
        = (Err failure, (w ++ [callRequest b a otherEndpoint])%list))
  /\ (forall op failure,
        validArguments op ->
        parseURL (BaseURL b +:+ operationEndpoint op) = true ->
        callFailure (Do c w (callRequest b a (operationEndpoint op)))
          = Some failure ->
        run parseURL b op w
        = (Err (wrapped (operationContext op) failure),
           (w ++ [callRequest b a (operationEndpoint op)])%list)).
Proof.
  intros Ha Hc. repeat split.
  - intros failure Hurl Hf.
    rewrite GetPower_run, (bmcAPICall_run _ _ _ _ _ _ Hurl Ha Hc).
    now rewrite (callOutcome_failure _ _ Hf).
  - intros failure Hurl Hf.
    rewrite Other_run, (bmcAPICall_run _ _ _ _ _ _ Hurl Ha Hc).
    now rewrite (callOutcome_failure _ _ Hf).
  - intros failure Hurl Hf.
    rewrite (Other_inline_run _ _ _ _ _ Hurl Ha Hc).
    now rewrite (inlineOutcome_failure _ _ Hf).
  - intros op failure Hv Hurl Hf.
    rewrite (run_call _ _ _ _ Hv), (bmcAPICall_run _ _ _ _ _ _ Hurl Ha Hc).
    now rewrite (callOutcome_failure _ _ Hf).
Qed.

Lemma operations_call_failure_witness :
  Other anyURL (mockClient (Some (respond 503 "503 Service Unavailable" ""))) []
  = (Err (wrapped "error during USB Boot API call: %w"
            (httpError "503 Service Unavailable")),
     ([] ++ [callRequest
               (mockClient (Some (respond 503 "503 Service Unavailable" "")))
               (basicCredentials "user" "pass") otherEndpoint])%list).
Proof.
  apply (proj1 (proj2
    (operations_call_failure anyURL
       (mockClient (Some (respond 503 "503 Service Unavailable" "")))
       (basicCredentials "user" "pass")
       (respond 503 "503 Service Unavailable" "") [] eq_refl eq_refl)));
    reflexivity.
Defined.

Lemma resultAPIParse_malformed b body e :
  parse body = inl e -> resultAPIParse b body = Err (parseFailure e).
Proof.
  intros Hp. unfold resultAPIParse.
  now rewrite (Unmarshal_malformed _ _ _ _ _ Hp).
Qed.

Lemma objectAPIParse_malformed b body e :
  parse body = inl e -> objectAPIParse b body = Err (parseFailure e).
Proof.
  intros Hp. unfold objectAPIParse.
  now rewrite (Unmarshal_malformed _ _ _ _ _ Hp).
Qed.

(** X12: for a client with its credentials, when the URL of an
    operation parses and the transport answers the request of that
    operation with status 200 and a body that is not JSON, GetPower and
    the operations that return a string return the parse error of the
    helper as it is, not wrapped in their context; Other wraps it once
    more, and the inline Other returns a parse error of its own; each has
    sent its one request. *)
Theorem operations_malformed_body (parseURL : string -> bool) (b : BMCAPI)
    (a : bmcApiAuth) (c : Http.Client) (w : World) (body : string)
    (e : json_error) :
  auth b = Some a -> Client b = Some c ->
  parse body = inl e ->
  (parseURL (BaseURL b +:+ powerEndpoint) = true ->
   answers c w (callRequest b a powerEndpoint) body ->
   GetPower parseURL b w
   = (Err (parseFailure e), (w ++ [callRequest b a powerEndpoint])%list))
  /\ (parseURL (BaseURL b +:+ otherEndpoint) = true ->
      answers c w (callRequest b a otherEndpoint) body ->
      Other parseURL b w
      = (Err (wrapped "error parsing response: %w" (parseFailure e)),
         (w ++ [callRequest b a otherEndpoint])%list)
      /\ Other_inline parseURL b w
         = (Err (inlineParseFailure e),
            (w ++ [callRequest b a otherEndpoint])%list))
  /\ (forall op,
        validArguments op ->
        parseURL (BaseURL b +:+ operationEndpoint op) = true ->
        answers c w (callRequest b a (operationEndpoint op)) body ->
        run parseURL b op w
        = (Err (parseFailure e),
           (w ++ [callRequest b a (operationEndpoint op)])%list)).
Proof.
  intros Ha Hc Hp. split; [|split].
  - intros Hurl Hans.
    rewrite GetPower_run, (bmcAPICall_answered _ _ _ _ _ _ _ Ha Hc Hurl Hans).
    now rewrite (objectAPIParse_malformed _ _ _ Hp).
  - intros Hurl Hans. split.
    + rewrite Other_run, (bmcAPICall_answered _ _ _ _ _ _ _ Ha Hc Hurl Hans).
      unfold otherOfBody. now rewrite (objectAPIParse_malformed _ _ _ Hp).
    + rewrite (Other_inline_run _ _ _ _ _ Hurl Ha Hc).
      destruct Hans as (resp & Hdo & Hst & Hrd).
      unfold inlineOutcome. rewrite Hdo, Hst, Z.eqb_refl, Hrd.
      unfold otherInlineOfBody. now rewrite (Unmarshal_malformed _ _ _ _ _ Hp).
  - intros op Hv Hurl Hans.
    rewrite (run_answered _ _ _ _ _ _ _ Hv Ha Hc Hurl Hans).
    now rewrite (resultAPIParse_malformed _ _ _ Hp).
Qed.

Lemma operations_malformed_body_witness :
  Other anyURL (mockClient (Some (respond 200 "200 OK" "<html>"))) []
  = (Err (wrapped "error parsing response: %w"
            (parseFailure (SyntaxError "<" "looking for beginning of value"))),
     ([] ++ [callRequest (mockClient (Some (respond 200 "200 OK" "<html>")))
               (basicCredentials "user" "pass") otherEndpoint])%list).
Proof.
  apply (proj1 (proj2
    (operations_malformed_body anyURL
       (mockClient (Some (respond 200 "200 OK" "<html>")))
       (basicCredentials "user" "pass")
       (respond 200 "200 OK" "<html>") [] "<html>"
       (SyntaxError "<" "looking for beginning of value")
       eq_refl eq_refl eq_refl))).
  - reflexivity.
  - eexists. repeat split; reflexivity.
Defined.

(** ** Values that are not strings *)

Lemma decMembers_saved members : forall cur e,
  snd (decMembers members cur (Some e)) = Some e.
Proof.
  induction members as [|[k v] members IH]; intros cur e; [reflexivity|].
  cbn [decMembers]. unfold bind.
  destruct v; cbn; apply IH.
Qed.

Lemma decMembers_mismatch members : forall cur,
  snd (decMembers members cur None)
  = option_map (fun j => UnmarshalTypeError (kindName j) "string")
      (firstMismatch members).
Proof.
  unfold firstMismatch.
  induction members as [|[k v] members IH]; intros cur; [reflexivity|].
  cbn [decMembers List.find snd]. unfold bind.
  destruct v; cbn; try apply IH; apply decMembers_saved.
Qed.

Lemma objectAPIParse_mismatch b body members j :
  parse body = inr (objectEnvelope members) ->
  firstMismatch members = Some j ->
  objectAPIParse b body = Err (typeFailure j).
Proof.
  intros Hp Hj. unfold objectAPIParse.
  rewrite (Unmarshal_parse _ _ _ _ _ Hp), objectEnvelope_decode.
  pose proof (decMembers_mismatch members ∅) as Hs.
  destruct (decMembers members ∅ None) as [m saved]. cbn [snd] in Hs.
  rewrite Hs, Hj. reflexivity.
Qed.

(** X13: for a client with its credentials, when the URL of GetPower
    or of Other parses and the transport answers the request of that
    operation with status 200 and an envelope whose result object has a
    member value that is neither a string nor null (a number, say),
    GetPower fails with the type error of the first such value, though
    the body is valid JSON, and Other with that error wrapped; no map or
    record is returned. *)
Theorem object_operations_non_string_value (parseURL : string -> bool)
    (b : BMCAPI) (a : bmcApiAuth) (c : Http.Client) (w : World)
    (body : string) (members : list (string * json)) (j : json) :
  auth b = Some a -> Client b = Some c ->
  parse body = inr (objectEnvelope members) ->
  firstMismatch members = Some j ->
  (parseURL (BaseURL b +:+ powerEndpoint) = true ->
   answers c w (callRequest b a powerEndpoint) body ->
   GetPower parseURL b w
   = (Err (typeFailure j), (w ++ [callRequest b a powerEndpoint])%list))
  /\ (parseURL (BaseURL b +:+ otherEndpoint) = true ->
      answers c w (callRequest b a otherEndpoint) body ->
      Other parseURL b w
      = (Err (wrapped "error parsing response: %w" (typeFailure j)),
         (w ++ [callRequest b a otherEndpoint])%list)).
Proof.
  intros Ha Hc Hp Hj. split.
  - intros Hurl Hans.
    rewrite GetPower_run, (bmcAPICall_answered _ _ _ _ _ _ _ Ha Hc Hurl Hans).
    now rewrite (objectAPIParse_mismatch b body members j Hp Hj).
  - intros Hurl Hans.
    rewrite Other_run, (bmcAPICall_answered _ _ _ _ _ _ _ Ha Hc Hurl Hans).
    unfold otherOfBody.
    now rewrite (objectAPIParse_mismatch b body members j Hp Hj).
Qed.

Lemma object_operations_non_string_value_witness :
  GetPower anyURL
    (mockClient (Some (respond 200 "200 OK"
       (js "{'response':[{'result':[{'node1':1,'node2':0}]}]}")))) []
  = (Err (typeFailure (JNum "1")),
     ([] ++ [callRequest
               (mockClient (Some (respond 200 "200 OK"
       (js "{'response':[{'result':[{'node1':1,'node2':0}]}]}"))))
               (basicCredentials "user" "pass") powerEndpoint])%list).
Proof.
  apply (proj1
    (object_operations_non_string_value anyURL
       (mockClient (Some (respond 200 "200 OK"
          (js "{'response':[{'result':[{'node1':1,'node2':0}]}]}"))))
       (basicCredentials "user" "pass")
       (respond 200 "200 OK"
          (js "{'response':[{'result':[{'node1':1,'node2':0}]}]}"))
       [] (js "{'response':[{'result':[{'node1':1,'node2':0}]}]}")
       [("node1", JNum "1"); ("node2", JNum "0")] (JNum "1")
       eq_refl eq_refl eq_refl eq_refl)).
  - reflexivity.
  - eexists. repeat split; reflexivity.
Defined.

(** ** The example program *)



Lemma Println_report out r :
  Main.Println [Main.OString "Version:"; Main.OString (Version r)]
    (Main.Println [Main.OString "MAC:"; Main.OString (MAC r)]
       (Main.Println [Main.OString "IP:"; Main.OString (IP r)]
          (Main.Println [Main.OString "Buildtime:"; Main.OString (Buildtime r)]
             (Main.Println [Main.OString "Buildroot:"; Main.OString (Buildroot r)]
                (Main.Println [Main.OString "Build Version:";
                               Main.OString (BuildVersion r)]
                   (Main.Println [Main.OString "API:"; Main.OString (API r)]
                      out))))))
  = (out ++ report r)%list.
Proof. unfold Main.Println, report. rewrite <- !app_assoc. reflexivity. Qed.


Lemma main_handshake parseURL Args client out w username password :
  Args !! 1%nat = Some username -> Args !! 2%nat = Some password ->
  Main.main parseURL Args client out w
  = match NewBMCAPI parseURL "https://turingpi.local" "bearer" username password
            (Some client) w with
    | (Panic t, w') => (Panic t, out, w')
    | (Err err, w') =>
      (Ok tt, (out ++ [[Main.OString "Error creating BMCAPI:";
                        Main.OError err]])%list, w')
    | (Ok bmcClient, w') =>
      match Other parseURL bmcClient w' with
      | (Panic t, w'') => (Panic t, out, w'')
      | (Err err, w'') =>
        (Ok tt, (out ++ [[Main.OString "Error getting other info:";
                          Main.OError err]])%list, w'')
      | (Ok otherInfo, w'') => (Ok tt, (out ++ report otherInfo)%list, w'')
      end
    end.
Proof.
  intros H1 H2. unfold Main.main.
  assert (Hlen : (length Args <? 3)%nat = false).
  { apply Nat.ltb_ge. apply lookup_lt_Some in H2. lia. }
  rewrite Hlen, H1, H2.
  destruct (NewBMCAPI _ _ _ _ _ _ _) as [[bmcClient|err|t] w']; try reflexivity.
  destruct (Other parseURL bmcClient w') as [[otherInfo|err|t] w''];
    try reflexivity.
  now rewrite Println_report.
Qed.




(** X15: when the handshake of the example program is answered with
    status 200 and an object of string members, each key of which is a
    field name of the credentials as written or matches no field (no
    case variant of a name), whose last member id is a token that is not
    empty, and the request of Other that carries this token is answered
    with status 200 and an envelope with one result object of string
    members, the program sends these two requests and prints the seven
    lines of the record of that object. *)
Theorem main_prints_record (parseURL : string -> bool) (Args : list string)
    (client : Http.Client) (out : list Main.line) (w : World)
    (username password token body1 body2 : string)
    (members1 members2 : list (string * string)) :
  parseURL "https://turingpi.local/api/bmc/authenticate" = true ->
  parseURL "https://turingpi.local/api/bmc?opt=get&type=other" = true ->
  Args !! 1%nat = Some username -> Args !! 2%nat = Some password ->
  answers client w (programHandshake username password) body1 ->
  parse body1 = inr (JObj (stringMembers members1)) ->
  Forall exactAuthKey (List.map fst members1) ->
  lastValue "id" members1 = Some token -> token <> "" ->
  answers client (w ++ [programHandshake username password])%list
    (programOther token) body2 ->
  parse body2 = inr (objectEnvelope (stringMembers members2)) ->
  Main.main parseURL Args client out w
  = (Ok tt, (out ++ report (otherOfMembers members2))%list,
     (w ++ [programHandshake username password; programOther token])%list).
Proof.
  intros Hu1 Hu2 H1 H2 (resp & Hdo & Hst & Hrd) Hp1 Hk Hid Htok Hans2 Hp2.
  rewrite (main_handshake _ _ _ _ _ _ _ H1 H2).
  set (a := credentialsOfMembers members1).
  set (b := {| auth := Some a; BaseURL := effectiveBaseURL "https://turingpi.local";
               Client := Some client; AuthType := "bearer" |}).
  assert (Htoken : AccessToken a = token)
    by (unfold a, credentialsOfMembers; cbn [AccessToken]; now rewrite Hid).
  assert (Hnew : NewBMCAPI parseURL "https://turingpi.local" "bearer" username
                   password (Some client) w
                 = (Ok b, (w ++ [programHandshake username password])%list)).
  { apply NewBMCAPI_accepted. split; [now right|]. split; [exact Hu1|].
    exists client, resp, a. repeat split; try assumption.
    exists body1. split; [exact Hrd|]. split; [|now rewrite Htoken].
    rewrite (Unmarshal_parse _ _ _ _ _ Hp1). cbn [decStruct].
    rewrite (decFields_auth members1 ∅ zeroAuth None Hk) by reflexivity.
    now rewrite credentialsOfMap_members. }
  rewrite Hnew, Other_run.
  assert (Hreq : callRequest b a otherEndpoint = programOther token)
    by (rewrite <- Htoken; reflexivity).
  rewrite (bmcAPICall_answered parseURL b a client otherEndpoint _ body2
             eq_refl eq_refl Hu2) by (rewrite Hreq; exact Hans2).
  unfold otherOfBody. rewrite (objectAPIParse_members _ _ _ Hp2).
  rewrite recordOfMap_members, Hreq, <- app_assoc. reflexivity.
Qed.

Lemma main_prints_record_witness :
  Main.main anyURL ["program"; "root"; "turing"] device [] []
  = (Ok tt, ([] ++ report (otherOfMembers fixtureMembers))%list,
     ([] ++ [programHandshake "root" "turing"; programOther "tok"])%list).
Proof.
  apply (main_prints_record anyURL ["program"; "root"; "turing"] device [] []
           "root" "turing" "tok" (js "{'id':'tok','name':'root'}") fixture
           [("id", "tok"); ("name", "root")] fixtureMembers);
    try reflexivity.
  - eexists. repeat split; reflexivity.
  - repeat constructor; left; cbn; tauto.
  - discriminate.
  - eexists. repeat split; reflexivity.
Defined.

End Properties.
